(** * function_app.py: the "today (KST)" article crawler

    A shallow embedding of [function_app.py] (an Azure Functions HTTP
    handler that crawls a news category page and returns the articles
    published today in Asia/Seoul time) together with the properties of
    its extraction pipeline.

    Conventions of the embedding:
    - a Python [str] is a Rocq [string]; a character is an 8-bit code
      point (the Latin-1 range of Python's code points);
    - a Python exception is a value of [exn]; a computation that may raise
      returns [result];
    - network access, logging and sleeping are recorded in a trace of
      events (the monad [M]);
    - library functions whose algorithm is outside the repository
      (the HTML parser, [json.loads], [datetime.fromisoformat], the
      iteration order of a [set], the tz database ...) are fields of
      the environment record [PyLib]; the functions of [urllib.parse]
      are transcribed from CPython 3.11. *)

From Stdlib Require Import List String Ascii ZArith Lia Bool Permutation.
From Stdlib Require Import Floats DecimalString DecimalZ.
Import ListNotations.
Set Warnings "-register-all,-inexact-float".
Local Open Scope list_scope.
Local Open Scope string_scope.

(** * Python values: exceptions and results *)

Module Py.

Inductive exn : Type :=
| ValueError
| TypeError
| AttributeError
| OverflowError
| KeyError
| RequestException.

Inductive result (A : Type) : Type :=
| Ok (a : A)
| Raise (e : exn).

Arguments Ok {A} a.
Arguments Raise {A} e.

Definition bind {A B} (r : result A) (k : A -> result B) : result B :=
  match r with
  | Ok a => k a
  | Raise e => Raise e
  end.

(** [try: body / except Exception: handler] *)
Definition try_except {A} (body : result A) (handler : exn -> result A)
  : result A :=
  match body with
  | Ok a => Ok a
  | Raise e => handler e
  end.

Definition is_ok {A} (r : result A) : bool :=
  match r with Ok _ => true | Raise _ => false end.

End Py.
Export Py.

Notation "x <- c1 ;; c2" := (Py.bind c1 (fun x => c2))
  (at level 61, c1 at next level, right associativity).

(** * Python [str] operations used by the program *)

Module Str.

Definition chr (n : nat) : ascii := ascii_of_nat n.
Definition ord (c : ascii) : nat := nat_of_ascii c.

(** [s[:n]] and [s[n:]] for [0 <= n]. *)
Fixpoint take (n : nat) (s : string) : string :=
  match n, s with
  | S n', String c r => String c (take n' r)
  | _, _ => ""
  end.

Fixpoint drop (n : nat) (s : string) : string :=
  match n, s with
  | S n', String _ r => drop n' r
  | _, _ => s
  end.

(** [s.find(c)]: index of the first occurrence. *)
Fixpoint find (c : ascii) (s : string) : option nat :=
  match s with
  | "" => None
  | String a r =>
      if Ascii.eqb a c then Some 0%nat
      else option_map S (find c r)
  end.

(** [s.rfind(c)]: index of the last occurrence. *)
Fixpoint rfind (c : ascii) (s : string) : option nat :=
  match s with
  | "" => None
  | String a r =>
      match rfind c r with
      | Some i => Some (S i)
      | None => if Ascii.eqb a c then Some 0%nat else None
      end
  end.

(** [s.find(c, start)] *)
Definition find_from (c : ascii) (start : nat) (s : string) : option nat :=
  option_map (fun i => (start + i)%nat) (find c (drop start s)).

(** [c in s] for a one-character [c]. *)
Definition has (c : ascii) (s : string) : bool :=
  match find c s with Some _ => true | None => false end.

(** [sub in s] *)
Fixpoint contains (sub s : string) : bool :=
  prefix sub s ||
  match s with
  | "" => false
  | String _ r => contains sub r
  end.

(** [s.split(c)]: never the empty list. *)
Fixpoint split (c : ascii) (s : string) : list string :=
  match s with
  | "" => [""]
  | String a r =>
      if Ascii.eqb a c then "" :: split c r
      else match split c r with
           | h :: t => String a h :: t
           | [] => [String a ""]
           end
  end.

(** [s.split(c, 1)] when [c in s]: the parts before and after the first
    [c]. *)
Definition split1 (c : ascii) (s : string) : string * string :=
  match find c s with
  | Some i => (take i s, drop (S i) s)
  | None => (s, "")
  end.

(** [s.replace(c, new)] for a one-character [c]. *)
Fixpoint replace (c : ascii) (new : string) (s : string) : string :=
  match s with
  | "" => ""
  | String a r =>
      if Ascii.eqb a c then new ++ replace c new r
      else String a (replace c new r)
  end.

Fixpoint filter (p : ascii -> bool) (s : string) : string :=
  match s with
  | "" => ""
  | String a r => if p a then String a (filter p r) else filter p r
  end.

Fixpoint forallb (p : ascii -> bool) (s : string) : bool :=
  match s with
  | "" => true
  | String a r => p a && forallb p r
  end.

Fixpoint lstrip (p : ascii -> bool) (s : string) : string :=
  match s with
  | "" => ""
  | String a r => if p a then lstrip p r else s
  end.

Fixpoint rev (s : string) : string :=
  match s with
  | "" => ""
  | String a r => rev r ++ String a ""
  end.

Definition rstrip (p : ascii -> bool) (s : string) : string :=
  rev (lstrip p (rev s)).

Definition strip (p : ascii -> bool) (s : string) : string :=
  rstrip p (lstrip p s).

Definition in_range (lo hi : nat) (c : ascii) : bool :=
  (lo <=? ord c)%nat && (ord c <=? hi)%nat.

Definition is_digit (c : ascii) : bool := in_range 48 57 c.
Definition is_upper (c : ascii) : bool := in_range 65 90 c.
Definition is_lower (c : ascii) : bool := in_range 97 122 c.
Definition is_ascii_alpha (c : ascii) : bool := is_upper c || is_lower c.

(** [str.isspace] on the code points below 256: the characters removed
    by [str.strip()] and matched by [\s]. *)
Definition is_space (c : ascii) : bool :=
  in_range 9 13 c || in_range 28 32 c
  || (ord c =? 133)%nat || (ord c =? 160)%nat.

Definition lower_char (c : ascii) : ascii :=
  if is_upper c then chr (ord c + 32) else c.

(** [s.lower()] on ASCII letters. *)
Fixpoint lower (s : string) : string :=
  match s with
  | "" => ""
  | String a r => String (lower_char a) (lower r)
  end.

Definition is_empty (s : string) : bool :=
  match s with "" => true | _ => false end.

(** [sep.join(l)] *)
Definition join (sep : string) (l : list string) : string :=
  String.concat sep l.

End Str.

(** * [urllib.parse] (transcribed from CPython 3.11, [str] inputs) *)

Module Url.

Record ParseResult : Type := mkParseResult {
  scheme : string;
  netloc : string;
  path : string;
  params : string;
  query : string;
  fragment : string
}.

Definition uses_relative : list string :=
  [""; "ftp"; "http"; "gopher"; "nntp"; "imap"; "wais"; "file"; "https";
   "shttp"; "mms"; "prospero"; "rtsp"; "rtspu"; "sftp"; "svn"; "svn+ssh";
   "ws"; "wss"].

Definition uses_netloc : list string :=
  [""; "ftp"; "http"; "gopher"; "nntp"; "telnet"; "imap"; "wais"; "file";
   "mms"; "https"; "shttp"; "snews"; "prospero"; "rtsp"; "rtspu"; "rsync";
   "svn"; "svn+ssh"; "sftp"; "nfs"; "git"; "git+ssh"; "ws"; "wss"].

Definition uses_params : list string :=
  [""; "ftp"; "hdl"; "prospero"; "http"; "imap"; "https"; "shttp"; "rtsp";
   "rtspu"; "sip"; "sips"; "mms"; "sftp"; "tel"].

Definition mem (s : string) (l : list string) : bool :=
  existsb (String.eqb s) l.

(** [c in scheme_chars] *)
Definition is_scheme_char (c : ascii) : bool :=
  Str.is_lower c || Str.is_upper c || Str.is_digit c
  || Ascii.eqb c "+" || Ascii.eqb c "-" || Ascii.eqb c ".".

(** [c in _WHATWG_C0_CONTROL_OR_SPACE] *)
Definition is_c0_or_space (c : ascii) : bool := (Str.ord c <=? 32)%nat.

(** [c in _UNSAFE_URL_BYTES_TO_REMOVE] *)
Definition is_unsafe (c : ascii) : bool :=
  (Str.ord c =? 9)%nat || (Str.ord c =? 13)%nat || (Str.ord c =? 10)%nat.

Definition remove_unsafe (s : string) : string :=
  Str.filter (fun c => negb (is_unsafe c)) s.

(** The first two statements of [urlsplit]: strip the left of the URL and
    delete tab, CR and LF everywhere. *)
Definition clean_url (url : string) : string :=
  remove_unsafe (Str.lstrip is_c0_or_space url).

Definition clean_scheme (scheme : string) : string :=
  remove_unsafe (Str.strip is_c0_or_space scheme).

(** The scheme detection of [urlsplit]:
    [i = url.find(':'); if i > 0 and url[0].isascii() and url[0].isalpha()]
    and every character of [url[:i]] is in [scheme_chars]. *)
Definition explicit_scheme (url : string) : option (string * string) :=
  match Str.find ":" url, url with
  | Some i, String c0 _ =>
      if (0 <? i)%nat && Str.is_ascii_alpha c0
         && Str.forallb is_scheme_char (Str.take i url)
      then Some (Str.lower (Str.take i url), Str.drop (S i) url)
      else None
  | _, _ => None
  end.

(** [urlsplit(url).scheme != ""]: the URL names its scheme, it is
    absolute. *)
Definition is_absolute (url : string) : bool :=
  match explicit_scheme (clean_url url) with
  | Some _ => true
  | None => false
  end.

Definition is_netloc_delim (c : ascii) : bool :=
  Ascii.eqb c "/" || Ascii.eqb c "?" || Ascii.eqb c "#".

(** [len(s) - len(s.lstrip(non-delimiters))]: the position of the first
    character satisfying [p], or the length. *)
Fixpoint index_where (p : ascii -> bool) (s : string) : nat :=
  match s with
  | "" => 0
  | String a r => if p a then 0 else S (index_where p r)
  end.

(** [_splitnetloc(url, 2)] for a [url] that starts with [//]. *)
Definition _splitnetloc (url : string) : string * string :=
  let rest := Str.drop 2 url in
  let delim := index_where is_netloc_delim rest in
  (Str.take delim rest, Str.drop delim rest).

Section WithIpAddress.

(** [_check_bracketed_netloc] relies on [ipaddress.ip_address] and a
    regular expression for IPvFuture; the environment supplies whether
    it accepts a netloc ([true]) or raises [ValueError] ([false]). *)
Variable check_bracketed_netloc : string -> bool.

Definition urlsplit (url0 scheme0 : string)
  : result (string * string * string * string * string) :=
  let url := clean_url url0 in
  let scheme := clean_scheme scheme0 in
  let '(scheme, url) :=
    match explicit_scheme url with
    | Some (s, rest) => (s, rest)
    | None => (scheme, url)
    end in
  x <- (if prefix "//" url then
          let '(netloc, rest) := _splitnetloc url in
          let lb := Str.has "[" netloc in
          let rb := Str.has "]" netloc in
          if (lb && negb rb) || (rb && negb lb) then Raise ValueError
          else if lb && rb && negb (check_bracketed_netloc netloc)
               then Raise ValueError
               else Ok (netloc, rest)
        else Ok ("", url)) ;;
  let '(netloc, url) := x in
  let '(url, fragment) :=
    if Str.has "#" url then Str.split1 "#" url else (url, "") in
  let '(url, query) :=
    if Str.has "?" url then Str.split1 "?" url else (url, "") in
  (* _checknetloc(netloc) only raises when NFKC normalisation of a
     non-ASCII netloc yields one of [/?#@:], which no code point below
     256 does. *)
  Ok (scheme, netloc, url, query, fragment).

Definition _splitparams (url : string) : string * string :=
  match Str.rfind "/" url with
  | Some slash =>
      match Str.find_from ";" slash url with
      | Some i => (Str.take i url, Str.drop (S i) url)
      | None => (url, "")
      end
  | None =>
      match Str.find ";" url with
      | Some i => (Str.take i url, Str.drop (S i) url)
      | None => (url, "")
      end
  end.

Definition urlparse (url scheme0 : string) : result ParseResult :=
  sr <- urlsplit url scheme0 ;;
  let '(scheme, netloc, url, query, fragment) := sr in
  let '(url, params) :=
    if mem scheme uses_params && Str.has ";" url
    then _splitparams url else (url, "") in
  Ok (mkParseResult scheme netloc url params query fragment).

Definition urlunsplit (scheme netloc url query fragment : string) : string :=
  let url :=
    if negb (Str.is_empty netloc)
       || (negb (Str.is_empty scheme) && mem scheme uses_netloc
           && negb (prefix "//" url))
    then
      let url := if negb (Str.is_empty url) && negb (prefix "/" url)
                 then "/" ++ url else url in
      "//" ++ netloc ++ url
    else url in
  let url := if negb (Str.is_empty scheme) then scheme ++ ":" ++ url
             else url in
  let url := if negb (Str.is_empty query) then url ++ "?" ++ query
             else url in
  if negb (Str.is_empty fragment) then url ++ "#" ++ fragment else url.

Definition urlunparse (r : ParseResult) : string :=
  let url := if negb (Str.is_empty (params r))
             then path r ++ ";" ++ params r else path r in
  urlunsplit (scheme r) (netloc r) url (query r) (fragment r).

(** [segments[1:-1] = filter(None, segments[1:-1])] *)
Definition filter_middle (segments : list string) : list string :=
  match segments with
  | first :: (_ :: _) as rest =>
      (first :: List.filter (fun x => negb (Str.is_empty x)) (removelast rest))
        ++ [last rest ""]
  | _ => segments
  end%list.

(** The loop of [urljoin] over [segments], accumulating [resolved_path];
    [pop()] on an empty list raises [IndexError], which is ignored. *)
Fixpoint resolve_segments (segments resolved_path : list string)
  : list string :=
  match segments with
  | [] => resolved_path
  | seg :: rest =>
      if seg =? ".." then resolve_segments rest (removelast resolved_path)
      else if seg =? "." then resolve_segments rest resolved_path
      else resolve_segments rest (resolved_path ++ [seg])%list
  end.

Definition urljoin (base url : string) : result string :=
  if Str.is_empty base then Ok url
  else if Str.is_empty url then Ok base
  else
    b <- urlparse base "" ;;
    u <- urlparse url (scheme b) ;;
    if negb (scheme u =? scheme b) || negb (mem (scheme u) uses_relative)
    then Ok url
    else
      let in_netloc := mem (scheme u) uses_netloc in
      if in_netloc && negb (Str.is_empty (netloc u))
      then Ok (urlunparse u)
      else
        let netloc' := if in_netloc then netloc b else netloc u in
        if Str.is_empty (path u) && Str.is_empty (params u) then
          let query' :=
            if Str.is_empty (query u) then query b else query u in
          Ok (urlunparse
                (mkParseResult (scheme u) netloc' (path b) (params b)
                               query' (fragment u)))
        else
          let base_parts := Str.split "/" (path b) in
          let base_parts :=
            if negb (Str.is_empty (last base_parts ""))
            then removelast base_parts else base_parts in
          let segments :=
            if prefix "/" (path u) then Str.split "/" (path u)
            else filter_middle (base_parts ++ Str.split "/" (path u))%list in
          let resolved_path := resolve_segments segments [] in
          let resolved_path :=
            if (last segments "" =? ".") || (last segments "" =? "..")
            then (resolved_path ++ [""])%list else resolved_path in
          let joined := Str.join "/" resolved_path in
          let path' := if Str.is_empty joined then "/" else joined in
          Ok (urlunparse
                (mkParseResult (scheme u) netloc' path' (params u)
                               (query u) (fragment u))).

End WithIpAddress.

End Url.

(** * The regular expression of [is_article_url] *)

Module Re.

(** [re.match(r"/20\d{2}/\d{2}/", s)]: the pattern at the start of [s];
    [\d] is a decimal digit, and the only ones below 256 are [0-9]. *)
Definition match_year_month (s : string) : bool :=
  match s with
  | String s1 (String c2 (String c0 (String y1 (String y2 (String s2
      (String m1 (String m2 (String s3 _)))))))) =>
      Ascii.eqb s1 "/" && Ascii.eqb c2 "2" && Ascii.eqb c0 "0"
      && Str.is_digit y1 && Str.is_digit y2 && Ascii.eqb s2 "/"
      && Str.is_digit m1 && Str.is_digit m2 && Ascii.eqb s3 "/"
  | _ => false
  end.

(** [re.search(r"/20\d{2}/\d{2}/", s) is not None]: the pattern at some
    position of [s]. *)
Fixpoint search_year_month (s : string) : bool :=
  match_year_month s ||
  match s with
  | "" => false
  | String _ r => search_year_month r
  end.

End Re.

(** * The document tree of BeautifulSoup *)

Module Bs4.

(** A string of the tree is either ordinary text or one of the special
    strings (comment, script or style content, ...), which [.string]
    returns and [get_text] leaves out. *)
Inductive string_kind : Type := PlainText | SpecialString.

Inductive Node : Type :=
| NavigableString (k : string_kind) (s : string)
| Tag (name : string) (attrs : list (string * string))
      (contents : list Node).

(** Induction on trees, with the hypothesis for every child. *)
Fixpoint Node_tree_ind (P : Node -> Prop)
  (Hstring : forall k s, P (NavigableString k s))
  (Htag : forall name attrs contents,
      Forall P contents -> P (Tag name attrs contents))
  (n : Node) : P n :=
  match n with
  | NavigableString k s => Hstring k s
  | Tag name attrs contents =>
      Htag name attrs contents
        ((fix children (l : list Node) : Forall P l :=
            match l with
            | [] => Forall_nil P
            | c :: r =>
                Forall_cons c (Node_tree_ind P Hstring Htag c) (children r)
            end) contents)
  end.

(** A keyword filter of [find]/[find_all]: [attr=value] or [attr=True]. *)
Inductive attr_filter : Type :=
| AttrIs (key value : string)
| AttrPresent (key : string).

Fixpoint lookup {V} (key : string) (d : list (string * V)) : option V :=
  match d with
  | [] => None
  | (k, v) :: rest => if k =? key then Some v else lookup key rest
  end.

(** [tag.get(key)] *)
Definition get (key : string) (n : Node) : option string :=
  match n with
  | Tag _ attrs _ => lookup key attrs
  | NavigableString _ _ => None
  end.

(** [tag[key]] *)
Definition getitem (n : Node) (key : string) : result string :=
  match get key n with
  | Some v => Ok v
  | None => Raise KeyError
  end.

(** [tag.descendants]: every node below [n], in document order. *)
Fixpoint descendants (n : Node) : list Node :=
  match n with
  | NavigableString _ _ => []
  | Tag _ _ cs => flat_map (fun c => c :: descendants c) cs
  end.

Definition satisfies (n : Node) (f : attr_filter) : bool :=
  match f with
  | AttrIs k v =>
      match get k n with Some v' => v' =? v | None => false end
  | AttrPresent k =>
      match get k n with Some _ => true | None => false end
  end.

Definition matches (name : string) (fs : list attr_filter) (n : Node)
  : bool :=
  match n with
  | Tag nm _ _ => (nm =? name) && forallb (satisfies n) fs
  | NavigableString _ _ => false
  end.

(** [root.find_all(name, **fs)] *)
Definition find_all (name : string) (fs : list attr_filter) (root : Node)
  : list Node :=
  List.filter (matches name fs) (descendants root).

(** [root.find(name, **fs)] *)
Definition find (name : string) (fs : list attr_filter) (root : Node)
  : option Node :=
  hd_error (find_all name fs root).

(** [tag.string]: the only child if it is a string, the [.string] of the
    only child if it is a tag, otherwise [None]. *)
Fixpoint string_of (n : Node) : option string :=
  match n with
  | NavigableString _ s => Some s
  | Tag _ _ [c] => string_of c
  | Tag _ _ _ => None
  end.

Definition text_of (n : Node) : list string :=
  match n with
  | NavigableString PlainText s => [s]
  | _ => []
  end.

(** [tag.get_text(separator, strip=strip)] *)
Definition get_text (separator : string) (strip : bool) (n : Node)
  : string :=
  let strings := flat_map text_of (descendants n) in
  let strings :=
    if strip
    then List.filter (fun s => negb (Str.is_empty s))
                     (map (Str.strip Str.is_space) strings)
    else strings in
  Str.join separator strings.

(** Every node below [n] with the names of its ancestors, nearest first;
    [anc] are the ancestors of [n] itself. *)
Fixpoint walk (anc : list string) (n : Node) : list (list string * Node) :=
  match n with
  | NavigableString _ _ => []
  | Tag nm _ cs =>
      flat_map (fun c => (nm :: anc, c) :: walk (nm :: anc) c) cs
  end.

End Bs4.

(** * JSON values as [json.loads] returns them *)

Module Json.

Inductive json : Type :=
| JNull
| JBool (b : bool)
| JInt (z : Z)
| JFloat (f : float)
| JStr (s : string)
| JList (l : list json)
| JDict (d : list (string * json)).

(** [bool(v)] *)
Definition truthy (v : json) : bool :=
  match v with
  | JNull => false
  | JBool b => b
  | JInt z => negb (z =? 0)%Z
  | JFloat f => negb (PrimFloat.eqb f 0%float)
  | JStr s => negb (Str.is_empty s)
  | JList l => match l with [] => false | _ => true end
  | JDict d => match d with [] => false | _ => true end
  end.

(** [d.get(key)]: [None] when the key is absent. *)
Definition dict_get (key : string) (d : list (string * json)) : json :=
  match Bs4.lookup key d with
  | Some v => v
  | None => JNull
  end.

(** [a or b] *)
Definition or_else (a b : json) : json := if truthy a then a else b.

(** [v in {"NewsArticle", "Article", "BlogPosting"}]: hashing a list or a
    dict raises [TypeError]; a value of another type is hashable and
    equal to none of the three strings. *)
Definition in_article_types (v : json) : result bool :=
  match v with
  | JStr s =>
      Ok ((s =? "NewsArticle") || (s =? "Article") || (s =? "BlogPosting"))
  | JList _ | JDict _ => Raise TypeError
  | _ => Ok false
  end.

End Json.

(** * [datetime] *)

Module DateTime.

Local Open Scope Z_scope.

Definition US_PER_DAY : Z := 86400000000.
Definition MINYEAR : Z := 1.
Definition MAXYEAR : Z := 9999.
(** [date(9999, 12, 31).toordinal()] *)
Definition MAXORDINAL : Z := 3652059.

Definition _is_leap (year : Z) : bool :=
  (year mod 4 =? 0) && (negb (year mod 100 =? 0) || (year mod 400 =? 0)).

Definition _days_before_year (year : Z) : Z :=
  let y := year - 1 in
  y * 365 + y / 4 - y / 100 + y / 400.

Definition _DAYS_IN_MONTH : list Z :=
  [31; 28; 31; 30; 31; 30; 31; 31; 30; 31; 30; 31].

Definition _days_in_month (year month : Z) : Z :=
  if (month =? 2) && _is_leap year then 29
  else nth (Z.to_nat (month - 1)) _DAYS_IN_MONTH 0.

Definition _days_before_month (year month : Z) : Z :=
  fold_right Z.add 0 (firstn (Z.to_nat (month - 1)) _DAYS_IN_MONTH)
  + (if (2 <? month) && _is_leap year then 1 else 0).

Definition _ymd2ord (year month day : Z) : Z :=
  _days_before_year year + _days_before_month year month + day.

(** A [datetime]: [wall] is the reading of its own clock in microseconds
    since 0001-01-01T00:00:00, [utcoffset] what [dt.utcoffset()] returns
    in microseconds ([None] for a naive datetime). *)
Record datetime : Type := mkDatetime {
  wall : Z;
  utcoffset : option Z
}.

(** [datetime(year, month, day, tzinfo=tz)], [off] being the offset [tz]
    reports for that wall time; [_check_date_fields] raises
    [ValueError]. *)
Definition datetime_ymd (year month day : Z) (off : Z -> Z)
  : result datetime :=
  if negb ((MINYEAR <=? year) && (year <=? MAXYEAR)) then Raise ValueError
  else if negb ((1 <=? month) && (month <=? 12)) then Raise ValueError
  else if negb ((1 <=? day) && (day <=? _days_in_month year month))
  then Raise ValueError
  else
    let w := (_ymd2ord year month day - 1) * US_PER_DAY in
    Ok (mkDatetime w (Some (off w))).

(** [dt.date()] as a proleptic Gregorian ordinal. *)
Definition date (dt : datetime) : Z := wall dt / US_PER_DAY + 1.

(** [datetime + timedelta] raises [OverflowError] outside years 1..9999. *)
Definition checked (w : Z) : result Z :=
  if (0 <=? w) && (w <? MAXORDINAL * US_PER_DAY) then Ok w
  else Raise OverflowError.

(** [dt.astimezone(tz)]: [local] is the offset of the system time zone
    for a naive wall time, [fromutc] the offset of [tz] at a UTC
    instant. *)
Definition astimezone (local : Z -> result Z) (fromutc : Z -> Z)
  (dt : datetime) : result datetime :=
  myoffset <- match utcoffset dt with
              | Some o => Ok o
              | None => local (wall dt)
              end ;;
  utc <- checked (wall dt - myoffset) ;;
  let off := fromutc utc in
  w <- checked (utc + off) ;;
  Ok (mkDatetime w (Some off)).

(** [timezone.utc] *)
Definition utc_fromutc (_ : Z) : Z := 0.

(** [dt.replace(tzinfo=timezone.utc)] *)
Definition replace_tzinfo_utc (dt : datetime) : datetime :=
  mkDatetime (wall dt) (Some 0).

(** The instant a datetime with an offset denotes, in microseconds of
    UTC. *)
Definition instant (dt : datetime) : option Z :=
  option_map (fun o => wall dt - o) (utcoffset dt).

End DateTime.

(** * The environment: libraries, network, clock *)

Import Url Bs4 Json DateTime.

Record PyLib : Type := mkPyLib {
  (** [requests.get(url, headers=HEADERS, timeout=20)], then
      [raise_for_status()] and [.text] *)
  http_get : string -> result string;
  (** [BeautifulSoup(html, "html.parser")] *)
  html_parser : string -> result Node;
  json_loads : string -> result json;
  (** [datetime.fromisoformat] and [datetime.isoformat] *)
  fromisoformat : string -> result datetime;
  isoformat : datetime -> string;
  (** [datetime.strptime(s, "%B %d, %Y")] *)
  strptime_BdY : string -> result datetime;
  (** [m.group(0)] of [re.search] with the month-day-year pattern of
      [parse_human_datetime]; [None] when there is no match *)
  search_month_day_year : string -> option string;
  (** [int(s)], [float(s)], and [str(v)] of a float, list or dict *)
  py_int : string -> result Z;
  py_float : string -> result float;
  py_repr : json -> string;
  (** [list(s)] of a set [s] built by adding the given distinct strings
      in that order: the iteration order of the hash table *)
  set_iteration : list string -> list string;
  (** [ZoneInfo("Asia/Seoul")]: the offset at a UTC instant and the
      offset reported for a wall time, in microseconds *)
  kst_fromutc : Z -> Z;
  kst_utcoffset : Z -> Z;
  (** the system time zone, for naive datetimes *)
  local_utcoffset : Z -> result Z;
  (** the clock: the UTC instant of the request *)
  utcnow : Z;
  (** [dt.strftime("%Y-%m-%d")] *)
  strftime_Ymd : datetime -> string;
  (** [urllib.parse._check_bracketed_netloc] *)
  check_bracketed_netloc : string -> bool
}.

(** What the program relies on from [datetime]: [fromisoformat] inverts
    [isoformat] on datetimes with an offset, and [isoformat] never
    returns the empty string. *)
Definition isoformat_contract (E : PyLib) : Prop :=
  (forall w o, fromisoformat E (isoformat E (mkDatetime w (Some o)))
               = Ok (mkDatetime w (Some o)))
  /\ (forall d, isoformat E d <> "").

(** What the language guarantees about iterating a set: every element
    once. *)
Definition set_contract (E : PyLib) : Prop :=
  forall l, NoDup l -> Permutation (set_iteration E l) l.

(** * Effects: a trace of events next to the result *)

Inductive event : Type :=
| EvFetch (url : string)
| EvSleep (sec : float)
| EvLogWarning (url : string) (e : exn)
| EvLogException (e : exn).

Definition M (A : Type) : Type := (list event * result A)%type.

Definition ret {A} (a : A) : M A := ([], Ok a).

Definition lift {A} (r : result A) : M A := ([], r).

Definition emit (ev : event) : M unit := ([ev], Ok tt).

Definition bindM {A B} (m : M A) (k : A -> M B) : M B :=
  match m with
  | (t, Ok a) => let '(t', r) := k a in ((t ++ t')%list, r)
  | (t, Raise e) => (t, Raise e)
  end.

(** [try: body / except Exception as e: handler e] *)
Definition try_M {A} (body : M A) (handler : exn -> M A) : M A :=
  match body with
  | (t, Ok a) => (t, Ok a)
  | (t, Raise e) => let '(t', r) := handler e in ((t ++ t')%list, r)
  end.

Notation "x <~ c1 ;; c2" := (bindM c1 (fun x => c2))
  (at level 61, c1 at next level, right associativity).

Definition trace {A} (m : M A) : list event := fst m.
Definition outcome {A} (m : M A) : result A := snd m.

(** [time.sleep(sec)]: a negative or NaN argument raises [ValueError]. *)
Definition time_sleep (sec : float) : M unit :=
  if PrimFloat.ltb sec 0%float || PrimFloat.is_nan sec
  then lift (Raise ValueError)
  else emit (EvSleep sec).

(** * Python sets of strings *)

(** A set is represented by its distinct elements in the order they were
    first added. *)
Definition pyset : Type := list string.

Definition set_empty : pyset := [].

Definition set_mem (x : string) (s : pyset) : bool :=
  existsb (String.eqb x) s.

Definition set_add (x : string) (s : pyset) : pyset :=
  if set_mem x s then s else (s ++ [x])%list.

Definition len {A} (l : list A) : Z := Z.of_nat (List.length l).

(** [l[:n]] *)
Definition slice_to {A} (n : Z) (l : list A) : list A :=
  if (0 <=? n)%Z then firstn (Z.to_nat n) l
  else firstn (Z.to_nat (len l + n)) l.

(** * Articles, requests and responses *)

(** The dict returned by [parse_article]. *)
Record Article : Type := mkArticle {
  url : string;
  title : string;
  published_utc : option string;
  published_kst : option string;
  body : string
}.

Module Func.

(** [azure.functions.HttpRequest]: [get_json] is the outcome of calling
    [req.get_json()]. *)
Record HttpRequest : Type := mkRequest {
  method : string;
  params : list (string * string);
  get_json : result json
}.

(** The JSON document of a response, before [json.dumps]. *)
Inductive payload : Type :=
| InvalidDate
| InternalError (detail : exn)
| Items (date_kst : string) (count : Z) (items : list Article).

Record HttpResponse : Type := mkResponse {
  status_code : Z;
  response_body : payload
}.

End Func.

(** * The program *)

Definition CATEGORY_URL : string :=
  "https://techcrunch.com/category/artificial-intelligence/".

Local Open Scope Z_scope.

Section Crawler.

Variable E : PyLib.

Definition fetch (url : string) : M string :=
  _ <~ emit (EvFetch url) ;;
  lift (http_get E url).

Definition is_article_url (href : string) : bool :=
  match urlparse (check_bracketed_netloc E) href "" with
  | Ok u =>
      (Str.contains "techcrunch.com" (netloc u) || Str.is_empty (netloc u))
      && Re.search_year_month (path u)
  | Raise _ => false
  end.

Definition normalize_link (href : string) : result string :=
  urljoin (check_bracketed_netloc E) CATEGORY_URL href.

(** The first loop of [get_article_links], over [soup.find_all("h3")]. *)
Fixpoint h3_pass (h3s : list Node) (links : pyset) : result pyset :=
  match h3s with
  | [] => Ok links
  | h3 :: rest =>
      match find "a" [AttrPresent "href"] h3 with
      | Some a =>
          href <- getitem a "href" ;;
          if is_article_url href
          then (u <- normalize_link href ;; h3_pass rest (set_add u links))
          else h3_pass rest links
      | None => h3_pass rest links
      end
  end.

(** The second loop, over [soup.find_all("a", href=True)], left by
    [break] once [len(links) >= limit]. *)
Fixpoint anchor_pass (limit : Z) (anchors : list Node) (links : pyset)
  : result pyset :=
  match anchors with
  | [] => Ok links
  | a :: rest =>
      href <- getitem a "href" ;;
      links' <- (if is_article_url href
                 then (u <- normalize_link href ;; Ok (set_add u links))
                 else Ok links) ;;
      if len links' >=? limit then Ok links'
      else anchor_pass limit rest links'
  end.

(** The body of [get_article_links] after the page is fetched and
    parsed. *)
Definition collect_links (soup : Node) (limit : Z) : result (list string) :=
  links <- h3_pass (find_all "h3" [] soup) set_empty ;;
  links <- (if len links <? limit
            then anchor_pass limit (find_all "a" [AttrPresent "href"] soup)
                             links
            else Ok links) ;;
  Ok (slice_to limit (set_iteration E links)).

Definition get_article_links (category_url : string) (limit : Z)
  : M (list string) :=
  html <~ fetch category_url ;;
  soup <~ lift (html_parser E html) ;;
  lift (collect_links soup limit).

(** ** Timestamp strategies *)

(** [s.replace("Z", "+00:00")] on a value read from JSON: only a [str]
    has the method. *)
Definition json_replace_Z (v : json) : result string :=
  match v with
  | JStr s => Ok (Str.replace "Z" "+00:00" s)
  | _ => Raise AttributeError
  end.

(** [x or y] on optional values of which every non-[None] one is truthy
    (a [Tag], a [datetime]); [y] is not evaluated when [x] is there. *)
Definition or_opt {A} (x : option A) (y : option A) : option A :=
  match x with Some a => Some a | None => y end.

Definition or_res {A} (x y : result (option A)) : result (option A) :=
  match x with
  | Ok (Some a) => Ok (Some a)
  | Ok None => y
  | Raise e => Raise e
  end.

Definition parse_human_datetime (text : string) : result (option datetime) :=
  match search_month_day_year E text with
  | Some group0 =>
      try_except
        (d <- strptime_BdY E group0 ;;
         Ok (Some (replace_tzinfo_utc d)))
        (fun _ => Ok None)
  | None => Ok None
  end.

(** The [tag] of [get_meta_datetime]:
    [soup.find("meta", attrs={"property": prop})
     or soup.find("meta", attrs={"name": prop})] *)
Definition find_meta (soup : Node) (prop : string) : option Node :=
  or_opt (find "meta" [AttrIs "property" prop] soup)
         (find "meta" [AttrIs "name" prop] soup).

Definition get_meta_datetime (soup : Node) (prop : string)
  : result (option datetime) :=
  match find_meta soup prop with
  | Some tag =>
      match get "content" tag with
      | Some c =>
          if negb (Str.is_empty c) then
            try_except
              (content <- getitem tag "content" ;;
               d <- fromisoformat E (Str.replace "Z" "+00:00" content) ;;
               Ok (Some d))
              (fun _ => Ok None)
          else Ok None
      | None => Ok None
      end
  | None => Ok None
  end.

(** The inner loop of [get_ldjson_datetime], over [candidates]. *)
Fixpoint ldjson_datetime_candidates (candidates : list json)
  : result (option datetime) :=
  match candidates with
  | [] => Ok None
  | JDict obj :: rest =>
      is_article <- in_article_types (dict_get "@type" obj) ;;
      if is_article then
        let dp := or_else (dict_get "datePublished" obj)
                          (dict_get "dateCreated" obj) in
        if truthy dp
        then (s <- json_replace_Z dp ;;
              d <- fromisoformat E s ;;
              Ok (Some d))
        else ldjson_datetime_candidates rest
      else ldjson_datetime_candidates rest
  | _ :: rest => ldjson_datetime_candidates rest
  end.

(** [data if isinstance(data, list) else [data]] *)
Definition candidates_of (data : json) : list json :=
  match data with
  | JList l => l
  | _ => [data]
  end.

(** [s.string or ""] *)
Definition script_source (s : Node) : string :=
  match string_of s with
  | Some src => src
  | None => ""
  end.

(** The outer loop of [get_ldjson_datetime], over the script blocks:
    an exception in a block goes on with the next block. *)
Fixpoint ldjson_datetime_scripts (scripts : list Node)
  : result (option datetime) :=
  match scripts with
  | [] => Ok None
  | s :: rest =>
      match (data <- json_loads E (script_source s) ;;
             ldjson_datetime_candidates (candidates_of data)) with
      | Ok (Some d) => Ok (Some d)
      | Ok None => ldjson_datetime_scripts rest
      | Raise _ => ldjson_datetime_scripts rest
      end
  end.

Definition get_ldjson_datetime (soup : Node) : result (option datetime) :=
  ldjson_datetime_scripts
    (find_all "script" [AttrIs "type" "application/ld+json"] soup).

Definition get_time_tag_datetime (soup : Node) : result (option datetime) :=
  match find "time" [] soup with
  | Some t =>
      let from_attribute :=
        match get "datetime" t with
        | Some v =>
            if negb (Str.is_empty v) then
              try_except
                (v <- getitem t "datetime" ;;
                 d <- fromisoformat E (Str.replace "Z" "+00:00" v) ;;
                 Ok (Some d))
                (fun _ => Ok None)
            else Ok None
        | None => Ok None
        end in
      or_res from_attribute
        (if negb (Str.is_empty (get_text "" true t))
         then parse_human_datetime (get_text " " true t)
         else Ok None)
  | None => Ok None
  end.

Definition get_text_datetime_fallback (soup : Node)
  : result (option datetime) :=
  parse_human_datetime (get_text " " true soup).

(** The expression bound to [published_dt] in [parse_article]: the
    timestamp resolver. *)
Definition published_dt (soup : Node) : result (option datetime) :=
  or_res (get_meta_datetime soup "article:published_time")
    (or_res (get_ldjson_datetime soup)
       (or_res (get_time_tag_datetime soup)
          (get_text_datetime_fallback soup))).

(** ** Body resolver *)

Fixpoint ldjson_body_candidates (candidates : list json)
  : result (option json) :=
  match candidates with
  | [] => Ok None
  | JDict obj :: rest =>
      is_article <- in_article_types (dict_get "@type" obj) ;;
      if is_article then
        let body := dict_get "articleBody" obj in
        if truthy body then Ok (Some body)
        else ldjson_body_candidates rest
      else ldjson_body_candidates rest
  | _ :: rest => ldjson_body_candidates rest
  end.

Fixpoint ldjson_body_scripts (scripts : list Node) : result (option json) :=
  match scripts with
  | [] => Ok None
  | s :: rest =>
      match (data <- json_loads E (script_source s) ;;
             ldjson_body_candidates (candidates_of data)) with
      | Ok (Some b) => Ok (Some b)
      | Ok None => ldjson_body_scripts rest
      | Raise _ => ldjson_body_scripts rest
      end
  end.

Definition get_ldjson_article_body (soup : Node) : result (option json) :=
  ldjson_body_scripts
    (find_all "script" [AttrIs "type" "application/ld+json"] soup).

Definition newline : string := String (Str.chr 10) "".

Definition extract_paragraphs (soup : Node) : string :=
  let '(anc, article) :=
    match List.find (fun p => matches "article" [] (snd p)) (walk [] soup)
    with
    | Some p => p
    | None => ([], soup)
    end in
  let keep (p : list string * Node) : list string :=
    if existsb (fun a => mem a ["aside"; "figcaption"; "nav"; "footer"])
               (fst p)
    then []
    else
      let txt := get_text " " true (snd p) in
      if (2 <=? String.length txt)%nat then [txt] else [] in
  Str.join (newline ++ newline)
    (flat_map keep
       (List.filter (fun p => matches "p" [] (snd p)) (walk anc article))).

(** ** Article extractor *)

(** [(body_text or "").strip()] where [body_text] is the JSON-LD body, if
    there is a truthy one, or else the paragraphs. *)
Definition body_strip (ld : option json) (paragraphs : string)
  : result string :=
  match ld with
  | Some (JStr s) => Ok (Str.strip Str.is_space s)
  | Some _ => Raise AttributeError
  | None => Ok (Str.strip Str.is_space paragraphs)
  end.

(** [dt.astimezone(tz).isoformat() if dt else None] *)
Definition iso_in (fromutc : Z -> Z) (dt : option datetime)
  : result (option string) :=
  match dt with
  | Some d =>
      x <- astimezone (local_utcoffset E) fromutc d ;;
      Ok (Some (isoformat E x))
  | None => Ok None
  end.

(** [title.get_text(strip=True) if title else ""] for
    [title = soup.find("h1")] *)
Definition title_of (soup : Node) : string :=
  match find "h1" [] soup with
  | Some title => get_text "" true title
  | None => ""
  end.

Definition parse_article (url : string) : M Article :=
  res <~ fetch url ;;
  soup <~ lift (html_parser E res) ;;
  let title_text := title_of soup in
  dt <~ lift (published_dt soup) ;;
  ld <~ lift (get_ldjson_article_body soup) ;;
  utc <~ lift (iso_in utc_fromutc dt) ;;
  kst <~ lift (iso_in (kst_fromutc E) dt) ;;
  body <~ lift (body_strip ld (extract_paragraphs soup)) ;;
  ret (mkArticle url title_text utc kst body).

(** ** Today filter and orchestrator *)

Definition is_today_kst (dt : option datetime) (today_kst : datetime)
  : result bool :=
  match dt with
  | None => Ok false
  | Some dt =>
      d <- astimezone (local_utcoffset E) (kst_fromutc E) dt ;;
      Ok (date d =? date today_kst)
  end.

(** [datetime.now(KST)] *)
Definition now_kst : datetime :=
  let off := kst_fromutc E (utcnow E) in
  mkDatetime (utcnow E + off) (Some off).

(** The [try] block of the loop of [crawl_today]. *)
Definition visit (today_kst : datetime) (results : list Article)
  (url : string) : M (list Article) :=
  art <~ parse_article url ;;
  match published_kst art with
  | Some s =>
      if negb (Str.is_empty s) then
        dt <~ lift (fromisoformat E s) ;;
        today <~ lift (is_today_kst (Some dt) today_kst) ;;
        ret (if today then (results ++ [art])%list else results)
      else ret results
  | None => ret results
  end.

(** [try: ... except Exception as e: logger.warning(...)] around it. *)
Definition try_visit (today_kst : datetime) (results : list Article)
  (url : string) : M (list Article) :=
  try_M (visit today_kst results url)
    (fun e => _ <~ emit (EvLogWarning url e) ;; ret results).

(** The loop of [crawl_today]. *)
Fixpoint crawl_loop (today_kst : datetime) (sleep_sec : float)
  (links : list string) (results : list Article) : M (list Article) :=
  match links with
  | [] => ret results
  | url :: rest =>
      results <~ try_visit today_kst results url ;;
      _ <~ time_sleep sleep_sec ;;
      crawl_loop today_kst sleep_sec rest results
  end.

Definition crawl_today (category_url : string)
  (today_kst : option datetime) (limit : Z) (sleep_sec : float)
  : M (list Article) :=
  let today_kst :=
    match today_kst with Some t => t | None => now_kst end in
  links <~ get_article_links category_url limit ;;
  crawl_loop today_kst sleep_sec links [].

(** ** The HTTP handler *)

Import Func.

(** [str(v)] of a value read from JSON. *)
Definition py_str (v : json) : string :=
  match v with
  | JStr s => s
  | JInt z => NilZero.string_of_int (Z.to_int z)
  | JNull => "None"
  | JBool true => "True"
  | JBool false => "False"
  | _ => py_repr E v
  end.

(** A value of [req.params.get(key)] as a Python value. *)
Definition str_or_none (o : option string) : json :=
  match o with
  | Some s => JStr s
  | None => JNull
  end.

(** The four raw parameters: [date_str], [limit_str], [sleep_str],
    [category_url]. *)
Record RawParams : Type := mkRaw {
  date_str : json;
  limit_str : option string;
  sleep_str : option string;
  category_url : json
}.

(** The block of [ai_today] that collects the parameters. *)
Definition collect_params (req : HttpRequest) : result RawParams :=
  let qs := params req in
  let date_str := str_or_none (lookup "date" qs) in
  let limit_str := lookup "limit" qs in
  let sleep_str := lookup "sleep" qs in
  let category_url :=
    or_else (str_or_none (lookup "category_url" qs)) (JStr CATEGORY_URL) in
  if (method req =? "POST")%string then
    body <- match get_json req with
            | Ok b => Ok b
            | Raise ValueError => Ok (JDict [])
            | Raise e => Raise e
            end ;;
    match body with
    | JDict body =>
        let date_str :=
          match lookup "date" body with
          | Some v => v
          | None => date_str
          end in
        let limit_str :=
          match lookup "limit" body with
          | Some v => Some (py_str v)
          | None => limit_str
          end in
        let sleep_str :=
          match lookup "sleep" body with
          | Some v => Some (py_str v)
          | None => sleep_str
          end in
        let category_url :=
          match lookup "category_url" body with
          | Some v => v
          | None => category_url
          end in
        Ok (mkRaw date_str limit_str sleep_str category_url)
    | _ => Raise AttributeError
    end
  else Ok (mkRaw date_str limit_str sleep_str category_url).

(** [yyyy, mm, dd = map(int, date_str.split("-"))] and
    [datetime(yyyy, mm, dd, tzinfo=KST)] *)
Definition parse_date (date_str : json) : result datetime :=
  match date_str with
  | JStr s =>
      match map (py_int E) (Str.split "-" s) with
      | [yyyy; mm; dd] =>
          yyyy <- yyyy ;;
          mm <- mm ;;
          dd <- dd ;;
          datetime_ymd yyyy mm dd (kst_utcoffset E)
      | _ => Raise ValueError
      end
  | _ => Raise AttributeError
  end.

Definition truthy_str (o : option string) : bool :=
  match o with
  | Some s => negb (Str.is_empty s)
  | None => false
  end.

Definition parse_limit (limit_str : option string) : Z :=
  match limit_str with
  | Some s =>
      if negb (Str.is_empty s) then
        match py_int E s with
        | Ok n => Z.max 1 (Z.min n 80)
        | Raise _ => 40
        end
      else 40
  | None => 40
  end.

Definition parse_sleep (sleep_str : option string) : float :=
  match sleep_str with
  | Some s =>
      if negb (Str.is_empty s) then
        match py_float E s with
        | Ok sleep_sec =>
            let sleep_sec :=
              if PrimFloat.ltb sleep_sec 0%float then 0%float
              else sleep_sec in
            if PrimFloat.ltb 2%float sleep_sec then 2%float else sleep_sec
        | Raise _ => 0.7%float
        end
      else 0.7%float
  | None => 0.7%float
  end.

(** [crawl_today] on the [category_url] of the request: [requests] turns
    an argument that is not a [str] into one that has no scheme and
    raises before any network access. *)
Definition crawl_today_at (category_url : json)
  (today_kst : option datetime) (limit : Z) (sleep_sec : float)
  : M (list Article) :=
  match category_url with
  | JStr u => crawl_today u today_kst limit sleep_sec
  | _ => lift (Raise RequestException)
  end.

(** The rest of the [try] block of [ai_today], once the parameters are
    collected. *)
Definition respond (raw : RawParams) : M HttpResponse :=
  let today_kst :=
    if truthy (date_str raw) then Some (parse_date (date_str raw))
    else None in
  match today_kst with
  | Some (Raise _) => ret (mkResponse 400 InvalidDate)
  | _ =>
      let today_kst :=
        match today_kst with
        | Some (Ok d) => Some d
        | _ => None
        end in
      let limit := parse_limit (limit_str raw) in
      let sleep_sec := parse_sleep (sleep_str raw) in
      items <~ crawl_today_at (category_url raw) today_kst limit
                              sleep_sec ;;
      let shown :=
        match today_kst with Some d => d | None => now_kst end in
      ret (mkResponse 200
             (Items (strftime_Ymd E shown) (len items) items))
  end.

Definition ai_today (req : HttpRequest) : M HttpResponse :=
  try_M
    (raw <~ lift (collect_params req) ;;
     respond raw)
    (fun e =>
       _ <~ emit (EvLogException e) ;;
       ret (mkResponse 500 (InternalError e))).

End Crawler.

(** * Reference definitions the properties are stated against *)

Section Reference.

Variable E : PyLib.

(** The normalized targets of the anchors that pass [is_article_url], in
    the order of the anchors. *)
Definition article_targets (anchors : list Node) : list string :=
  flat_map
    (fun a =>
       match get "href" a with
       | Some href =>
           if is_article_url E href then
             match normalize_link E href with
             | Ok u => [u]
             | Raise _ => []
             end
           else []
       | None => []
       end)
    anchors.

(** The anchor [h3.find("a", href=True)] of every [h3], in document
    order. *)
Definition h3_anchors (h3s : list Node) : list Node :=
  flat_map
    (fun h3 =>
       match find "a" [AttrPresent "href"] h3 with
       | Some a => [a]
       | None => []
       end)
    h3s.

(** [for x in l: s.add(x)] *)
Definition add_all (l : list string) (s : pyset) : pyset :=
  fold_left (fun seen x => set_add x seen) l s.

(** Every string of [l] once, at the place of its first occurrence. *)
Definition first_seen (l : list string) : list string :=
  add_all l set_empty.

(** Document order of discovery: the URLs in the order in which the two
    passes of [get_article_links] first meet them. *)
Definition document_order (soup : Node) (limit : Z) : list string :=
  let heads := article_targets (h3_anchors (find_all "h3" [] soup)) in
  let every := article_targets (find_all "a" [AttrPresent "href"] soup) in
  if len (first_seen heads) <? limit
  then firstn (Z.to_nat limit) (first_seen (heads ++ every)%list)
  else first_seen heads.

(** The page behind a URL: fetched, then parsed. *)
Definition page (url : string) : result Node :=
  html <- http_get E url ;;
  html_parser E html.

(** The calendar date, in the fixed time zone, of a resolved publication
    instant. *)
Definition kst_date (dt : datetime) : result Z :=
  d <- astimezone (local_utcoffset E) (kst_fromutc E) dt ;;
  Ok (date d).

(** The reference date of a run of [crawl_today]. *)
Definition reference_date (today_kst : option datetime) : Z :=
  match today_kst with
  | Some t => date t
  | None => date (now_kst E)
  end.

(** A text without a month-day-year date that [strptime] accepts. *)
Definition no_human_date (text : string) : Prop :=
  forall group0,
    search_month_day_year E text = Some group0 ->
    is_ok (strptime_BdY E group0) = false.

(** No strategy has a source it can parse: the meta tag, every date of a
    JSON-LD article object, the [datetime] attribute and the text of the
    [time] element, and the text of the page. *)
Definition no_timestamp_source (soup : Node) : Prop :=
  (forall tag c,
      find_meta soup "article:published_time" = Some tag ->
      get "content" tag = Some c ->
      is_ok (fromisoformat E (Str.replace "Z" "+00:00" c)) = false)
  /\ (forall s data obj v,
         In s (find_all "script" [AttrIs "type" "application/ld+json"] soup) ->
         json_loads E (script_source s) = Ok data ->
         In (JDict obj) (candidates_of data) ->
         or_else (dict_get "datePublished" obj) (dict_get "dateCreated" obj)
         = JStr v ->
         is_ok (fromisoformat E (Str.replace "Z" "+00:00" v)) = false)
  /\ (forall t,
         find "time" [] soup = Some t ->
         (forall v, get "datetime" t = Some v ->
                    is_ok (fromisoformat E (Str.replace "Z" "+00:00" v))
                    = false)
         /\ no_human_date (get_text " " true t))
  /\ no_human_date (get_text " " true soup).

(** What one link contributes to the result of [crawl_today]: its
    article, when the page yields one whose resolved instant falls on
    the reference day in the fixed time zone. *)
Definition kept (today_kst : datetime) (url : string) : list Article :=
  match outcome (parse_article E url),
        (soup <- page url ;; published_dt E soup) with
  | Ok art, Ok (Some dt) =>
      match kst_date dt with
      | Ok d => if d =? date today_kst then [art] else []
      | Raise _ => []
      end
  | _, _ => []
  end.

(** The [date] parameter is absent or valid. *)
Definition date_accepted (raw : RawParams) : Prop :=
  truthy (date_str raw) = false
  \/ exists d, parse_date E (date_str raw) = Ok d.



(** ** Link discovery as the specification words it *)

(** The returned list is in document order of first discovery. *)
Definition follows_document_order : Prop :=
  forall category_url limit soup links,
    page category_url = Ok soup ->
    outcome (get_article_links E category_url limit) = Ok links ->
    links = slice_to limit (document_order soup limit).

(** At most [limit] URLs are returned. *)
Definition returns_at_most_limit : Prop :=
  forall category_url limit links,
    outcome (get_article_links E category_url limit) = Ok links ->
    len links <= limit.

(** Every returned URL satisfies the article-URL predicate. *)
Definition returns_article_urls : Prop :=
  forall category_url limit links,
    outcome (get_article_links E category_url limit) = Ok links ->
    forall u, In u links -> is_article_url E u = true.

(** Every returned URL is an [href] of the page resolved against the
    URL of that page. *)
Definition resolves_against_category_page : Prop :=
  forall category_url limit soup links,
    page category_url = Ok soup ->
    outcome (get_article_links E category_url limit) = Ok links ->
    forall u, In u links ->
    exists a href,
      In a (find_all "a" [AttrPresent "href"] soup)
      /\ get "href" a = Some href
      /\ urljoin (check_bracketed_netloc E) category_url href = Ok u.

(** The predicate accepts a link only on the host of the category page
    or without a host. *)
Definition accepts_only_category_host : Prop :=
  forall category_url href pc p,
    urlparse (check_bracketed_netloc E) category_url "" = Ok pc ->
    urlparse (check_bracketed_netloc E) href "" = Ok p ->
    is_article_url E href = true ->
    netloc p = netloc pc \/ netloc p = "".

(** ** The timestamp resolver as the specification words it *)

(** A page that holds a meta tag [article:published_time] with a
    content [fromisoformat] accepts gets that value. *)
Definition returns_valid_meta_tag : Prop :=
  forall soup tag content d,
    In tag (find_all "meta" [AttrIs "property" "article:published_time"]
              soup) ->
    get "content" tag = Some content ->
    fromisoformat E (Str.replace "Z" "+00:00" content) = Ok d ->
    published_dt E soup = Ok (Some d).

End Reference.

(** A path has a year-month segment: [/20dd/dd/] somewhere in it. *)
Definition year_month_segment (p : string) : Prop :=
  exists pre y1 y2 m1 m2 post,
    p = pre ++ "/20" ++ String y1 (String y2 "/")
            ++ String m1 (String m2 "/") ++ post
    /\ Str.is_digit y1 = true /\ Str.is_digit y2 = true
    /\ Str.is_digit m1 = true /\ Str.is_digit m2 = true.

(** * A concrete environment for the examples *)

Module Demo.

(** Asia/Seoul since 1988: UTC+09:00, in microseconds. *)
Definition KST_OFFSET : Z := 32400000000.

Definition encode_Z (z : Z) : string :=
  NilEmpty.string_of_int (Z.to_int z).

Definition decode_Z (s : string) : option Z :=
  option_map Z.of_int (NilEmpty.int_of_string s).

Definition no_slash (c : ascii) : bool := negb (Ascii.eqb c "/").

(** A stand-in for the ISO-8601 text of a datetime: the wall clock and
    the offset in decimal. *)
Definition iso_encode (d : datetime) : string :=
  "@" ++ encode_Z (wall d)
      ++ match utcoffset d with
         | Some o => "/" ++ encode_Z o
         | None => ""
         end.

Definition iso_decode (s : string) : result datetime :=
  match s with
  | String "@" rest =>
      if Str.has "/" rest then
        let '(w, o) := Str.split1 "/" rest in
        match decode_Z w, decode_Z o with
        | Some w, Some o => Ok (mkDatetime w (Some o))
        | _, _ => Raise ValueError
        end
      else
        match decode_Z rest with
        | Some w => Ok (mkDatetime w None)
        | None => Raise ValueError
        end
  | _ => Raise ValueError
  end.

(** [datetime._ord2ymd]: the year, month and day of an ordinal. *)
Definition ord2ymd (ordinal : Z) : Z * Z * Z :=
  let n := (ordinal - 1)%Z in
  let n400 := (n / 146097)%Z in
  let n := (n mod 146097)%Z in
  let n100 := (n / 36524)%Z in
  let n := (n mod 36524)%Z in
  let n4 := (n / 1461)%Z in
  let n := (n mod 1461)%Z in
  let n1 := (n / 365)%Z in
  let n := (n mod 365)%Z in
  let year := (n400 * 400 + 1 + n100 * 100 + n4 * 4 + n1)%Z in
  if ((n1 =? 4) || (n100 =? 4))%Z then ((year - 1)%Z, 12%Z, 31%Z)
  else
    let month := ((n + 50) / 32)%Z in
    let preceding := _days_before_month year month in
    if (n <? preceding)%Z
    then ((year, month - 1), n - _days_before_month year (month - 1) + 1)%Z
    else ((year, month), n - preceding + 1)%Z.

(** [z] in decimal, padded with zeros to [width] digits. *)
Definition zero_padded (width : nat) (z : Z) : string :=
  let digits := encode_Z z in
  Str.rev (Str.take width
             (Str.rev digits ++ "0000"))%string.

(** [dt.strftime("%Y-%m-%d")] *)
Definition strftime (d : datetime) : string :=
  let '(y, m, dd) := ord2ymd (date d) in
  zero_padded 4 y ++ "-" ++ zero_padded 2 m ++ "-" ++ zero_padded 2 dd.

(** What the examples fix: the pages of the web (URL, markup, tree), the
    JSON documents, the ISO-8601 texts and the month-day-year dates that
    occur in the pages, the floats that occur in requests, and the iteration
    order of sets. *)
Record World : Type := mkWorld {
  site : list (string * (string * Node));
  json_docs : list (string * json);
  iso_texts : list (string * datetime);
  human_dates : list (string * datetime);
  float_texts : list (string * float);
  set_order : list string -> list string
}.

Definition table_get {V} (key : string) (t : list (string * V)) (e : exn)
  : result V :=
  match lookup key t with
  | Some v => Ok v
  | None => Raise e
  end.

Definition int_of (s : string) : result Z :=
  match s, decode_Z s with
  | String c _, Some z => if Ascii.eqb c "-" && (z =? 0)%Z
                          then Raise ValueError else Ok z
  | _, _ => Raise ValueError
  end.

Definition env (w : World) : PyLib :=
  {| http_get := fun url =>
       match lookup url (site w) with
       | Some (html, _) => Ok html
       | None => Raise RequestException
       end;
     html_parser := fun html =>
       match List.find (fun p => (fst (snd p) =? html)%string) (site w) with
       | Some (_, (_, tree)) => Ok tree
       | None => Ok (Tag "[document]" [] [NavigableString PlainText html])
       end;
     json_loads := fun s => table_get s (json_docs w) ValueError;
     fromisoformat := fun s =>
       match lookup s (iso_texts w) with
       | Some d => Ok d
       | None => iso_decode s
       end;
     isoformat := iso_encode;
     strptime_BdY := fun s =>
       table_get s (human_dates w) ValueError;
     search_month_day_year := fun text =>
       option_map fst
         (List.find (fun p => Str.contains (fst p) text) (human_dates w));
     py_int := int_of;
     py_float := fun s => table_get s (float_texts w) ValueError;
     py_repr := fun _ => "<repr>";
     set_iteration := set_order w;
     kst_fromutc := fun _ => KST_OFFSET;
     kst_utcoffset := fun _ => KST_OFFSET;
     local_utcoffset := fun _ => Ok 0;
     utcnow := 63893062800000000;
     strftime_Ymd := strftime;
     check_bracketed_netloc := fun _ => false |}.

(** ** Pages of the examples *)

Definition anchor (href text : string) : Node :=
  Tag "a" [("href", href)] [NavigableString PlainText text].

Definition h3 (n : Node) : Node := Tag "h3" [] [n].

Definition document (contents : list Node) : Node :=
  Tag "[document]" [] contents.

(** A category page with two headlines. *)
Definition two_headlines : Node :=
  document [h3 (anchor "/2025/09/10/alpha/" "Alpha");
            h3 (anchor "/2025/09/10/beta/" "Beta")].

(** A category page whose only link has a dot segment after the
    year-month segment. *)
Definition dotted_link : Node :=
  document [anchor "/2025/01/../x" "X"].

(** A category page with one root-relative link. *)
Definition rooted_link : Node :=
  document [anchor "/2025/01/x" "X"].

(** A web with a single page, and sets that iterate in [order]. *)
Definition one_page (url : string) (tree : Node)
  (order : list string -> list string) : World :=
  mkWorld [(url, ("<html>", tree))] [] [] [] [] order.

Definition insertion_order (l : list string) : list string := l.

Definition reverse_order (l : list string) : list string := List.rev l.

(** ** A small news site *)

Definition dq : string := String (Str.chr 34) "".

Definition quoted (s : string) : string := dq ++ s ++ dq.

Definition meta (property content : string) : Node :=
  Tag "meta" [("property", property); ("content", content)] [].

Definition ldjson (source : string) : Node :=
  Tag "script" [("type", "application/ld+json")]
      [NavigableString SpecialString source].

Definition element (name : string) (contents : list Node) : Node :=
  Tag name [] contents.

Definition text (s : string) : Node := NavigableString PlainText s.

(** The wall clock reading of a day at [hh:mm], in microseconds. *)
Definition clock (year month day hh mm : Z) : Z :=
  ((_ymd2ord year month day - 1) * US_PER_DAY
   + (hh * 60 + mm) * 60000000)%Z.

Definition article_ld (type published : string) : string :=
  "{" ++ quoted "@type" ++ ": " ++ quoted type ++ ", "
      ++ quoted "datePublished" ++ ": " ++ quoted published ++ "}".

(** Published today at 09:00 in Seoul by its meta tag; its JSON-LD
    block carries another date. *)
Definition alpha_page : Node :=
  document
    [element "head"
       [meta "article:published_time" "2025-09-10T09:00:00+09:00";
        ldjson (article_ld "NewsArticle" "2025-09-09T00:00:00Z")];
     element "body"
       [element "h1" [text "Alpha"];
        element "article" [element "p" [text "Alpha body."]]]].

(** Published the day before. *)
Definition beta_page : Node :=
  document
    [element "head"
       [meta "article:published_time" "2025-09-09T10:00:00+09:00"];
     element "body"
       [element "h1" [text "Beta"];
        element "article" [element "p" [text "Beta body."]]]].

(** The first meta tag [article:published_time] has no content; the
    second one is that of [alpha_page], and the JSON-LD block carries
    another date. *)
Definition shadowed_meta_page : Node :=
  document
    [element "head"
       [Tag "meta" [("property", "article:published_time")] [];
        meta "article:published_time" "2025-09-10T09:00:00+09:00";
        ldjson (article_ld "NewsArticle" "2025-09-09T00:00:00Z")];
     element "body"
       [element "h1" [text "Alpha"];
        element "article" [element "p" [text "Alpha body."]]]].

(** Every timestamp source is there and malformed. *)
Definition delta_page : Node :=
  document
    [element "head"
       [meta "article:published_time" "yesterday";
        ldjson "{not json";
        ldjson (article_ld "Article" "soon")];
     element "body"
       [element "h1" [text "Delta"];
        Tag "time" [("datetime", "soon")] [text "just now"];
        element "article" [element "p" [text "No date here."]]]].

(** The category page: four headlines, the third of which leads to a
    page that cannot be fetched. *)
Definition front_page : Node :=
  document
    [h3 (anchor "/2025/09/10/alpha/" "Alpha");
     h3 (anchor "/2025/09/09/beta/" "Beta");
     h3 (anchor "/2025/09/10/gamma/" "Gamma");
     h3 (anchor "/2025/09/10/delta/" "Delta")].

(** Another category page, with one headline. *)
Definition startups_page : Node :=
  document [h3 (anchor "/2025/09/09/beta/" "Beta")].

Definition STARTUPS_URL : string :=
  "https://techcrunch.com/category/startups/".

Definition alpha_url : string := "https://techcrunch.com/2025/09/10/alpha/".
Definition beta_url : string := "https://techcrunch.com/2025/09/09/beta/".
Definition gamma_url : string := "https://techcrunch.com/2025/09/10/gamma/".
Definition delta_url : string := "https://techcrunch.com/2025/09/10/delta/".

Definition newsroom (order : list string -> list string) : World :=
  mkWorld
    [(CATEGORY_URL, ("<html>front</html>", front_page));
     (STARTUPS_URL, ("<html>startups</html>", startups_page));
     (alpha_url, ("<html>alpha</html>", alpha_page));
     (beta_url, ("<html>beta</html>", beta_page));
     (delta_url, ("<html>delta</html>", delta_page))]
    [(article_ld "NewsArticle" "2025-09-09T00:00:00Z",
      JDict [("@type", JStr "NewsArticle");
             ("datePublished", JStr "2025-09-09T00:00:00Z")]);
     (article_ld "Article" "soon",
      JDict [("@type", JStr "Article"); ("datePublished", JStr "soon")])]
    [("2025-09-10T09:00:00+09:00",
      mkDatetime (clock 2025 9 10 9 0) (Some KST_OFFSET));
     ("2025-09-09T10:00:00+09:00",
      mkDatetime (clock 2025 9 9 10 0) (Some KST_OFFSET));
     ("2025-09-09T00:00:00+00:00",
      mkDatetime (clock 2025 9 9 0 0) (Some 0%Z))]
    [("September 8, 2025", mkDatetime (clock 2025 9 8 0 0) None)]
    [("0.5", 0.5%float); ("1.5", 1.5%float); ("nan", PrimFloat.nan)]
    order.

(** [datetime(2025, 9, 10, tzinfo=KST)] *)
Definition today : datetime :=
  mkDatetime (clock 2025 9 10 0 0) (Some KST_OFFSET).

End Demo.


(** * Further reference definitions *)

(** [l1] is [l2] with some elements left out. *)
Inductive subseq {A : Type} : list A -> list A -> Prop :=
| subseq_nil : subseq [] []
| subseq_keep (x : A) (l1 l2 : list A) :
    subseq l1 l2 -> subseq (x :: l1) (x :: l2)
| subseq_skip (x : A) (l1 l2 : list A) :
    subseq l1 l2 -> subseq l1 (x :: l2).

(** The fetches and the sleeps of a trace, without the log records. *)
Definition network_activity (t : list event) : list event :=
  List.filter
    (fun ev =>
       match ev with
       | EvFetch _ | EvSleep _ => true
       | EvLogWarning _ _ | EvLogException _ => false
       end)
    t.

(** A parse result with [default] for a scheme that was left out. *)
Definition with_default_scheme (default : string) (p : Url.ParseResult)
  : Url.ParseResult :=
  if Str.is_empty (Url.scheme p)
  then Url.mkParseResult default (Url.netloc p) (Url.path p) (Url.params p)
                         (Url.query p) (Url.fragment p)
  else p.

(** A category page with two headlines and a link outside headings. *)
Definition headlines_then_archive : Node :=
  Demo.document
    [Demo.h3 (Demo.anchor "/2025/09/10/alpha/" "Alpha");
     Demo.h3 (Demo.anchor "/2025/09/10/beta/" "Beta");
     Demo.anchor "/2025/08/31/older/" "Older"].

(** The normalized targets of the heading anchors of a page. *)
Definition heading_targets (E : PyLib) (soup : Node) : list string :=
  article_targets E (h3_anchors (find_all "h3" [] soup)).

(** What one JSON-LD block contributes to [get_ldjson_datetime]: the
    body of its [try]. *)
Definition block_datetime (E : PyLib) (s : Node)
  : result (option datetime) :=
  data <- json_loads E (script_source s) ;;
  ldjson_datetime_candidates E (candidates_of data).

(** An article page whose first JSON-LD block is malformed and whose
    second one carries a date. *)
Definition malformed_then_dated : Node :=
  Demo.document
    [Demo.ldjson "{not json";
     Demo.ldjson (Demo.article_ld "NewsArticle" "2025-09-09T00:00:00Z")].

(** An article page whose JSON-LD gives the body as a list of
    paragraphs. *)
Definition listed_body_source : string :=
  "{" ++ Demo.quoted "@type" ++ ": " ++ Demo.quoted "Article" ++ ", "
      ++ Demo.quoted "articleBody" ++ ": [" ++ Demo.quoted "One." ++ "]}".

Definition listed_body_page : Node :=
  Demo.document
    [Demo.ldjson listed_body_source;
     Demo.element "article" [Demo.element "p" [Demo.text "One."]]].

Definition listed_body_world : Demo.World :=
  Demo.mkWorld
    [(Demo.alpha_url, ("<html>listed</html>", listed_body_page))]
    [(listed_body_source,
      JDict [("@type", JStr "Article");
             ("articleBody", JList [JStr "One."])])]
    [] [] [] Demo.insertion_order.

Import Func.

(** * Facts about strings and URLs *)

Ltac break_if :=
  match goal with
  | |- context [if ?c then _ else _] => destruct c
  | |- context [let '(_, _) := ?p in _] => destruct p
  end.

Section UrlFacts.

Variable chk : string -> bool.

Lemma urlsplit_default_scheme_irrelevant (url s1 s2 : string) :
  is_ok (urlsplit chk url s1) = is_ok (urlsplit chk url s2).
Proof.
  unfold urlsplit.
  destruct (explicit_scheme (clean_url url)) as [[s rest]|];
    repeat (break_if; cbn); reflexivity.
Qed.

Lemma urlparse_ok_of_urlsplit (url s : string) :
  is_ok (urlparse chk url s) = is_ok (urlsplit chk url s).
Proof.
  unfold urlparse.
  destruct (urlsplit chk url s) as [[[[[sc nl] u] q] f]|e]; cbn; [|reflexivity].
  repeat break_if; reflexivity.
Qed.

Lemma urlparse_default_scheme_irrelevant (url s1 s2 : string) :
  is_ok (urlparse chk url s1) = is_ok (urlparse chk url s2).
Proof.
  rewrite !urlparse_ok_of_urlsplit.
  apply urlsplit_default_scheme_irrelevant.
Qed.

Lemma urlparse_category :
  urlparse chk CATEGORY_URL ""
  = Ok (mkParseResult "https" "techcrunch.com"
          "/category/artificial-intelligence/" "" "" "").
Proof. vm_compute. reflexivity. Qed.

(** [urljoin] on the default category URL raises only where [urlparse]
    raises on the link. *)
Lemma urljoin_category_ok (href : string) :
  is_ok (urlparse chk href "") = true ->
  exists u, urljoin chk CATEGORY_URL href = Ok u.
Proof.
  intros H. unfold urljoin.
  change (Str.is_empty CATEGORY_URL) with false. cbv iota.
  destruct (Str.is_empty href); [eexists; reflexivity|].
  rewrite urlparse_category. cbn [Py.bind scheme].
  rewrite (urlparse_default_scheme_irrelevant href "" "https") in H.
  destruct (urlparse chk href "https") as [u|e]; [|discriminate].
  cbn [Py.bind].
  repeat break_if; eexists; reflexivity.
Qed.

Lemma https_prefix_absolute (s : string) :
  is_absolute ("https:" ++ s) = true.
Proof. reflexivity. Qed.

Lemma scheme_of_urlparse (url d : string) (u : ParseResult) :
  urlparse chk url d = Ok u ->
  match explicit_scheme (clean_url url) with
  | Some (s, _) => scheme u = s
  | None => scheme u = clean_scheme d
  end.
Proof.
  unfold urlparse, urlsplit.
  destruct (explicit_scheme (clean_url url)) as [[s rest]|];
    repeat (break_if; cbn); intros [= <-]; reflexivity.
Qed.

Lemma urlunparse_https (u : ParseResult) :
  scheme u = "https" -> Str.is_empty (netloc u) = false ->
  is_absolute (urlunparse u) = true.
Proof.
  destruct u as [sc nl pa pr q f]. cbn [scheme netloc].
  intros -> Hnl. unfold urlunparse, urlunsplit.
  cbn [scheme netloc path params query fragment].
  rewrite Hnl. change (Str.is_empty "https") with false.
  cbn [negb orb].
  repeat break_if; reflexivity.
Qed.

(** Whatever [urljoin] returns for the default category URL names its
    scheme. *)
Lemma urljoin_category_absolute (href u : string) :
  urljoin chk CATEGORY_URL href = Ok u -> is_absolute u = true.
Proof.
  unfold urljoin.
  change (Str.is_empty CATEGORY_URL) with false. cbv iota.
  destruct (Str.is_empty href); [intros [= <-]; reflexivity|].
  rewrite urlparse_category. cbn [Py.bind scheme].
  destruct (urlparse chk href "https") as [p|e] eqn:Hp; [|discriminate].
  cbn [Py.bind].
  pose proof (scheme_of_urlparse _ _ _ Hp) as Hs.
  destruct (negb (scheme p =? "https")%string
            || negb (mem (scheme p) uses_relative)) eqn:Hrel.
  - intros [= <-]. unfold is_absolute.
    destruct (explicit_scheme (clean_url href)) as [[s r]|]; [reflexivity|].
    change (clean_scheme "https") with "https" in Hs.
    rewrite Hs in Hrel. discriminate.
  - apply orb_false_iff in Hrel as [Heq _].
    apply negb_false_iff, String.eqb_eq in Heq.
    rewrite Heq. change (mem "https" uses_netloc) with true.
    cbn [andb].
    destruct (Str.is_empty (netloc p)) eqn:Hnl; cbn [negb].
    + repeat break_if; intros [= <-];
        apply urlunparse_https; reflexivity.
    + intros [= <-]. apply urlunparse_https; assumption.
Qed.

End UrlFacts.

(** * Facts about the regular expression *)

Lemma match_year_month_spec (s : string) :
  Re.match_year_month s = true <->
  exists y1 y2 m1 m2 post,
    s = "/20" ++ String y1 (String y2 "/") ++ String m1 (String m2 "/") ++ post
    /\ Str.is_digit y1 = true /\ Str.is_digit y2 = true
    /\ Str.is_digit m1 = true /\ Str.is_digit m2 = true.
Proof.
  split.
  - unfold Re.match_year_month.
    do 9 (destruct s as [|? s]; [discriminate|]).
    intros H. repeat (apply andb_true_iff in H as [H ?]).
    repeat match goal with
           | H : Ascii.eqb _ _ = true |- _ => apply Ascii.eqb_eq in H; subst
           end.
    do 5 eexists. repeat split; eauto.
  - intros (y1 & y2 & m1 & m2 & post & -> & H1 & H2 & H3 & H4).
    cbn. rewrite H1, H2, H3, H4. reflexivity.
Qed.

Lemma search_year_month_spec (p : string) :
  Re.search_year_month p = true <-> year_month_segment p.
Proof.
  unfold year_month_segment. induction p as [|c p IH].
  - split; [discriminate|].
    intros (pre & y1 & y2 & m1 & m2 & post & H & _).
    destruct pre; discriminate.
  - cbn [Re.search_year_month]. rewrite orb_true_iff, IH. split.
    + intros [H | (pre & y1 & y2 & m1 & m2 & post & -> & Hd)].
      * apply match_year_month_spec in H
          as (y1 & y2 & m1 & m2 & post & -> & Hd).
        exists "", y1, y2, m1, m2, post. split; [reflexivity | exact Hd].
      * exists (String c pre), y1, y2, m1, m2, post.
        split; [reflexivity | exact Hd].
    + intros (pre & y1 & y2 & m1 & m2 & post & H & Hd).
      destruct pre as [|c' pre].
      * left. apply match_year_month_spec.
        exists y1, y2, m1, m2, post. split; [exact H | exact Hd].
      * right. injection H as -> ->.
        exists pre, y1, y2, m1, m2, post. split; [reflexivity | exact Hd].
Qed.

(** * Facts about sets *)

Lemma set_mem_In (x : string) (s : pyset) :
  set_mem x s = true <-> In x s.
Proof.
  unfold set_mem. rewrite existsb_exists. split.
  - intros (y & Hy & Heq). apply String.eqb_eq in Heq. now subst.
  - intros H. exists x. split; [exact H | apply String.eqb_refl].
Qed.

Lemma set_add_In (x y : string) (s : pyset) :
  In y (set_add x s) <-> y = x \/ In y s.
Proof.
  unfold set_add. destruct (set_mem x s) eqn:Hm.
  - apply set_mem_In in Hm. split; [auto | intros [-> | H]; assumption].
  - rewrite in_app_iff. cbn. intuition congruence.
Qed.

Lemma set_add_NoDup (x : string) (s : pyset) :
  NoDup s -> NoDup (set_add x s).
Proof.
  intros H. unfold set_add. destruct (set_mem x s) eqn:Hm; [exact H|].
  apply NoDup_app; [exact H | repeat constructor; intros [] |].
  intros y Hy [<- | []]. apply set_mem_In in Hy. congruence.
Qed.

Lemma set_add_extends (x : string) (s : pyset) :
  exists t, set_add x s = (s ++ t)%list /\ (List.length t <= 1)%nat.
Proof.
  unfold set_add. destruct (set_mem x s).
  - exists []. rewrite app_nil_r. split; [reflexivity | cbn; lia].
  - exists [x]. split; [reflexivity | cbn; lia].
Qed.

Lemma add_all_NoDup (l : list string) (s : pyset) :
  NoDup s -> NoDup (add_all l s).
Proof.
  revert s. induction l as [|x l IH]; intros s H; cbn; [exact H|].
  apply IH, set_add_NoDup, H.
Qed.

Lemma add_all_In (l : list string) (s : pyset) (y : string) :
  In y (add_all l s) <-> In y s \/ In y l.
Proof.
  revert s. induction l as [|x l IH]; intros s.
  - cbn. intuition.
  - change (add_all (x :: l) s) with (add_all l (set_add x s)).
    rewrite IH, set_add_In. cbn. intuition.
Qed.

Lemma add_all_extends (l : list string) (s : pyset) :
  exists t, add_all l s = (s ++ t)%list.
Proof.
  revert s. induction l as [|x l IH]; intros s.
  - exists []. cbn. now rewrite app_nil_r.
  - change (add_all (x :: l) s) with (add_all l (set_add x s)).
    destruct (IH (set_add x s)) as [t Ht].
    destruct (set_add_extends x s) as (t' & Ht' & _).
    exists (t' ++ t)%list. rewrite Ht, Ht'.
    now rewrite app_assoc.
Qed.

Lemma first_seen_NoDup (l : list string) : NoDup (first_seen l).
Proof. apply (add_all_NoDup l []). constructor. Qed.

Lemma first_seen_In (l : list string) (y : string) :
  In y (first_seen l) <-> In y l.
Proof.
  unfold first_seen, set_empty. rewrite add_all_In. cbn. intuition.
Qed.

(** * Link discovery *)

Lemma hd_error_filter {A} (f : A -> bool) (l : list A) (a : A) :
  hd_error (List.filter f l) = Some a -> f a = true /\ In a l.
Proof.
  induction l as [|x l IH]; cbn; [discriminate|].
  destruct (f x) eqn:Hx.
  - intros [= <-]. auto.
  - intros H. destruct (IH H). auto.
Qed.

Lemma find_Some (name : string) (fs : list attr_filter) (root n : Node) :
  find name fs root = Some n ->
  matches name fs n = true /\ In n (descendants root).
Proof. apply hd_error_filter. Qed.

Lemma matches_href (n : Node) :
  matches "a" [AttrPresent "href"] n = true ->
  exists href, get "href" n = Some href.
Proof.
  destruct n as [k s|nm attrs cs]; cbn; [discriminate|].
  intros H. apply andb_true_iff in H as [_ H].
  destruct (lookup "href" attrs) as [h|]; [eauto | discriminate].
Qed.

Lemma descendants_trans (root n m : Node) :
  In n (descendants root) -> In m (descendants n) ->
  In m (descendants root).
Proof.
  induction root as [k s|nm attrs cs IH] using Node_tree_ind;
    cbn [descendants]; [intros []|].
  rewrite !in_flat_map. intros (c & Hc & Hn) Hm.
  exists c. split; [exact Hc|]. right.
  destruct Hn as [<- | Hn]; [exact Hm|].
  rewrite Forall_forall in IH. now apply (IH c Hc).
Qed.

Lemma firstn_In {A : Type} (n : nat) (l : list A) (x : A) :
  In x (firstn n l) -> In x l.
Proof.
  revert n. induction l as [|y l IH]; intros [|n]; cbn; try tauto.
  intros [-> | H]; [now left | right; eapply IH, H].
Qed.

Lemma NoDup_firstn {A} (n : nat) (l : list A) :
  NoDup l -> NoDup (firstn n l).
Proof.
  intros H. revert n. induction H as [|x l Hx _ IH]; intros [|n]; cbn;
    try constructor; [|apply IH].
  intros Hin. apply Hx. eapply firstn_In, Hin.
Qed.

Section LinkFacts.

Variable E : PyLib.

Lemma is_article_url_parses (href : string) :
  is_article_url E href = true ->
  exists p, urlparse (check_bracketed_netloc E) href "" = Ok p
            /\ (Str.contains "techcrunch.com" (netloc p) = true
                \/ netloc p = "")
            /\ year_month_segment (path p).
Proof.
  unfold is_article_url.
  destruct (urlparse (check_bracketed_netloc E) href "") as [p|e];
    [|discriminate].
  intros H. apply andb_true_iff in H as [Hh Hp].
  exists p. split; [reflexivity|]. split.
  - apply orb_true_iff in Hh as [Hh | Hh]; [now left | right].
    destruct (netloc p); [reflexivity | discriminate].
  - now apply search_year_month_spec.
Qed.

Lemma normalize_link_ok (href : string) :
  is_article_url E href = true -> exists u, normalize_link E href = Ok u.
Proof.
  intros H. apply is_article_url_parses in H as (p & Hp & _).
  apply urljoin_category_ok. now rewrite Hp.
Qed.

Lemma article_targets_app (l1 l2 : list Node) :
  article_targets E (l1 ++ l2)%list
  = (article_targets E l1 ++ article_targets E l2)%list.
Proof. apply flat_map_app. Qed.

Lemma article_targets_In (anchors : list Node) (u : string) :
  In u (article_targets E anchors) ->
  exists a href, In a anchors /\ get "href" a = Some href
                 /\ is_article_url E href = true
                 /\ normalize_link E href = Ok u.
Proof.
  unfold article_targets. rewrite in_flat_map.
  intros (a & Ha & Hu). exists a.
  destruct (get "href" a) as [href|]; [|destruct Hu].
  exists href. destruct (is_article_url E href); [|destruct Hu].
  destruct (normalize_link E href) as [v|e]; [|destruct Hu].
  destruct Hu as [<- | []]. auto.
Qed.

(** The first pass adds the targets of the heading anchors, in order. *)
Lemma h3_pass_spec (h3s : list Node) (links : pyset) :
  h3_pass E h3s links
  = Ok (add_all (article_targets E (h3_anchors h3s)) links).
Proof.
  revert links. induction h3s as [|h3 rest IH]; intros links;
    [reflexivity|].
  cbn [h3_pass h3_anchors flat_map].
  fold (h3_anchors rest). rewrite article_targets_app.
  unfold add_all. rewrite fold_left_app. fold add_all.
  destruct (find "a" [AttrPresent "href"] h3) as [a|] eqn:Hf;
    [|cbn; apply IH].
  apply find_Some in Hf as [Hm _].
  apply matches_href in Hm as [href Hh].
  unfold getitem. cbn [article_targets flat_map]. rewrite Hh.
  cbn [Py.bind].
  destruct (is_article_url E href) eqn:Ha; [|cbn; apply IH].
  destruct (normalize_link_ok href Ha) as [u Hu]. rewrite Hu.
  cbn. apply IH.
Qed.

Lemma firstn_exact {A} (l t : list A) (n : nat) :
  List.length l = n -> firstn n (l ++ t) = l.
Proof.
  intros <-. rewrite firstn_app, Nat.sub_diag, firstn_all. cbn.
  apply app_nil_r.
Qed.

(** The second pass adds the targets of all anchors, in order, until
    the set has [limit] elements. *)
Lemma anchor_pass_spec (limit : Z) (anchors : list Node) (links : pyset) :
  Forall (fun a => matches "a" [AttrPresent "href"] a = true) anchors ->
  len links < limit ->
  anchor_pass E limit anchors links
  = Ok (firstn (Z.to_nat limit) (add_all (article_targets E anchors) links)).
Proof.
  intros Hall. revert links.
  induction Hall as [|a rest Ha _ IH]; intros links Hlen.
  - cbn. rewrite firstn_all2; [reflexivity|]. unfold len in Hlen.
    apply Nat2Z.inj_le. rewrite Z2Nat.id; lia.
  - cbn [anchor_pass].
    destruct (matches_href a Ha) as [href Hh].
    unfold getitem. rewrite Hh. cbn [Py.bind].
    cbn [article_targets flat_map]. rewrite Hh.
    fold (article_targets E rest).
    unfold add_all. rewrite fold_left_app. fold add_all.
    assert (Hstep : forall links',
               (exists t, links' = (links ++ t)%list
                          /\ (List.length t <= 1)%nat) ->
               (if len links' >=? limit then Ok links'
                else anchor_pass E limit rest links')
               = Ok (firstn (Z.to_nat limit)
                       (add_all (article_targets E rest) links'))).
    { intros links' (t & -> & Ht).
      destruct (len (links ++ t)%list >=? limit) eqn:Hge.
      - destruct (add_all_extends (article_targets E rest)
                    (links ++ t)%list) as [t' ->].
        rewrite firstn_exact; [reflexivity|].
        apply Z.geb_le in Hge.
        unfold len in *. rewrite length_app in *. lia.
      - rewrite Z.geb_leb in Hge. apply Z.leb_gt in Hge. apply IH, Hge. }
    destruct (is_article_url E href) eqn:Hart.
    + destruct (normalize_link_ok href Hart) as [u Hu]. rewrite Hu.
      cbn [Py.bind add_all fold_left]. apply Hstep.
      destruct (set_add_extends u links) as (t & Ht & Hl). eauto.
    + cbn [Py.bind add_all fold_left]. apply Hstep.
      exists []. rewrite app_nil_r. split; [reflexivity | cbn; lia].
Qed.

Lemma find_all_matches (name : string) (fs : list attr_filter)
  (root : Node) :
  Forall (fun a => matches name fs a = true) (find_all name fs root).
Proof.
  apply Forall_forall. intros a Ha. apply filter_In in Ha. tauto.
Qed.

(** [collect_links] never raises: it returns the first [limit] entries
    of the iteration order of the set that holds the URLs in document
    order. *)
Lemma collect_links_spec (soup : Node) (limit : Z) :
  collect_links E soup limit
  = Ok (slice_to limit (set_iteration E (document_order E soup limit))).
Proof.
  unfold collect_links, document_order.
  rewrite h3_pass_spec. cbn [Py.bind]. fold (first_seen
    (article_targets E (h3_anchors (find_all "h3" [] soup)))).
  destruct (len (first_seen
              (article_targets E (h3_anchors (find_all "h3" [] soup))))
            <? limit) eqn:Hlt; [|reflexivity].
  rewrite anchor_pass_spec; [| apply find_all_matches | lia].
  cbn [Py.bind]. unfold first_seen, add_all.
  now rewrite fold_left_app.
Qed.

Lemma document_order_NoDup (soup : Node) (limit : Z) :
  NoDup (document_order E soup limit).
Proof.
  unfold document_order. destruct (_ <? _).
  - apply NoDup_firstn, first_seen_NoDup.
  - apply first_seen_NoDup.
Qed.

(** Every discovered URL is the normal form of the [href] of an anchor
    of the page that [is_article_url] accepts. *)
Lemma document_order_In (soup : Node) (limit : Z) (u : string) :
  In u (document_order E soup limit) ->
  exists a href,
    In a (find_all "a" [AttrPresent "href"] soup)
    /\ get "href" a = Some href
    /\ is_article_url E href = true
    /\ normalize_link E href = Ok u.
Proof.
  intros Hu.
  assert (Hin : In u (article_targets E
                        (h3_anchors (find_all "h3" [] soup)))
                \/ In u (article_targets E
                           (find_all "a" [AttrPresent "href"] soup))).
  { unfold document_order in Hu. destruct (_ <? _).
    - apply firstn_In in Hu. rewrite first_seen_In in Hu.
      apply in_app_iff in Hu. exact Hu.
    - rewrite first_seen_In in Hu. now left. }
  destruct Hin as [Hin | Hin];
    apply article_targets_In in Hin as (a & href & Ha & Hh & Hart & Hn);
    exists a, href; repeat split; try assumption.
  unfold h3_anchors in Ha. apply in_flat_map in Ha as (h3 & Hh3 & Ha).
  destruct (find "a" [AttrPresent "href"] h3) as [a'|] eqn:Hf;
    [|destruct Ha].
  destruct Ha as [<- | []].
  apply find_Some in Hf as [Hm Hd].
  apply filter_In. split; [|exact Hm].
  apply filter_In in Hh3 as [Hh3 _].
  eapply descendants_trans; eassumption.
Qed.

End LinkFacts.

(** * Facts about the trace monad *)

Lemma outcome_bindM {A B} (m : M A) (k : A -> M B) :
  outcome (bindM m k) = Py.bind (outcome m) (fun a => outcome (k a)).
Proof.
  destruct m as [t [a|e]]; cbn; [|reflexivity].
  destruct (k a); reflexivity.
Qed.

Lemma trace_bindM {A B} (m : M A) (k : A -> M B) :
  trace (bindM m k)
  = (trace m ++ match outcome m with
                | Ok a => trace (k a)
                | Raise _ => []
                end)%list.
Proof.
  destruct m as [t [a|e]]; cbn; [|now rewrite app_nil_r].
  destruct (k a); reflexivity.
Qed.

Lemma outcome_try_M {A} (m : M A) (h : exn -> M A) :
  outcome (try_M m h)
  = match outcome m with
    | Ok a => Ok a
    | Raise e => outcome (h e)
    end.
Proof.
  destruct m as [t [a|e]]; cbn; [reflexivity|].
  destruct (h e); reflexivity.
Qed.

Lemma trace_try_M {A} (m : M A) (h : exn -> M A) :
  trace (try_M m h)
  = (trace m ++ match outcome m with
                | Ok _ => []
                | Raise e => trace (h e)
                end)%list.
Proof.
  destruct m as [t [a|e]]; cbn; [now rewrite app_nil_r|].
  destruct (h e); reflexivity.
Qed.

Section DiscoveryTheorems.

Variable E : PyLib.

Lemma get_article_links_outcome (category_url : string) (limit : Z) :
  outcome (get_article_links E category_url limit)
  = (soup <- page E category_url ;; collect_links E soup limit).
Proof.
  unfold get_article_links, fetch, page.
  rewrite !outcome_bindM. cbn [outcome emit lift snd Py.bind].
  destruct (http_get E category_url) as [html|e]; cbn [Py.bind];
    [|reflexivity].
  rewrite outcome_bindM. cbn [outcome emit lift snd Py.bind].
  reflexivity.
Qed.

(** The list [get_article_links] returns, for a page that can be fetched
    and parsed. *)
Lemma get_article_links_returns (category_url : string) (limit : Z)
  (soup : Node) :
  page E category_url = Ok soup ->
  outcome (get_article_links E category_url limit)
  = Ok (slice_to limit (set_iteration E (document_order E soup limit))).
Proof.
  intros Hp. rewrite get_article_links_outcome, Hp. cbn [Py.bind].
  apply collect_links_spec.
Qed.

Lemma get_article_links_inv (category_url : string) (limit : Z)
  (links : list string) :
  outcome (get_article_links E category_url limit) = Ok links ->
  exists soup,
    page E category_url = Ok soup
    /\ links = slice_to limit (set_iteration E (document_order E soup limit)).
Proof.
  rewrite get_article_links_outcome.
  destruct (page E category_url) as [soup|e]; [|discriminate].
  cbn [Py.bind]. rewrite collect_links_spec. intros [= <-]. eauto.
Qed.

Lemma slice_to_In {A} (n : Z) (l : list A) (x : A) :
  In x (slice_to n l) -> In x l.
Proof. unfold slice_to. destruct (0 <=? n); apply firstn_In. Qed.

Lemma iteration_In (l : list string) (u : string) :
  set_contract E -> NoDup l -> In u (set_iteration E l) -> In u l.
Proof. intros Hc Hl. apply Permutation_in, Hc, Hl. Qed.

Lemma iteration_NoDup (l : list string) :
  set_contract E -> NoDup l -> NoDup (set_iteration E l).
Proof.
  intros Hc Hl. eapply Permutation_NoDup; [|exact Hl].
  apply Permutation_sym, Hc, Hl.
Qed.

(** Every returned URL comes from an anchor of the page. *)
Lemma returned_link_origin (category_url : string) (limit : Z)
  (links : list string) (u : string) :
  set_contract E ->
  outcome (get_article_links E category_url limit) = Ok links ->
  In u links ->
  exists soup a href,
    page E category_url = Ok soup
    /\ In a (find_all "a" [AttrPresent "href"] soup)
    /\ get "href" a = Some href
    /\ is_article_url E href = true
    /\ normalize_link E href = Ok u.
Proof.
  intros Hc Hout Hu.
  apply get_article_links_inv in Hout as (soup & Hp & ->).
  apply slice_to_In, iteration_In in Hu;
    [|exact Hc | apply document_order_NoDup].
  apply document_order_In in Hu as (a & href & H).
  exists soup, a, href. tauto.
Qed.

End DiscoveryTheorems.

(** C6 (as amended).  For every category page, Link Discovery returns
    at most [limit] URLs when [limit >= 0], each of them absolute, each
    of them the normal form of an [href] that satisfies the article-URL
    predicate, and no two of them equal. *)
Theorem link_discovery_bounded_absolute_distinct
  (E : PyLib) (category_url : string) (limit : Z) (links : list string) :
  set_contract E ->
  outcome (get_article_links E category_url limit) = Ok links ->
  (0 <= limit -> len links <= limit)
  /\ (forall u, In u links -> is_absolute u = true)
  /\ (forall u, In u links ->
        exists href, is_article_url E href = true
                     /\ normalize_link E href = Ok u)
  /\ NoDup links.
Proof.
  intros Hc Hout. repeat split.
  - intros Hlim.
    apply get_article_links_inv in Hout as (soup & _ & ->).
    unfold slice_to, len. apply Z.leb_le in Hlim. rewrite Hlim.
    apply Z.leb_le in Hlim.
    pose proof (firstn_le_length (Z.to_nat limit)
                  (set_iteration E (document_order E soup limit))).
    lia.
  - intros u Hu.
    destruct (returned_link_origin E _ _ _ _ Hc Hout Hu)
      as (soup & a & href & _ & _ & _ & _ & Hn).
    eapply urljoin_category_absolute, Hn.
  - intros u Hu.
    destruct (returned_link_origin E _ _ _ _ Hc Hout Hu)
      as (soup & a & href & _ & _ & _ & Ha & Hn).
    eauto.
  - apply get_article_links_inv in Hout as (soup & _ & ->).
    unfold slice_to. destruct (0 <=? limit);
      apply NoDup_firstn, iteration_NoDup;
      auto using document_order_NoDup.
Qed.

Lemma reverse_order_contract (w : Demo.World) :
  Demo.set_order w = Demo.reverse_order -> set_contract (Demo.env w).
Proof.
  intros H l _. cbn. rewrite H.
  apply Permutation_sym, Permutation_rev.
Qed.

Lemma insertion_order_contract (w : Demo.World) :
  Demo.set_order w = Demo.insertion_order -> set_contract (Demo.env w).
Proof. intros H l _. cbn. rewrite H. apply Permutation_refl. Qed.

Lemma link_discovery_bounded_absolute_distinct_witness :
  let E := Demo.env (Demo.one_page CATEGORY_URL Demo.two_headlines
                       Demo.reverse_order) in
  let links := ["https://techcrunch.com/2025/09/10/beta/";
                "https://techcrunch.com/2025/09/10/alpha/"] in
  (0 <= 40 -> len links <= 40)
  /\ (forall u, In u links -> is_absolute u = true)
  /\ (forall u, In u links ->
        exists href, is_article_url E href = true
                     /\ normalize_link E href = Ok u)
  /\ NoDup links.
Proof.
  intros E links.
  apply (link_discovery_bounded_absolute_distinct E CATEGORY_URL 40 links).
  - apply reverse_order_contract. reflexivity.
  - vm_compute. reflexivity.
Defined.

(** C6, counterexample.  A page whose only link is [/2025/01/../x]: the
    link satisfies the predicate, its normal form
    [https://techcrunch.com/2025/x] is returned and does not.  And with
    the negative limit [-1] the slice [[:limit]] of two links has one
    element, more than the limit. *)
Lemma link_discovery_returns_non_article_url :
  ~ returns_article_urls
      (Demo.env (Demo.one_page CATEGORY_URL Demo.dotted_link
                   Demo.insertion_order))
  /\ ~ returns_at_most_limit
         (Demo.env (Demo.one_page CATEGORY_URL Demo.two_headlines
                      Demo.insertion_order)).
Proof.
  split.
  - intros H.
    specialize (H CATEGORY_URL 40 ["https://techcrunch.com/2025/x"]
                  eq_refl "https://techcrunch.com/2025/x"
                  (or_introl eq_refl)).
    vm_compute in H. discriminate H.
  - intros H.
    specialize (H CATEGORY_URL (-1)
                  ["https://techcrunch.com/2025/09/10/alpha/"] eq_refl).
    vm_compute in H. apply H. reflexivity.
Qed.

(** C3 (as amended).  For every category page, Link Discovery returns a
    duplicate-free list: the slice [[:limit]] of the iteration order of
    the underlying set, which holds the URLs collected in document
    order.  Its elements are discovered URLs, all of them when there are
    at most [limit]; their order is the set's, not the document's. *)
Theorem link_discovery_set_order
  (E : PyLib) (category_url : string) (limit : Z) (soup : Node) :
  set_contract E ->
  page E category_url = Ok soup ->
  exists links,
    outcome (get_article_links E category_url limit) = Ok links
    /\ links = slice_to limit
                 (set_iteration E (document_order E soup limit))
    /\ NoDup links
    /\ (forall u, In u links -> In u (document_order E soup limit))
    /\ (len (document_order E soup limit) <= limit ->
        Permutation links (document_order E soup limit)).
Proof.
  intros Hc Hp.
  pose proof (document_order_NoDup E soup limit) as Hnd.
  pose proof (Hc _ Hnd) as Hperm.
  exists (slice_to limit (set_iteration E (document_order E soup limit))).
  split; [|split; [reflexivity|split; [|split]]].
  - apply (get_article_links_returns E _ _ _ Hp).
  - unfold slice_to. destruct (0 <=? limit);
      apply NoDup_firstn, iteration_NoDup; assumption.
  - intros u Hu. apply slice_to_In in Hu.
    eapply Permutation_in; eassumption.
  - intros Hlen. unfold slice_to, len in *.
    assert (Hlim : 0 <= limit) by lia.
    apply Z.leb_le in Hlim. rewrite Hlim. apply Z.leb_le in Hlim.
    rewrite firstn_all2; [exact Hperm|].
    rewrite (Permutation_length Hperm). lia.
Qed.

Lemma link_discovery_set_order_witness :
  let E := Demo.env (Demo.one_page CATEGORY_URL Demo.two_headlines
                       Demo.reverse_order) in
  exists links,
    outcome (get_article_links E CATEGORY_URL 40) = Ok links
    /\ links = slice_to 40
                 (set_iteration E (document_order E Demo.two_headlines 40))
    /\ NoDup links
    /\ (forall u, In u links ->
                  In u (document_order E Demo.two_headlines 40))
    /\ (len (document_order E Demo.two_headlines 40) <= 40 ->
        Permutation links (document_order E Demo.two_headlines 40)).
Proof.
  intros E.
  apply (link_discovery_set_order E CATEGORY_URL 40 Demo.two_headlines).
  - apply reverse_order_contract. reflexivity.
  - reflexivity.
Defined.

(** C3, counterexample.  A page with the headlines alpha, then beta, and
    a set that iterates in the reverse of insertion order: the list
    returned is beta, alpha, which is not the document order; and with
    [limit = 1] the URL returned depends on the iteration order. *)
Lemma link_discovery_not_in_document_order :
  ~ follows_document_order
      (Demo.env (Demo.one_page CATEGORY_URL Demo.two_headlines
                   Demo.reverse_order))
  /\ outcome (get_article_links
                (Demo.env (Demo.one_page CATEGORY_URL Demo.two_headlines
                             Demo.insertion_order)) CATEGORY_URL 1)
     <> outcome (get_article_links
                   (Demo.env (Demo.one_page CATEGORY_URL Demo.two_headlines
                                Demo.reverse_order)) CATEGORY_URL 1).
Proof.
  split.
  - intros H.
    specialize (H CATEGORY_URL 40 Demo.two_headlines
                  ["https://techcrunch.com/2025/09/10/beta/";
                   "https://techcrunch.com/2025/09/10/alpha/"]
                  eq_refl eq_refl).
    vm_compute in H. discriminate H.
  - vm_compute. discriminate.
Qed.

(** C4 (as amended).  Whatever category URL the caller supplies, every
    URL that Link Discovery returns is an [href] of an anchor of the
    fetched page resolved against the fixed default category URL, and
    the predicate accepted that [href] because its host contains
    [techcrunch.com] or is empty and its path has a [/20dd/dd/]
    segment. *)
Theorem links_resolved_against_default_category
  (E : PyLib) (category_url : string) (limit : Z) (links : list string) :
  set_contract E ->
  outcome (get_article_links E category_url limit) = Ok links ->
  forall u, In u links ->
  exists soup a href p,
    page E category_url = Ok soup
    /\ In a (find_all "a" [AttrPresent "href"] soup)
    /\ get "href" a = Some href
    /\ urljoin (check_bracketed_netloc E) CATEGORY_URL href = Ok u
    /\ urlparse (check_bracketed_netloc E) href "" = Ok p
    /\ (Str.contains "techcrunch.com" (netloc p) = true \/ netloc p = "")
    /\ year_month_segment (path p).
Proof.
  intros Hc Hout u Hu.
  destruct (returned_link_origin E _ _ _ _ Hc Hout Hu)
    as (soup & a & href & Hp & Ha & Hh & Hart & Hn).
  destruct (is_article_url_parses E href Hart) as (p & Hparse & Hhost & Hym).
  exists soup, a, href, p. repeat split; assumption.
Qed.

Lemma links_resolved_against_default_category_witness :
  let E := Demo.env (Demo.one_page "https://example.com/news/"
                       Demo.rooted_link Demo.insertion_order) in
  exists soup a href p,
    page E "https://example.com/news/" = Ok soup
    /\ In a (find_all "a" [AttrPresent "href"] soup)
    /\ get "href" a = Some href
    /\ urljoin (check_bracketed_netloc E) CATEGORY_URL href
       = Ok "https://techcrunch.com/2025/01/x"
    /\ urlparse (check_bracketed_netloc E) href "" = Ok p
    /\ (Str.contains "techcrunch.com" (netloc p) = true \/ netloc p = "")
    /\ year_month_segment (path p).
Proof.
  intros E.
  apply (links_resolved_against_default_category E
           "https://example.com/news/" 40
           ["https://techcrunch.com/2025/01/x"]).
  - apply insertion_order_contract. reflexivity.
  - vm_compute. reflexivity.
  - left. reflexivity.
Defined.

(** C4, counterexample.  On the category page
    [https://example.com/news/] the link [/2025/01/x] is returned as
    [https://techcrunch.com/2025/01/x], not resolved against the page;
    and the predicate accepts [https://nottechcrunch.com.evil.org/...],
    whose host is neither empty nor the host of the category page. *)
Lemma links_not_resolved_against_category_page :
  ~ resolves_against_category_page
      (Demo.env (Demo.one_page "https://example.com/news/"
                   Demo.rooted_link Demo.insertion_order))
  /\ ~ accepts_only_category_host
         (Demo.env (Demo.one_page CATEGORY_URL Demo.rooted_link
                      Demo.insertion_order)).
Proof.
  split.
  - intros H.
    destruct (H "https://example.com/news/" 40 Demo.rooted_link
                ["https://techcrunch.com/2025/01/x"] eq_refl eq_refl
                "https://techcrunch.com/2025/01/x" (or_introl eq_refl))
      as (a & href & Ha & Hh & Hj).
    vm_compute in Ha. destruct Ha as [<- | []].
    vm_compute in Hh. injection Hh as <-.
    vm_compute in Hj. discriminate Hj.
  - intros H.
    destruct (H CATEGORY_URL "https://nottechcrunch.com.evil.org/2025/01/x"
                _ _ eq_refl eq_refl eq_refl) as [Hh | Hh];
      vm_compute in Hh; discriminate Hh.
Qed.

(** * The timestamp resolver *)

Section ResolverFacts.

Variable E : PyLib.

Lemma parse_human_datetime_total (text : string) :
  exists o, parse_human_datetime E text = Ok o.
Proof.
  unfold parse_human_datetime.
  destruct (search_month_day_year E text) as [g|]; [|eauto].
  destruct (strptime_BdY E g); cbn; eauto.
Qed.

Lemma parse_human_datetime_none (text : string) :
  no_human_date E text -> parse_human_datetime E text = Ok None.
Proof.
  unfold parse_human_datetime, no_human_date. intros H.
  destruct (search_month_day_year E text) as [g|]; [|reflexivity].
  specialize (H g eq_refl).
  destruct (strptime_BdY E g); [discriminate | reflexivity].
Qed.

Lemma get_meta_datetime_total (soup : Node) (prop : string) :
  exists o, get_meta_datetime E soup prop = Ok o.
Proof.
  unfold get_meta_datetime.
  destruct (find_meta soup prop) as [tag|]; [|eauto].
  destruct (get "content" tag) as [c|] eqn:Hc; [|eauto].
  destruct (Str.is_empty c); cbn [negb]; [eauto|].
  unfold getitem. rewrite Hc. cbn [Py.bind].
  destruct (fromisoformat E _); cbn; eauto.
Qed.

Lemma ldjson_datetime_scripts_total (scripts : list Node) :
  exists o, ldjson_datetime_scripts E scripts = Ok o.
Proof.
  induction scripts as [|s rest IH]; cbn [ldjson_datetime_scripts];
    [eauto|].
  destruct (data <- json_loads E (script_source s) ;;
            ldjson_datetime_candidates E (candidates_of data))
    as [[d|]|e]; eauto.
Qed.

Lemma get_time_tag_datetime_total (soup : Node) :
  exists o, get_time_tag_datetime E soup = Ok o.
Proof.
  unfold get_time_tag_datetime.
  destruct (find "time" [] soup) as [t|]; [|eauto].
  assert (Htext : exists o,
             (if negb (Str.is_empty (get_text "" true t))
              then parse_human_datetime E (get_text " " true t)
              else Ok None) = Ok o).
  { destruct (negb _); [apply parse_human_datetime_total | eauto]. }
  destruct Htext as [o Ho]. rewrite Ho.
  destruct (get "datetime" t) as [v|] eqn:Hv; [|cbn; eauto].
  destruct (Str.is_empty v); cbn [negb]; [cbn; eauto|].
  unfold getitem. rewrite Hv. cbn [Py.bind].
  destruct (fromisoformat E _); cbn; eauto.
Qed.

(** The resolver is the first value, in the fixed order, among the
    results of four strategies none of which raises. *)
Lemma published_dt_first_of_four (soup : Node) :
  exists a b c d,
    get_meta_datetime E soup "article:published_time" = Ok a
    /\ get_ldjson_datetime E soup = Ok b
    /\ get_time_tag_datetime E soup = Ok c
    /\ get_text_datetime_fallback E soup = Ok d
    /\ published_dt E soup = Ok (or_opt a (or_opt b (or_opt c d))).
Proof.
  destruct (get_meta_datetime_total soup "article:published_time")
    as [a Ha].
  destruct (ldjson_datetime_scripts_total
              (find_all "script" [AttrIs "type" "application/ld+json"] soup))
    as [b Hb].
  destruct (get_time_tag_datetime_total soup) as [c Hc].
  destruct (parse_human_datetime_total (get_text " " true soup))
    as [d Hd].
  exists a, b, c, d. unfold published_dt, get_ldjson_datetime,
    get_text_datetime_fallback.
  rewrite Ha, Hb, Hc, Hd. repeat split.
  destruct a, b, c; reflexivity.
Qed.

Lemma get_meta_datetime_valid (soup tag : Node) (prop content : string)
  (d : datetime) :
  find_meta soup prop = Some tag ->
  get "content" tag = Some content ->
  content <> "" ->
  fromisoformat E (Str.replace "Z" "+00:00" content) = Ok d ->
  get_meta_datetime E soup prop = Ok (Some d).
Proof.
  intros Ht Hc Hne Hd. unfold get_meta_datetime, getitem.
  rewrite Ht, Hc. destruct content; [contradiction|].
  cbn [Str.is_empty negb Py.bind]. rewrite Hd. reflexivity.
Qed.

Lemma get_meta_datetime_none (soup : Node) (prop : string) :
  (forall tag c,
      find_meta soup prop = Some tag -> get "content" tag = Some c ->
      is_ok (fromisoformat E (Str.replace "Z" "+00:00" c)) = false) ->
  get_meta_datetime E soup prop = Ok None.
Proof.
  intros H. unfold get_meta_datetime, getitem.
  destruct (find_meta soup prop) as [tag|]; [|reflexivity].
  destruct (get "content" tag) as [c|] eqn:Hc; [|reflexivity].
  specialize (H tag c eq_refl Hc).
  destruct (Str.is_empty c); cbn [negb Py.bind]; [reflexivity|].
  destruct (fromisoformat E _); [discriminate | reflexivity].
Qed.

Lemma ldjson_datetime_candidates_none (candidates : list json) :
  (forall obj v,
      In (JDict obj) candidates ->
      or_else (dict_get "datePublished" obj) (dict_get "dateCreated" obj)
      = JStr v ->
      is_ok (fromisoformat E (Str.replace "Z" "+00:00" v)) = false) ->
  forall d, ldjson_datetime_candidates E candidates <> Ok (Some d).
Proof.
  induction candidates as [|c rest IH]; intros H d;
    [discriminate|].
  assert (Hrest : ldjson_datetime_candidates E rest <> Ok (Some d)).
  { apply IH. intros obj v Hin. apply H. now right. }
  destruct c as [| | | | |l|obj]; cbn [ldjson_datetime_candidates];
    try exact Hrest.
  destruct (in_article_types (dict_get "@type" obj)) as [[|]|e];
    cbn [Py.bind]; [|exact Hrest|discriminate].
  specialize (H obj).
  destruct (or_else (dict_get "datePublished" obj)
                    (dict_get "dateCreated" obj)) as [| | | |v| |];
    destruct (truthy _); try exact Hrest; cbn; try discriminate.
  specialize (H v (or_introl eq_refl) eq_refl).
  destruct (fromisoformat E _); [discriminate H | discriminate].
Qed.

Lemma ldjson_datetime_scripts_none (scripts : list Node) :
  (forall s data obj v,
      In s scripts ->
      json_loads E (script_source s) = Ok data ->
      In (JDict obj) (candidates_of data) ->
      or_else (dict_get "datePublished" obj) (dict_get "dateCreated" obj)
      = JStr v ->
      is_ok (fromisoformat E (Str.replace "Z" "+00:00" v)) = false) ->
  ldjson_datetime_scripts E scripts = Ok None.
Proof.
  induction scripts as [|s rest IH]; intros H; [reflexivity|].
  cbn [ldjson_datetime_scripts].
  assert (Hrest : ldjson_datetime_scripts E rest = Ok None).
  { apply IH. intros s' data obj v Hin. apply H. now right. }
  destruct (json_loads E (script_source s)) as [data|e] eqn:Hl;
    cbn [Py.bind]; [|exact Hrest].
  pose proof (ldjson_datetime_candidates_none (candidates_of data)
                (fun obj v => H s data obj v (or_introl eq_refl) Hl)) as Hn.
  destruct (ldjson_datetime_candidates E (candidates_of data))
    as [[d|]|e]; [now destruct (Hn d) | exact Hrest | exact Hrest].
Qed.

Lemma get_time_tag_datetime_none (soup : Node) :
  (forall t,
      find "time" [] soup = Some t ->
      (forall v, get "datetime" t = Some v ->
                 is_ok (fromisoformat E (Str.replace "Z" "+00:00" v))
                 = false)
      /\ no_human_date E (get_text " " true t)) ->
  get_time_tag_datetime E soup = Ok None.
Proof.
  intros H. unfold get_time_tag_datetime, getitem.
  destruct (find "time" [] soup) as [t|]; [|reflexivity].
  destruct (H t eq_refl) as [Hattr Htext].
  rewrite (parse_human_datetime_none _ Htext).
  assert (Hfall : (if negb (Str.is_empty (get_text "" true t))
                   then @Ok (option datetime) None else Ok None)
                  = Ok None) by (destruct (negb _); reflexivity).
  rewrite Hfall.
  destruct (get "datetime" t) as [v|]; [|reflexivity].
  specialize (Hattr v eq_refl).
  destruct (Str.is_empty v); cbn [negb Py.bind]; [reflexivity|].
  destruct (fromisoformat E _); [discriminate | reflexivity].
Qed.

End ResolverFacts.

(** C7.  For every article markup the timestamp resolver returns and
    never raises; and when no strategy has a source it can parse (each
    one absent or malformed) it returns no value. *)
Theorem timestamp_resolver_never_raises (E : PyLib) (soup : Node) :
  (exists o, published_dt E soup = Ok o)
  /\ (no_timestamp_source E soup -> published_dt E soup = Ok None).
Proof.
  split.
  - destruct (published_dt_first_of_four E soup)
      as (a & b & c & d & _ & _ & _ & _ & H). eauto.
  - intros (Hmeta & Hld & Htime & Htext).
    unfold published_dt, get_ldjson_datetime, get_text_datetime_fallback.
    rewrite (get_meta_datetime_none E _ _ Hmeta).
    rewrite (ldjson_datetime_scripts_none E _ Hld).
    rewrite (get_time_tag_datetime_none E _ Htime).
    rewrite (parse_human_datetime_none E _ Htext).
    reflexivity.
Qed.

(** C5 (as amended).  The meta strategy reads one tag: the first
    [meta] with the property [article:published_time] or, when there is
    none, the first with that name.  When that tag has a non-empty
    content that [fromisoformat] accepts, the resolver returns that
    value, whatever the JSON-LD blocks, the [time] element and the text
    say; when it has not (no such tag, no content, an empty or a
    malformed one) the meta strategy gives nothing, whatever the later
    meta tags hold, and the result is the first value among JSON-LD,
    [time] element and free text, in that order. *)
Theorem first_meta_tag_takes_precedence (E : PyLib) (soup : Node) :
  find_meta soup "article:published_time"
  = hd_error
      (find_all "meta" [AttrIs "property" "article:published_time"] soup
       ++ find_all "meta" [AttrIs "name" "article:published_time"] soup)
  /\ exists b c t,
       get_ldjson_datetime E soup = Ok b
       /\ get_time_tag_datetime E soup = Ok c
       /\ get_text_datetime_fallback E soup = Ok t
       /\ (forall tag content d,
              find_meta soup "article:published_time" = Some tag ->
              get "content" tag = Some content ->
              content <> "" ->
              fromisoformat E (Str.replace "Z" "+00:00" content) = Ok d ->
              published_dt E soup = Ok (Some d))
       /\ ((forall tag content d,
               find_meta soup "article:published_time" = Some tag ->
               get "content" tag = Some content ->
               content <> "" ->
               fromisoformat E (Str.replace "Z" "+00:00" content)
               <> Ok d) ->
           published_dt E soup = Ok (or_opt b (or_opt c t))).
Proof.
  split.
  { unfold find_meta, find.
    destruct (find_all "meta" [AttrIs "property" "article:published_time"]
                soup); reflexivity. }
  destruct (published_dt_first_of_four E soup)
    as (a & b & c & t & Ha & Hb & Hc & Ht & H).
  exists b, c, t. repeat (split; [assumption|]). split.
  - intros tag content d Htag Hcontent Hne Hd.
    rewrite (get_meta_datetime_valid E _ _ _ _ _ Htag Hcontent Hne Hd)
      in Ha.
    injection Ha as <-. exact H.
  - intros Hbad. rewrite H. destruct a as [d|]; [|reflexivity].
    exfalso. revert Ha. unfold get_meta_datetime, getitem.
    destruct (find_meta soup "article:published_time") as [tag|];
      [|discriminate].
    destruct (get "content" tag) as [content|] eqn:Hcontent;
      [|discriminate].
    destruct content as [|x r]; [discriminate|].
    cbn [Str.is_empty negb Py.bind].
    destruct (fromisoformat E _) as [d'|] eqn:Hd; [|discriminate].
    now destruct (Hbad tag (String x r) d' eq_refl Hcontent).
Qed.

Lemma first_meta_tag_takes_precedence_witness :
  let E := Demo.env (Demo.newsroom Demo.insertion_order) in
  find_meta Demo.alpha_page "article:published_time"
  = Some (Demo.meta "article:published_time" "2025-09-10T09:00:00+09:00")
  /\ published_dt E Demo.alpha_page
     = Ok (Some (mkDatetime (Demo.clock 2025 9 10 9 0)
                   (Some Demo.KST_OFFSET)))
  /\ find_meta Demo.delta_page "article:published_time"
     = Some (Demo.meta "article:published_time" "yesterday")
  /\ published_dt E Demo.delta_page = Ok None.
Proof.
  intros E.
  destruct (first_meta_tag_takes_precedence E Demo.alpha_page)
    as (_ & b & c & t & _ & _ & _ & Hvalid & _).
  destruct (first_meta_tag_takes_precedence E Demo.delta_page)
    as (_ & b' & c' & t' & Hb & Hc & Ht & _ & Hnone).
  split; [reflexivity|]. split; [|split; [reflexivity|]].
  - apply (Hvalid
             (Demo.meta "article:published_time"
                "2025-09-10T09:00:00+09:00")
             "2025-09-10T09:00:00+09:00").
    + reflexivity.
    + reflexivity.
    + discriminate.
    + reflexivity.
  - vm_compute in Hb. injection Hb as <-.
    vm_compute in Hc. injection Hc as <-.
    vm_compute in Ht. injection Ht as <-.
    apply Hnone. intros tag content d Htag Hcontent _.
    vm_compute in Htag. injection Htag as <-.
    vm_compute in Hcontent. injection Hcontent as <-.
    vm_compute. discriminate.
Defined.

(** The claim as it was worded fails on a page whose first meta tag has
    no content: the valid tag after it is not read, and the JSON-LD
    date is returned. *)
Lemma later_meta_tag_is_not_consulted :
  let E := Demo.env (Demo.newsroom Demo.insertion_order) in
  In (Demo.meta "article:published_time" "2025-09-10T09:00:00+09:00")
     (find_all "meta" [AttrIs "property" "article:published_time"]
        Demo.shadowed_meta_page)
  /\ published_dt E Demo.shadowed_meta_page
     = Ok (Some (mkDatetime (Demo.clock 2025 9 9 0 0) (Some 0)))
  /\ ~ returns_valid_meta_tag E.
Proof.
  intros E. split; [right; left; reflexivity|].
  split; [vm_compute; reflexivity|].
  intros H.
  specialize (H Demo.shadowed_meta_page
                (Demo.meta "article:published_time"
                   "2025-09-10T09:00:00+09:00")
                "2025-09-10T09:00:00+09:00"
                (mkDatetime (Demo.clock 2025 9 10 9 0)
                   (Some Demo.KST_OFFSET))
                (or_intror (or_introl eq_refl)) eq_refl eq_refl).
  vm_compute in H. discriminate H.
Qed.

(** On that page the JSON-LD block alone would give another instant. *)
Example alpha_page_conflicting_ldjson :
  get_ldjson_datetime (Demo.env (Demo.newsroom Demo.insertion_order))
    Demo.alpha_page
  = Ok (Some (mkDatetime (Demo.clock 2025 9 9 0 0) (Some 0))).
Proof. vm_compute. reflexivity. Qed.

Lemma delta_page_no_timestamp_source :
  no_timestamp_source (Demo.env (Demo.newsroom Demo.insertion_order))
    Demo.delta_page.
Proof.
  repeat split.
  - intros tag c Ht Hc. vm_compute in Ht. injection Ht as <-.
    vm_compute in Hc. injection Hc as <-. reflexivity.
  - intros s data obj v Hs Hl Hin Hv. vm_compute in Hs.
    destruct Hs as [<- | [<- | []]]; vm_compute in Hl; [discriminate|].
    injection Hl as <-. vm_compute in Hin. destruct Hin as [Heq | []].
    injection Heq as <-. vm_compute in Hv. injection Hv as <-.
    reflexivity.
  - vm_compute in H. injection H as <-.
    intros v Hv. vm_compute in Hv. injection Hv as <-. reflexivity.
  - vm_compute in H. injection H as <-.
    intros g Hg. vm_compute in Hg. discriminate.
  - intros g Hg. vm_compute in Hg. discriminate.
Qed.

Lemma timestamp_resolver_never_raises_witness :
  let E := Demo.env (Demo.newsroom Demo.insertion_order) in
  no_timestamp_source E Demo.delta_page
  /\ (exists o, published_dt E Demo.delta_page = Ok o)
  /\ published_dt E Demo.delta_page = Ok None.
Proof.
  intros E.
  destruct (timestamp_resolver_never_raises E Demo.delta_page)
    as [Htotal Hnone].
  split; [exact delta_page_no_timestamp_source|].
  split; [exact Htotal|].
  apply Hnone, delta_page_no_timestamp_source.
Defined.

(** * The article extractor *)

Lemma checked_inv (w w' : Z) : checked w = Ok w' -> w' = w.
Proof.
  unfold checked. destruct (_ && _); [intros [= <-]; reflexivity|].
  discriminate.
Qed.

(** [astimezone] moves the wall clock and keeps the instant. *)
Lemma astimezone_inv (local : Z -> result Z) (fromutc : Z -> Z)
  (dt x : datetime) :
  astimezone local fromutc dt = Ok x ->
  exists myoffset,
    (utcoffset dt = Some myoffset
     \/ utcoffset dt = None /\ local (wall dt) = Ok myoffset)
    /\ checked (wall dt - myoffset) = Ok (wall dt - myoffset)
    /\ checked (wall dt - myoffset + fromutc (wall dt - myoffset))
       = Ok (wall dt - myoffset + fromutc (wall dt - myoffset))
    /\ x = mkDatetime (wall dt - myoffset + fromutc (wall dt - myoffset))
             (Some (fromutc (wall dt - myoffset))).
Proof.
  unfold astimezone. intros H.
  assert (Hoff : exists myoffset,
             match utcoffset dt with
             | Some o => Ok o
             | None => local (wall dt)
             end = Ok myoffset
             /\ (utcoffset dt = Some myoffset
                 \/ utcoffset dt = None /\ local (wall dt) = Ok myoffset)).
  { destruct (utcoffset dt) as [o|]; [eauto|].
    destruct (local (wall dt)) as [o|e]; [eauto | discriminate]. }
  destruct Hoff as (myoffset & Heq & Hcase). rewrite Heq in H.
  cbn [Py.bind] in H. exists myoffset. split; [exact Hcase|].
  destruct (checked (wall dt - myoffset)) as [utc|e] eqn:Hu;
    [|discriminate].
  pose proof (checked_inv _ _ Hu) as ->. cbn [Py.bind] in H.
  destruct (checked (wall dt - myoffset + fromutc (wall dt - myoffset)))
    as [w|e] eqn:Hw; [|discriminate].
  pose proof (checked_inv _ _ Hw) as ->. cbn [Py.bind] in H.
  injection H as <-. auto.
Qed.

(** Converting the result of a conversion to the same zone again gives
    it back. *)
Lemma astimezone_again (local : Z -> result Z) (fromutc : Z -> Z)
  (dt x : datetime) :
  astimezone local fromutc dt = Ok x ->
  astimezone local fromutc x = Ok x.
Proof.
  intros H.
  apply astimezone_inv in H as (o & _ & Hu & Hw & ->).
  unfold astimezone. cbn [utcoffset wall Py.bind].
  replace (wall dt - o + fromutc (wall dt - o) - fromutc (wall dt - o))
    with (wall dt - o) by lia.
  rewrite Hu. cbn [Py.bind]. rewrite Hw. reflexivity.
Qed.

Section ArticleFacts.

Variable E : PyLib.

Lemma fetch_outcome (url : string) : outcome (fetch E url) = http_get E url.
Proof. reflexivity. Qed.

Lemma fetch_trace (url : string) : trace (fetch E url) = [EvFetch url].
Proof. unfold fetch. cbn. destruct (http_get E url); reflexivity. Qed.

(** [parse_article] without its trace. *)
Lemma parse_article_outcome (url : string) :
  outcome (parse_article E url)
  = (soup <- page E url ;;
     dt <- published_dt E soup ;;
     ld <- get_ldjson_article_body E soup ;;
     utc <- iso_in E utc_fromutc dt ;;
     kst <- iso_in E (kst_fromutc E) dt ;;
     body <- body_strip ld (extract_paragraphs soup) ;;
     Ok (mkArticle url (title_of soup) utc kst body)).
Proof.
  unfold parse_article, page. rewrite outcome_bindM, fetch_outcome.
  destruct (http_get E url) as [html|e]; cbn [Py.bind]; [|reflexivity].
  repeat (rewrite outcome_bindM; cbn [outcome lift snd];
          match goal with
          | |- Py.bind ?r _ = Py.bind ?r _ =>
              destruct r; cbn [Py.bind]; [|reflexivity]
          end).
  reflexivity.
Qed.


Lemma parse_article_inv (link : string) (art : Article) :
  outcome (parse_article E link) = Ok art ->
  exists soup dt,
    page E link = Ok soup
    /\ published_dt E soup = Ok dt
    /\ iso_in E utc_fromutc dt = Ok (published_utc art)
    /\ iso_in E (kst_fromutc E) dt = Ok (published_kst art)
    /\ url art = link.
Proof.
  rewrite parse_article_outcome.
  destruct (page E link) as [soup|]; [|discriminate]. cbn [Py.bind].
  destruct (published_dt E soup) as [dt|] eqn:Hdt; [|discriminate].
  cbn [Py.bind].
  destruct (get_ldjson_article_body E soup); [|discriminate].
  cbn [Py.bind].
  destruct (iso_in E utc_fromutc dt) eqn:Hu; [|discriminate].
  cbn [Py.bind].
  destruct (iso_in E (kst_fromutc E) dt) eqn:Hk; [|discriminate].
  cbn [Py.bind].
  destruct (body_strip _ _); [|discriminate]. cbn [Py.bind].
  intros [= <-]. exists soup, dt. cbn. repeat split; auto.
Qed.

Lemma iso_in_Some (fromutc : Z -> Z) (dt : option datetime) (s : string) :
  iso_in E fromutc dt = Ok (Some s) ->
  exists d x, dt = Some d
              /\ astimezone (local_utcoffset E) fromutc d = Ok x
              /\ s = isoformat E x.
Proof.
  unfold iso_in. destruct dt as [d|]; [|discriminate].
  destruct (astimezone _ _ d) as [x|] eqn:Hx; [|discriminate].
  cbn. intros [= <-]. exists d, x. auto.
Qed.

Lemma iso_in_None (fromutc : Z -> Z) (dt : option datetime) :
  iso_in E fromutc dt = Ok None -> dt = None.
Proof.
  unfold iso_in. destruct dt as [d|]; [|reflexivity].
  destruct (astimezone _ _ d); discriminate.
Qed.

End ArticleFacts.

(** C9.  In every article that [parse_article] returns, [published_utc]
    and [published_kst] are both absent or both present, and when
    present they are the ISO texts of two conversions of the one
    resolved datetime: read back, they denote the same instant, at
    offset zero and at the offset of the fixed zone. *)
Theorem published_fields_same_instant
  (E : PyLib) (url : string) (art : Article) :
  isoformat_contract E ->
  outcome (parse_article E url) = Ok art ->
  (published_utc art = None <-> published_kst art = None)
  /\ forall u k,
       published_utc art = Some u ->
       published_kst art = Some k ->
       exists soup dt myoffset du dk,
         page E url = Ok soup
         /\ published_dt E soup = Ok (Some dt)
         /\ (utcoffset dt = Some myoffset
             \/ utcoffset dt = None
                /\ local_utcoffset E (wall dt) = Ok myoffset)
         /\ fromisoformat E u = Ok du
         /\ fromisoformat E k = Ok dk
         /\ instant du = Some (wall dt - myoffset)
         /\ instant dk = Some (wall dt - myoffset)
         /\ utcoffset du = Some 0
         /\ utcoffset dk = Some (kst_fromutc E (wall dt - myoffset)).
Proof.
  intros [Hround _] Hart.
  apply parse_article_inv in Hart as (soup & dt & Hp & Hdt & Hu & Hk & _).
  split.
  - split; intros Hn; rewrite Hn in *.
    + apply iso_in_None in Hu. subst dt. cbn in Hk. now injection Hk.
    + apply iso_in_None in Hk. subst dt. cbn in Hu. now injection Hu.
  - intros u k Hpu Hpk. rewrite Hpu in Hu. rewrite Hpk in Hk.
    apply iso_in_Some in Hu as (d & xu & -> & Hxu & ->).
    apply iso_in_Some in Hk as (d' & xk & [= <-] & Hxk & ->).
    apply astimezone_inv in Hxu as (o & Hcase & _ & _ & ->).
    apply astimezone_inv in Hxk as (o' & Hcase' & _ & _ & ->).
    assert (o' = o) as ->.
    { destruct Hcase as [H1 | [H1 H2]], Hcase' as [H3 | [H3 H4]];
        congruence. }
    exists soup, d, o,
      (mkDatetime (wall d - o + utc_fromutc (wall d - o))
                  (Some (utc_fromutc (wall d - o)))),
      (mkDatetime (wall d - o + kst_fromutc E (wall d - o))
                  (Some (kst_fromutc E (wall d - o)))).
    rewrite !Hround.
    repeat split; try assumption; try reflexivity;
      unfold instant, utc_fromutc; cbn; f_equal; lia.
Qed.

(** * The environment of the examples meets the contracts *)

Lemma find_slash_after (a b : string) :
  Str.forallb Demo.no_slash a = true ->
  Str.find "/" (a ++ String "/" b) = Some (String.length a).
Proof.
  induction a as [|c a IH]; cbn; [reflexivity|].
  intros H. apply andb_true_iff in H as [Hc Ha].
  unfold Demo.no_slash in Hc. apply negb_true_iff in Hc. rewrite Hc.
  now rewrite (IH Ha).
Qed.

Lemma take_length_app (a b : string) :
  Str.take (String.length a) (a ++ b) = a.
Proof. induction a as [|c a IH]; cbn; [now destruct b | now rewrite IH]. Qed.

Lemma drop_length_app (a b : string) :
  Str.drop (String.length a) (a ++ b) = b.
Proof. induction a as [|c a IH]; cbn; [now destruct b | exact IH]. Qed.

Lemma string_of_uint_no_slash (d : Decimal.uint) :
  Str.forallb Demo.no_slash (NilEmpty.string_of_uint d) = true.
Proof. induction d; cbn; auto. Qed.

Lemma encode_Z_no_slash (z : Z) :
  Str.forallb Demo.no_slash (Demo.encode_Z z) = true.
Proof.
  unfold Demo.encode_Z. destruct (Z.to_int z); cbn;
    apply string_of_uint_no_slash.
Qed.

Lemma decode_encode_Z (z : Z) : Demo.decode_Z (Demo.encode_Z z) = Some z.
Proof.
  unfold Demo.decode_Z, Demo.encode_Z.
  rewrite NilEmpty.isi. cbn. now rewrite DecimalZ.of_to.
Qed.

Lemma drop_past_separator (a b : string) (c : ascii) :
  Str.drop (S (String.length a)) (a ++ String c b) = b.
Proof. induction a as [|x a IH]; cbn; [now destruct b | exact IH]. Qed.

Lemma iso_decode_encode (w o : Z) :
  Demo.iso_decode (Demo.iso_encode (mkDatetime w (Some o)))
  = Ok (mkDatetime w (Some o)).
Proof.
  unfold Demo.iso_encode, Demo.iso_decode. cbn [wall utcoffset].
  change ("@" ++ Demo.encode_Z w ++ "/" ++ Demo.encode_Z o)
    with (String "@" (Demo.encode_Z w ++ String "/" (Demo.encode_Z o))).
  cbv iota. unfold Str.has, Str.split1.
  rewrite (find_slash_after _ _ (encode_Z_no_slash w)).
  rewrite take_length_app, drop_past_separator, !decode_encode_Z.
  reflexivity.
Qed.

Lemma newsroom_isoformat_contract (order : list string -> list string) :
  isoformat_contract (Demo.env (Demo.newsroom order)).
Proof.
  split.
  - intros w o. cbn [fromisoformat isoformat Demo.env].
    assert (Hmiss : lookup (Demo.iso_encode (mkDatetime w (Some o)))
                      (Demo.iso_texts (Demo.newsroom order)) = None)
      by reflexivity.
    rewrite Hmiss. apply iso_decode_encode.
  - intros d. cbn. discriminate.
Qed.

Lemma published_fields_same_instant_witness :
  let E := Demo.env (Demo.newsroom Demo.insertion_order) in
  let art := mkArticle Demo.alpha_url "Alpha"
               (Some "@63893059200000000/0")
               (Some "@63893091600000000/32400000000") "Alpha body." in
  (published_utc art = None <-> published_kst art = None)
  /\ exists soup dt myoffset du dk,
       page E Demo.alpha_url = Ok soup
       /\ published_dt E soup = Ok (Some dt)
       /\ (utcoffset dt = Some myoffset
           \/ utcoffset dt = None
              /\ local_utcoffset E (wall dt) = Ok myoffset)
       /\ fromisoformat E "@63893059200000000/0" = Ok du
       /\ fromisoformat E "@63893091600000000/32400000000" = Ok dk
       /\ instant du = Some (wall dt - myoffset)
       /\ instant dk = Some (wall dt - myoffset)
       /\ utcoffset du = Some 0
       /\ utcoffset dk = Some (kst_fromutc E (wall dt - myoffset)).
Proof.
  intros E art.
  destruct (published_fields_same_instant E Demo.alpha_url art)
    as [Hboth Hsame].
  - apply newsroom_isoformat_contract.
  - vm_compute. reflexivity.
  - split; [exact Hboth|].
    exact (Hsame _ _ eq_refl eq_refl).
Defined.

(** * The orchestrator *)

Section CrawlFacts.

Variable E : PyLib.

Lemma time_sleep_outcome (sec : float) :
  outcome (time_sleep sec)
  = if PrimFloat.ltb sec 0%float || PrimFloat.is_nan sec
    then Raise ValueError else Ok tt.
Proof. unfold time_sleep. destruct (_ || _); reflexivity. Qed.

(** The [try] block of the loop without its trace. *)
Lemma visit_outcome (today_kst : datetime) (results : list Article)
  (url : string) :
  outcome (visit E today_kst results url)
  = (art <- outcome (parse_article E url) ;;
     match published_kst art with
     | Some s =>
         if negb (Str.is_empty s) then
           dt <- fromisoformat E s ;;
           today <- is_today_kst E (Some dt) today_kst ;;
           Ok (if today then (results ++ [art])%list else results)
         else Ok results
     | None => Ok results
     end).
Proof.
  unfold visit. rewrite outcome_bindM.
  destruct (outcome (parse_article E url)) as [art|e]; cbn [Py.bind];
    [|reflexivity].
  destruct (published_kst art) as [s|]; [|reflexivity].
  destruct (negb (Str.is_empty s)); [|reflexivity].
  rewrite outcome_bindM. cbn [outcome lift snd].
  destruct (fromisoformat E s); cbn [Py.bind]; [|reflexivity].
  rewrite outcome_bindM. cbn [outcome lift snd].
  destruct (is_today_kst E _ _); reflexivity.
Qed.

(** Whatever happens to one link, the loop goes on with a list that
    extends the one it had by at most the article of that link. *)
Lemma guarded_visit_total (today_kst : datetime) (results : list Article)
  (url : string) :
  exists more,
    outcome (try_visit E today_kst results url)
    = Ok (results ++ more)%list
    /\ forall art, In art more -> outcome (parse_article E url) = Ok art.
Proof.
  unfold try_visit. rewrite outcome_try_M, visit_outcome.
  assert (Hnone : exists more : list Article,
             @Ok (list Article) results = Ok (results ++ more)%list
             /\ forall art, In art more ->
                            outcome (parse_article E url) = Ok art).
  { exists []. rewrite app_nil_r. split; [reflexivity | intros ? []]. }
  destruct (outcome (parse_article E url)) as [art|e]; cbn [Py.bind];
    [|exact Hnone].
  destruct (published_kst art) as [s|]; [|exact Hnone].
  destruct (negb (Str.is_empty s)); [|exact Hnone].
  destruct (fromisoformat E s); cbn [Py.bind]; [|exact Hnone].
  destruct (is_today_kst E _ _) as [[|]|]; cbn [Py.bind];
    [|exact Hnone|exact Hnone].
  exists [art]. split; [reflexivity|]. intros art' [<- | []]. reflexivity.
Qed.

(** Under the contract of [isoformat], what one link adds is [kept]. *)
Lemma guarded_visit_kept (today_kst : datetime) (results : list Article)
  (url : string) :
  isoformat_contract E ->
  outcome (try_visit E today_kst results url)
  = Ok (results ++ kept E today_kst url)%list.
Proof.
  intros [Hround Hne]. unfold try_visit.
  rewrite outcome_try_M, visit_outcome.
  unfold kept.
  destruct (outcome (parse_article E url)) as [art|e] eqn:Hart;
    cbn [Py.bind]; [|cbn; now rewrite app_nil_r].
  apply parse_article_inv in Hart as (soup & dt & Hp & Hdt & _ & Hk & _).
  rewrite Hp. cbn [Py.bind]. rewrite Hdt.
  destruct (published_kst art) as [s|].
  - apply iso_in_Some in Hk as (d & x & -> & Hx & ->).
    pose proof (astimezone_again _ _ _ _ Hx) as Hagain.
    assert (Hfx : fromisoformat E (isoformat E x) = Ok x).
    { destruct (astimezone_inv _ _ _ _ Hx) as (o & _ & _ & _ & ->).
      apply Hround. }
    pose proof (Hne x) as Hx'.
    destruct (Str.is_empty (isoformat E x)) eqn:Hempty.
    { destruct (isoformat E x); [contradiction | discriminate]. }
    cbn [negb]. rewrite Hfx. cbn [Py.bind].
    unfold is_today_kst, kst_date. rewrite Hagain, Hx. cbn [Py.bind].
    destruct (date x =? date today_kst); [reflexivity|].
    now rewrite app_nil_r.
  - apply iso_in_None in Hk as ->. now rewrite app_nil_r.
Qed.

Lemma crawl_loop_outcome (today_kst : datetime) (sleep_sec : float)
  (links : list string) (results : list Article) :
  isoformat_contract E ->
  outcome (crawl_loop E today_kst sleep_sec links results)
  = match links with
    | [] => Ok results
    | _ :: _ =>
        _ <- outcome (time_sleep sleep_sec) ;;
        Ok (results ++ flat_map (kept E today_kst) links)%list
    end.
Proof.
  intros Hc. revert results.
  induction links as [|url rest IH]; intros results; [reflexivity|].
  cbn [crawl_loop]. rewrite outcome_bindM, guarded_visit_kept by exact Hc.
  cbn [Py.bind]. rewrite outcome_bindM.
  destruct (outcome (time_sleep sleep_sec)) as [[]|e] eqn:Hs;
    cbn [Py.bind]; [|reflexivity].
  rewrite IH. cbn [flat_map]. destruct rest as [|url' rest'].
  - cbn. now rewrite app_nil_r.
  - cbn [Py.bind]. now rewrite app_assoc.
Qed.

Lemma crawl_today_outcome (category_url : string)
  (today_kst : option datetime) (limit : Z) (sleep_sec : float) :
  outcome (crawl_today E category_url today_kst limit sleep_sec)
  = (links <- outcome (get_article_links E category_url limit) ;;
     outcome (crawl_loop E
                (match today_kst with Some t => t | None => now_kst E end)
                sleep_sec links [])).
Proof. unfold crawl_today. apply outcome_bindM. Qed.

Lemma kept_In (today_kst : datetime) (url : string) (art : Article) :
  In art (kept E today_kst url) <->
  exists soup dt,
    page E url = Ok soup
    /\ outcome (parse_article E url) = Ok art
    /\ published_dt E soup = Ok (Some dt)
    /\ kst_date E dt = Ok (date today_kst).
Proof.
  unfold kept. split.
  - destruct (outcome (parse_article E url)) as [a|]; [|intros []].
    destruct (page E url) as [soup|]; [|intros []]. cbn [Py.bind].
    destruct (published_dt E soup) as [[dt|]|] eqn:Hdt; try (intros []).
    destruct (kst_date E dt) as [d|] eqn:Hd; [|intros []].
    destruct (d =? date today_kst) eqn:Heq; [|intros []].
    intros [<- | []]. apply Z.eqb_eq in Heq. subst d.
    exists soup, dt. auto.
  - intros (soup & dt & Hp & Ha & Hdt & Hd).
    rewrite Ha, Hp. cbn [Py.bind]. rewrite Hdt, Hd, Z.eqb_refl.
    now left.
Qed.

End CrawlFacts.

(** C1.  For every run of [crawl_today] that returns, an article is in
    the returned list if and only if it is the article of a discovered
    link whose resolved publication instant, converted to the fixed time
    zone, has the calendar date of the reference day; the article of a
    link whose timestamp could not be resolved is not in the list. *)
Theorem crawl_today_returns_todays_articles
  (E : PyLib) (category_url : string) (today_kst : option datetime)
  (limit : Z) (sleep_sec : float) (results : list Article) :
  isoformat_contract E ->
  outcome (crawl_today E category_url today_kst limit sleep_sec)
  = Ok results ->
  exists links,
    outcome (get_article_links E category_url limit) = Ok links
    /\ (forall art,
           In art results <->
           exists url soup dt,
             In url links
             /\ page E url = Ok soup
             /\ outcome (parse_article E url) = Ok art
             /\ published_dt E soup = Ok (Some dt)
             /\ kst_date E dt = Ok (reference_date E today_kst))
    /\ (forall link soup,
           In link links ->
           page E link = Ok soup ->
           published_dt E soup = Ok None ->
           forall art, In art results -> url art <> link).
Proof.
  intros Hc Hrun. rewrite crawl_today_outcome in Hrun.
  destruct (outcome (get_article_links E category_url limit))
    as [links|e]; [|discriminate].
  cbn [Py.bind] in Hrun. exists links. split; [reflexivity|].
  set (today := match today_kst with Some t => t | None => now_kst E end)
    in *.
  assert (Hdate : reference_date E today_kst = date today)
    by (unfold reference_date, today; now destruct today_kst).
  assert (Hres : results = flat_map (kept E today) links).
  { rewrite crawl_loop_outcome in Hrun by exact Hc.
    destruct links; [now injection Hrun as <-|].
    destruct (outcome (time_sleep sleep_sec)); [|discriminate].
    cbn in Hrun. now injection Hrun as <-. }
  assert (Hiff : forall art,
             In art results <->
             exists url soup dt,
               In url links
               /\ page E url = Ok soup
               /\ outcome (parse_article E url) = Ok art
               /\ published_dt E soup = Ok (Some dt)
               /\ kst_date E dt = Ok (reference_date E today_kst)).
  { intros art. rewrite Hres, in_flat_map, Hdate. split.
    - intros (url & Hin & Hk). apply kept_In in Hk as (soup & dt & H).
      exists url, soup, dt. tauto.
    - intros (url & soup & dt & Hin & H). exists url. split; [exact Hin|].
      apply kept_In. exists soup, dt. tauto. }
  split; [exact Hiff|].
  intros url soup Hin Hp Hnone art Hart Hurl.
  apply Hiff in Hart as (url' & soup' & dt & _ & Hp' & Ha & Hdt & _).
  apply parse_article_inv in Ha as (_ & _ & _ & _ & _ & _ & Hu).
  congruence.
Qed.

Lemma crawl_today_returns_todays_articles_witness :
  let E := Demo.env (Demo.newsroom Demo.insertion_order) in
  let alpha := mkArticle Demo.alpha_url "Alpha"
                 (Some "@63893059200000000/0")
                 (Some "@63893091600000000/32400000000") "Alpha body." in
  exists links,
    outcome (get_article_links E CATEGORY_URL 40) = Ok links
    /\ (forall art,
           In art [alpha] <->
           exists url soup dt,
             In url links
             /\ page E url = Ok soup
             /\ outcome (parse_article E url) = Ok art
             /\ published_dt E soup = Ok (Some dt)
             /\ kst_date E dt = Ok (reference_date E (Some Demo.today)))
    /\ (forall link soup,
           In link links ->
           page E link = Ok soup ->
           published_dt E soup = Ok None ->
           forall art, In art [alpha] -> url art <> link).
Proof.
  intros E alpha.
  apply (crawl_today_returns_todays_articles E CATEGORY_URL
           (Some Demo.today) 40 0.7%float [alpha]).
  - apply newsroom_isoformat_contract.
  - vm_compute. reflexivity.
Defined.

(** * The handler *)

Lemma bindM_lift_Ok {A B} (a : A) (k : A -> M B) :
  bindM (lift (Ok a)) k = k a.
Proof. unfold bindM, lift. destruct (k a); reflexivity. Qed.




Section HandlerFacts.

Variable E : PyLib.




(** The response when the date is absent or valid: the crawl, then a
    success. *)
Lemma respond_accepted (raw : RawParams) :
  date_accepted E raw ->
  exists today_kst,
    respond E raw
    = (items <~ crawl_today_at E (category_url raw) today_kst
                  (parse_limit E (limit_str raw))
                  (parse_sleep E (sleep_str raw)) ;;
       ret (mkResponse 200
              (Items (strftime_Ymd E
                        (match today_kst with
                         | Some d => d
                         | None => now_kst E
                         end))
                     (len items) items))).
Proof.
  unfold date_accepted, respond. intros [Hf | [d Hd]].
  - rewrite Hf. exists None. reflexivity.
  - rewrite Hd. destruct (truthy (date_str raw));
      [exists (Some d) | exists None]; reflexivity.
Qed.



Lemma ai_today_collected (req : HttpRequest) (raw : RawParams) :
  collect_params E req = Ok raw ->
  ai_today E req
  = try_M (respond E raw)
      (fun e => _ <~ emit (EvLogException e) ;;
                ret (mkResponse 500 (InternalError e))).
Proof. intros H. unfold ai_today. now rewrite H, bindM_lift_Ok. Qed.

End HandlerFacts.



(** The run behind that witness: the third link cannot be fetched, the
    fourth is still visited, the response is a success. *)
Example newsroom_run :
  ai_today (Demo.env (Demo.newsroom Demo.insertion_order))
    (mkRequest "GET" [("date", "2025-09-10")] (Raise ValueError))
  = ([EvFetch CATEGORY_URL;
      EvFetch Demo.alpha_url; EvSleep 0.7%float;
      EvFetch Demo.beta_url; EvSleep 0.7%float;
      EvFetch Demo.gamma_url;
      EvLogWarning Demo.gamma_url RequestException; EvSleep 0.7%float;
      EvFetch Demo.delta_url; EvSleep 0.7%float],
     Ok (mkResponse 200
           (Items "2025-09-10" 1
              [mkArticle Demo.alpha_url "Alpha"
                 (Some "@63893059200000000/0")
                 (Some "@63893091600000000/32400000000") "Alpha body."]))).
Proof. vm_compute. reflexivity. Qed.



(** The request of that witness is answered like the one without
    [limit] and [sleep]. *)
Example malformed_limit_and_sleep_run :
  let E := Demo.env (Demo.newsroom Demo.insertion_order) in
  is_ok (py_int E "abc") = false
  /\ is_ok (py_float E "fast") = false
  /\ ai_today E
       (mkRequest "GET"
          [("date", "2025-09-10"); ("limit", "abc"); ("sleep", "fast")]
          (Raise ValueError))
     = ai_today E
         (mkRequest "GET" [("date", "2025-09-10")] (Raise ValueError)).
Proof. repeat split; vm_compute; reflexivity. Qed.

(** C2, at the failing input.  A POST request whose query string and
    body both give [date], [limit], [sleep] and [category_url]: every
    parameter takes the value of the body, and the crawl runs on the
    body's category page, day, limit and sleep. *)
Theorem post_body_overrides_query_string :
  let E := Demo.env (Demo.newsroom Demo.insertion_order) in
  let req :=
    mkRequest "POST"
      [("date", "2025-09-10"); ("limit", "1"); ("sleep", "0.5");
       ("category_url", CATEGORY_URL)]
      (Ok (JDict [("date", JStr "2025-09-09"); ("limit", JInt 3);
                  ("sleep", JStr "1.5");
                  ("category_url", JStr Demo.STARTUPS_URL)])) in
  collect_params E req
  = Ok (mkRaw (JStr "2025-09-09") (Some "3") (Some "1.5")
          (JStr Demo.STARTUPS_URL))
  /\ ai_today E req
     = ([EvFetch Demo.STARTUPS_URL; EvFetch Demo.beta_url;
         EvSleep 1.5%float],
        Ok (mkResponse 200
              (Items "2025-09-09" 1
                 [mkArticle Demo.beta_url "Beta"
                    (Some "@63892976400000000/0")
                    (Some "@63893008800000000/32400000000")
                    "Beta body."]))).
Proof. split; vm_compute; reflexivity. Qed.

(** The same query string in a GET request is what the handler uses. *)
Example get_uses_query_string :
  let E := Demo.env (Demo.newsroom Demo.insertion_order) in
  ai_today E
    (mkRequest "GET"
       [("date", "2025-09-10"); ("limit", "1"); ("sleep", "0.5");
        ("category_url", CATEGORY_URL)]
       (Raise ValueError))
  = ([EvFetch CATEGORY_URL; EvFetch Demo.alpha_url; EvSleep 0.5%float],
     Ok (mkResponse 200
           (Items "2025-09-10" 1
              [mkArticle Demo.alpha_url "Alpha"
                 (Some "@63893059200000000/0")
                 (Some "@63893091600000000/32400000000") "Alpha body."]))).
Proof. vm_compute. reflexivity. Qed.


(** * More about the handler *)

(** X1.  Whatever the request says, the limit the crawl runs with is
    between 1 and 80. *)
Theorem parse_limit_between_1_and_80 (E : PyLib) (limit_str : option string) :
  1 <= parse_limit E limit_str <= 80.
Proof.
  unfold parse_limit. destruct limit_str as [s|]; [|lia].
  destruct (negb (Str.is_empty s)); [|lia].
  destruct (py_int E s) as [n|]; lia.
Qed.

Lemma respond_outcome_shape (E : PyLib) (raw : RawParams)
  (resp : HttpResponse) :
  outcome (respond E raw) = Ok resp ->
  resp = mkResponse 400 InvalidDate
  \/ exists date items, resp = mkResponse 200 (Items date (len items) items).
Proof.
  unfold respond.
  destruct (truthy (date_str raw));
    [destruct (parse_date E (date_str raw));
     [|intros [= <-]; now left]|];
    rewrite outcome_bindM;
    destruct (outcome (crawl_today_at _ _ _ _ _)) as [items|];
    cbn; try discriminate; intros [= <-]; right; eauto.
Qed.

(** X2.  The handler never raises: it answers every request, with
    status 200 and the items, with status 400 for the date, or with
    status 500 and the exception that was caught. *)
Theorem ai_today_always_responds (E : PyLib) (req : HttpRequest) :
  exists resp,
    outcome (ai_today E req) = Ok resp
    /\ (resp = mkResponse 400 InvalidDate
        \/ (exists date items,
               resp = mkResponse 200 (Items date (len items) items))
        \/ exists e, resp = mkResponse 500 (InternalError e)).
Proof.
  unfold ai_today. rewrite outcome_try_M, outcome_bindM.
  cbn [outcome lift snd].
  destruct (collect_params E req) as [raw|e]; cbn [Py.bind].
  - destruct (outcome (respond E raw)) as [resp|e] eqn:Hr.
    + exists resp. split; [reflexivity|].
      apply respond_outcome_shape in Hr as [H | H]; auto.
    + cbn. eexists. split; [reflexivity|]. right. right. eauto.
  - cbn. eexists. split; [reflexivity|]. right. right. eauto.
Qed.

(** X3.  A [date] that is present and cannot be parsed is answered with
    status 400 before anything is fetched, logged or slept. *)
Theorem invalid_date_is_rejected_before_crawl
  (E : PyLib) (req : HttpRequest) (raw : RawParams) :
  collect_params E req = Ok raw ->
  truthy (date_str raw) = true ->
  is_ok (parse_date E (date_str raw)) = false ->
  ai_today E req = ([], Ok (mkResponse 400 InvalidDate)).
Proof.
  intros Hraw Ht Hbad. rewrite (ai_today_collected E req raw Hraw).
  unfold respond. rewrite Ht.
  destruct (parse_date E (date_str raw)); [discriminate|]. reflexivity.
Qed.

Lemma invalid_date_is_rejected_before_crawl_witness :
  ai_today (Demo.env (Demo.newsroom Demo.insertion_order))
    (mkRequest "GET" [("date", "2025-13-40")] (Raise ValueError))
  = ([], Ok (mkResponse 400 InvalidDate)).
Proof.
  apply (invalid_date_is_rejected_before_crawl _ _
           (mkRaw (JStr "2025-13-40") None None (JStr CATEGORY_URL)));
    reflexivity.
Defined.

(** X4.  A request whose method is not POST is answered from its query
    string alone: the body is not read. *)
Theorem body_is_read_only_for_post
  (E : PyLib) (method : string) (qs : list (string * string))
  (body body' : result json) :
  method <> "POST" ->
  ai_today E (mkRequest method qs body)
  = ai_today E (mkRequest method qs body').
Proof.
  intros Hm. unfold ai_today, collect_params. cbn [Func.method params].
  destruct (String.eqb_spec method "POST"); [contradiction|]. reflexivity.
Qed.

Lemma body_is_read_only_for_post_witness :
  ai_today (Demo.env (Demo.newsroom Demo.insertion_order))
    (mkRequest "GET" [("date", "2025-09-10")]
       (Ok (JDict [("date", JStr "2025-09-09")])))
  = ai_today (Demo.env (Demo.newsroom Demo.insertion_order))
      (mkRequest "GET" [("date", "2025-09-10")] (Raise ValueError)).
Proof.
  apply (body_is_read_only_for_post _ "GET"). discriminate.
Defined.

(** X5.  A POST request whose body is not valid JSON is answered like
    the GET request with the same query string. *)
Theorem post_with_invalid_json_uses_query_string
  (E : PyLib) (qs : list (string * string)) (body : result json) :
  ai_today E (mkRequest "POST" qs (Raise ValueError))
  = ai_today E (mkRequest "GET" qs body).
Proof. reflexivity. Qed.

(** X6.  A POST request whose body is valid JSON but not an object is
    answered with status 500, and nothing is fetched. *)
Theorem post_with_non_object_body_fails
  (E : PyLib) (qs : list (string * string)) (body : json) :
  (forall d, body <> JDict d) ->
  ai_today E (mkRequest "POST" qs (Ok body))
  = ([EvLogException AttributeError],
     Ok (mkResponse 500 (InternalError AttributeError))).
Proof.
  intros Hb. unfold ai_today, collect_params.
  cbn [Func.method params get_json]. cbn [String.eqb Ascii.eqb Bool.eqb].
  cbn [Py.bind].
  destruct body; try reflexivity. now destruct (Hb d).
Qed.

Lemma post_with_non_object_body_fails_witness :
  ai_today (Demo.env (Demo.newsroom Demo.insertion_order))
    (mkRequest "POST" [("date", "2025-09-10")]
       (Ok (JList [JStr "2025-09-09"])))
  = ([EvLogException AttributeError],
     Ok (mkResponse 500 (InternalError AttributeError))).
Proof.
  apply post_with_non_object_body_fails. discriminate.
Defined.

(** X7.  A [sleep] that [float] reads as NaN passes both clamps, and
    [time.sleep] rejects it after the first article: whenever at least
    one link is discovered the request is answered with status 500. *)
Theorem nan_sleep_fails_the_request
  (E : PyLib) (req : HttpRequest) (raw : RawParams) (u : string)
  (link : string) (links : list string) :
  collect_params E req = Ok raw ->
  date_accepted E raw ->
  category_url raw = JStr u ->
  outcome (get_article_links E u (parse_limit E (limit_str raw)))
  = Ok (link :: links) ->
  PrimFloat.is_nan (parse_sleep E (sleep_str raw)) = true ->
  outcome (ai_today E req)
  = Ok (mkResponse 500 (InternalError ValueError)).
Proof.
  intros Hraw Hdate Hcat Hlinks Hnan.
  rewrite (ai_today_collected E req raw Hraw).
  destruct (respond_accepted E raw Hdate) as [today_kst ->].
  rewrite Hcat. cbn [crawl_today_at].
  rewrite outcome_try_M, outcome_bindM, crawl_today_outcome, Hlinks.
  cbn [Py.bind crawl_loop]. rewrite outcome_bindM.
  destruct (guarded_visit_total E
              (match today_kst with Some t => t | None => now_kst E end)
              [] link) as (more & -> & _).
  cbn [Py.bind]. rewrite outcome_bindM, time_sleep_outcome, Hnan.
  rewrite orb_true_r. reflexivity.
Qed.

Lemma nan_sleep_fails_the_request_witness :
  outcome (ai_today (Demo.env (Demo.newsroom Demo.insertion_order))
             (mkRequest "GET" [("sleep", "nan")] (Raise ValueError)))
  = Ok (mkResponse 500 (InternalError ValueError)).
Proof.
  apply (nan_sleep_fails_the_request _ _
           (mkRaw JNull None (Some "nan") (JStr CATEGORY_URL))
           CATEGORY_URL Demo.alpha_url
           [Demo.beta_url; Demo.gamma_url; Demo.delta_url]).
  - reflexivity.
  - left. reflexivity.
  - reflexivity.
  - vm_compute. reflexivity.
  - reflexivity.
Defined.


(** * More about the orchestrator *)

Lemma subseq_refl {A} (l : list A) : subseq l l.
Proof. induction l; constructor; assumption. Qed.

Lemma subseq_nil_l {A} (l : list A) : subseq [] l.
Proof. induction l; constructor; assumption. Qed.

Lemma subseq_nil_inv {A} (l : list A) : subseq l [] -> l = [].
Proof. inversion 1. reflexivity. Qed.

Lemma subseq_length {A} (l1 l2 : list A) :
  subseq l1 l2 -> (List.length l1 <= List.length l2)%nat.
Proof. induction 1; cbn; lia. Qed.

Lemma trace_lift_bindM {A B} (r : result A) (k : A -> M B) :
  trace (bindM (lift r) k)
  = match r with Ok a => trace (k a) | Raise _ => [] end.
Proof. rewrite trace_bindM. destruct r; reflexivity. Qed.

Section CrawlTraces.

Variable E : PyLib.

Lemma parse_article_trace_exact (url : string) :
  trace (parse_article E url) = [EvFetch url].
Proof.
  unfold parse_article. rewrite trace_bindM, fetch_trace, fetch_outcome.
  destruct (http_get E url) as [html|]; [|reflexivity].
  cbn [app]. f_equal.
  repeat (rewrite trace_lift_bindM;
          match goal with
          | |- match ?r with Ok _ => _ | Raise _ => _ end = _ =>
              destruct r; [|reflexivity]
          end).
  reflexivity.
Qed.

Lemma visit_trace_exact (today_kst : datetime) (results : list Article)
  (url : string) :
  trace (visit E today_kst results url) = [EvFetch url].
Proof.
  unfold visit. rewrite trace_bindM, parse_article_trace_exact.
  destruct (outcome (parse_article E url)) as [art|]; [|reflexivity].
  cbn [app]. f_equal.
  destruct (published_kst art) as [s|]; [|reflexivity].
  destruct (negb (Str.is_empty s)); [|reflexivity].
  rewrite trace_lift_bindM. destruct (fromisoformat E s); [|reflexivity].
  rewrite trace_lift_bindM. destruct (is_today_kst E _ _); reflexivity.
Qed.

Lemma try_visit_activity (today_kst : datetime) (results : list Article)
  (url : string) :
  network_activity (trace (try_visit E today_kst results url))
  = [EvFetch url].
Proof.
  unfold try_visit. rewrite trace_try_M, visit_trace_exact.
  destruct (outcome (visit E today_kst results url)); reflexivity.
Qed.

Lemma network_activity_app (t1 t2 : list event) :
  network_activity (t1 ++ t2)%list
  = (network_activity t1 ++ network_activity t2)%list.
Proof. apply filter_app. Qed.

(** One link adds nothing or the article of its page. *)
Lemma try_visit_adds_at_most_one (today_kst : datetime)
  (results : list Article) (link : string) :
  exists more,
    outcome (try_visit E today_kst results link)
    = Ok (results ++ more)%list
    /\ subseq (map url more) [link].
Proof.
  unfold try_visit. rewrite outcome_try_M, visit_outcome.
  assert (Hnone : exists more : list Article,
             @Ok (list Article) results = Ok (results ++ more)%list
             /\ subseq (map url more) [link]).
  { exists []. rewrite app_nil_r. split; [reflexivity|].
    apply subseq_nil_l. }
  destruct (outcome (parse_article E link)) as [art|e] eqn:Hart;
    cbn [Py.bind]; [|exact Hnone].
  destruct (published_kst art) as [s|]; [|exact Hnone].
  destruct (negb (Str.is_empty s)); [|exact Hnone].
  destruct (fromisoformat E s); cbn [Py.bind]; [|exact Hnone].
  destruct (is_today_kst E _ _) as [[|]|]; cbn [Py.bind];
    [|exact Hnone|exact Hnone].
  exists [art]. split; [reflexivity|].
  apply parse_article_inv in Hart as (_ & _ & _ & _ & _ & _ & Hu).
  cbn [map]. rewrite Hu. apply subseq_refl.
Qed.

Lemma crawl_loop_subseq (today_kst : datetime) (sleep_sec : float)
  (links : list string) (results final : list Article) :
  outcome (crawl_loop E today_kst sleep_sec links results) = Ok final ->
  exists added,
    final = (results ++ added)%list /\ subseq (map url added) links.
Proof.
  revert results. induction links as [|link rest IH]; intros results.
  - cbn. intros [= <-]. exists []. rewrite app_nil_r.
    split; [reflexivity | constructor].
  - cbn [crawl_loop]. rewrite outcome_bindM.
    destruct (try_visit_adds_at_most_one today_kst results link)
      as (more & -> & Hmore).
    cbn [Py.bind]. rewrite outcome_bindM.
    destruct (outcome (time_sleep sleep_sec)) as [[]|]; [|discriminate].
    cbn [Py.bind]. intros Hf.
    apply IH in Hf as (added & -> & Hadded).
    exists (more ++ added)%list. rewrite app_assoc.
    split; [reflexivity|]. rewrite map_app.
    inversion Hmore as [| x l1 l2 Hl Heq1 Heq2 | x l1 l2 Hl Heq1 Heq2];
      subst; apply subseq_nil_inv in Hl.
    + rewrite Hl. cbn. now constructor.
    + rewrite Hl. cbn. now constructor.
Qed.

Lemma crawl_loop_activity (today_kst : datetime) (sleep_sec : float)
  (links : list string) (results : list Article) :
  outcome (time_sleep sleep_sec) = Ok tt ->
  network_activity (trace (crawl_loop E today_kst sleep_sec links results))
  = flat_map (fun link => [EvFetch link; EvSleep sleep_sec]) links.
Proof.
  intros Hs. revert results.
  induction links as [|link rest IH]; intros results; [reflexivity|].
  cbn [crawl_loop flat_map]. rewrite trace_bindM, network_activity_app.
  rewrite try_visit_activity.
  destruct (try_visit_adds_at_most_one today_kst results link)
    as (more & -> & _).
  rewrite trace_bindM, network_activity_app, Hs, IH.
  unfold time_sleep in *.
  destruct (PrimFloat.ltb sleep_sec 0 || PrimFloat.is_nan sleep_sec);
    [discriminate|]. reflexivity.
Qed.

Lemma get_article_links_trace (category_url : string) (limit : Z) :
  trace (get_article_links E category_url limit) = [EvFetch category_url].
Proof.
  unfold get_article_links.
  rewrite trace_bindM, fetch_trace, fetch_outcome.
  destruct (http_get E category_url); [|reflexivity].
  cbn [app]. f_equal. rewrite trace_lift_bindM.
  destruct (html_parser E _); reflexivity.
Qed.

End CrawlTraces.

(** X8.  Link discovery raises exactly when fetching or parsing the
    category page raises, and then with the same exception: no [href]
    of the page can make it fail. *)
Theorem link_discovery_fails_only_with_the_page
  (E : PyLib) (category_url : string) (limit : Z) :
  match page E category_url with
  | Ok soup =>
      exists links,
        outcome (get_article_links E category_url limit) = Ok links
  | Raise e => outcome (get_article_links E category_url limit) = Raise e
  end.
Proof.
  rewrite get_article_links_outcome.
  destruct (page E category_url) as [soup|e]; [|reflexivity].
  cbn [Py.bind]. rewrite collect_links_spec. eauto.
Qed.

(** X9.  The articles [crawl_today] returns are in the order of the
    discovered links: their URLs are the list of links with some left
    out. *)
Theorem crawl_today_keeps_discovery_order
  (E : PyLib) (category_url : string) (today_kst : option datetime)
  (limit : Z) (sleep_sec : float) (results : list Article) :
  outcome (crawl_today E category_url today_kst limit sleep_sec)
  = Ok results ->
  exists links,
    outcome (get_article_links E category_url limit) = Ok links
    /\ subseq (map url results) links.
Proof.
  rewrite crawl_today_outcome.
  destruct (outcome (get_article_links E category_url limit))
    as [links|]; [|discriminate].
  cbn [Py.bind]. intros H. exists links. split; [reflexivity|].
  apply crawl_loop_subseq in H as (added & -> & Hs). exact Hs.
Qed.

Lemma crawl_today_keeps_discovery_order_witness :
  exists links,
    outcome (get_article_links
               (Demo.env (Demo.newsroom Demo.insertion_order))
               CATEGORY_URL 40) = Ok links
    /\ subseq [Demo.alpha_url] links.
Proof.
  apply (crawl_today_keeps_discovery_order
           (Demo.env (Demo.newsroom Demo.insertion_order))
           CATEGORY_URL (Some Demo.today) 40 0.7%float
           [mkArticle Demo.alpha_url "Alpha"
              (Some "@63893059200000000/0")
              (Some "@63893091600000000/32400000000") "Alpha body."]).
  vm_compute. reflexivity.
Defined.

(** X10.  With a sleep that [time.sleep] accepts, a run of [crawl_today]
    fetches the category page and then, for each discovered link in
    order, fetches its page once and sleeps once, whether or not the
    page could be extracted. *)
Theorem crawl_today_fetches_and_sleeps_per_link
  (E : PyLib) (category_url : string) (today_kst : option datetime)
  (limit : Z) (sleep_sec : float) (links : list string) :
  outcome (get_article_links E category_url limit) = Ok links ->
  outcome (time_sleep sleep_sec) = Ok tt ->
  network_activity
    (trace (crawl_today E category_url today_kst limit sleep_sec))
  = EvFetch category_url
    :: flat_map (fun link => [EvFetch link; EvSleep sleep_sec]) links.
Proof.
  intros Hl Hs. unfold crawl_today.
  rewrite trace_bindM, network_activity_app, get_article_links_trace, Hl.
  rewrite crawl_loop_activity by exact Hs. reflexivity.
Qed.

Lemma crawl_today_fetches_and_sleeps_per_link_witness :
  network_activity
    (trace (crawl_today (Demo.env (Demo.newsroom Demo.insertion_order))
              CATEGORY_URL (Some Demo.today) 40 0.7%float))
  = EvFetch CATEGORY_URL
    :: flat_map (fun link => [EvFetch link; EvSleep 0.7%float])
         [Demo.alpha_url; Demo.beta_url; Demo.gamma_url; Demo.delta_url].
Proof.
  apply crawl_today_fetches_and_sleeps_per_link.
  - vm_compute. reflexivity.
  - reflexivity.
Defined.


Lemma slice_to_length {A} (n : Z) (l : list A) :
  0 <= n -> len (slice_to n l) <= n.
Proof.
  intros Hn. unfold slice_to, len. apply Z.leb_le in Hn. rewrite Hn.
  apply Z.leb_le in Hn. pose proof (firstn_le_length (Z.to_nat n) l). lia.
Qed.

Lemma respond_200 (E : PyLib) (raw : RawParams) (date : string)
  (count : Z) (items : list Article) :
  outcome (respond E raw) = Ok (mkResponse 200 (Items date count items)) ->
  count = len items
  /\ exists today_kst,
       outcome (crawl_today_at E (category_url raw) today_kst
                  (parse_limit E (limit_str raw))
                  (parse_sleep E (sleep_str raw))) = Ok items.
Proof.
  unfold respond.
  destruct (truthy (date_str raw));
    [destruct (parse_date E (date_str raw)); [|discriminate]|];
    rewrite outcome_bindM;
    destruct (outcome (crawl_today_at _ _ _ _ _)) as [l|] eqn:Hc;
    cbn; try discriminate; intros [= <- <- <-]; eauto.
Qed.

(** X11.  In a response with status 200 the count is the number of
    items, and there are at most 80 of them. *)
Theorem success_counts_at_most_80_items
  (E : PyLib) (req : HttpRequest) (date : string) (count : Z)
  (items : list Article) :
  outcome (ai_today E req)
  = Ok (mkResponse 200 (Items date count items)) ->
  count = len items /\ count <= 80.
Proof.
  unfold ai_today. rewrite outcome_try_M, outcome_bindM.
  cbn [outcome lift snd].
  destruct (collect_params E req) as [raw|]; cbn [Py.bind];
    [|cbn; discriminate].
  destruct (outcome (respond E raw)) as [resp|] eqn:Hr;
    [|cbn; discriminate].
  intros [= ->]. apply respond_200 in Hr as (Hcount & today_kst & Hc).
  split; [exact Hcount|]. subst count.
  destruct (category_url raw) as [| | | |u| |]; try discriminate.
  cbn [crawl_today_at] in Hc. rewrite crawl_today_outcome in Hc.
  destruct (outcome (get_article_links E u (parse_limit E (limit_str raw))))
    as [links|] eqn:Hl; [|discriminate].
  cbn [Py.bind] in Hc.
  apply crawl_loop_subseq in Hc as (added & -> & Hs). cbn [app].
  apply get_article_links_inv in Hl as (soup & _ & ->).
  apply subseq_length in Hs. rewrite length_map in Hs.
  assert (Hb : 1 <= parse_limit E (limit_str raw) <= 80).
  { unfold parse_limit. destruct (limit_str raw) as [s|]; [|lia].
    destruct (negb (Str.is_empty s)); [|lia].
    destruct (py_int E s) as [n|]; lia. }
  pose proof (slice_to_length (parse_limit E (limit_str raw))
                (set_iteration E
                   (document_order E soup
                      (parse_limit E (limit_str raw))))) as Hlen.
  unfold len in *. lia.
Qed.

Lemma success_counts_at_most_80_items_witness :
  1 = len [mkArticle Demo.alpha_url "Alpha"
             (Some "@63893059200000000/0")
             (Some "@63893091600000000/32400000000") "Alpha body."]
  /\ 1 <= 80.
Proof.
  apply (success_counts_at_most_80_items
           (Demo.env (Demo.newsroom Demo.insertion_order))
           (mkRequest "GET" [("date", "2025-09-10")] (Raise ValueError))
           "2025-09-10").
  vm_compute. reflexivity.
Defined.

(** X12.  When the category page has no article link, the page is the
    only thing fetched, nothing is slept, and the response is a success
    with count 0 and no items. *)
Theorem no_links_gives_empty_success
  (E : PyLib) (req : HttpRequest) (raw : RawParams) (u : string) :
  collect_params E req = Ok raw ->
  date_accepted E raw ->
  category_url raw = JStr u ->
  outcome (get_article_links E u (parse_limit E (limit_str raw))) = Ok [] ->
  exists date,
    ai_today E req = ([EvFetch u], Ok (mkResponse 200 (Items date 0 []))).
Proof.
  intros Hraw Hdate Hcat Hl.
  rewrite (ai_today_collected E req raw Hraw).
  destruct (respond_accepted E raw Hdate) as [today_kst ->].
  rewrite Hcat. cbn [crawl_today_at]. unfold crawl_today.
  pose proof (get_article_links_trace E u (parse_limit E (limit_str raw)))
    as Ht.
  destruct (get_article_links E u (parse_limit E (limit_str raw)))
    as [t r]. cbn in Hl, Ht. subst t r.
  eexists. reflexivity.
Qed.

Lemma no_links_gives_empty_success_witness :
  exists date,
    ai_today
      (Demo.env (Demo.one_page CATEGORY_URL (Demo.document [])
                   Demo.insertion_order))
      (mkRequest "GET" [("date", "2025-01-01"); ("limit", "5")]
         (Raise ValueError))
    = ([EvFetch CATEGORY_URL], Ok (mkResponse 200 (Items date 0 []))).
Proof.
  apply (no_links_gives_empty_success _ _
           (mkRaw (JStr "2025-01-01") (Some "5") None (JStr CATEGORY_URL))).
  - reflexivity.
  - right. eexists. reflexivity.
  - reflexivity.
  - reflexivity.
Defined.


(** * More about link discovery *)

(** X13.  The article-URL predicate holds exactly for the links that
    [urlparse] accepts, whose host contains [techcrunch.com] or is
    empty, and whose path (not the query or the fragment) has a
    [/20dd/dd/] segment; a link that [urlparse] rejects is not an
    article URL. *)
Theorem is_article_url_spec (E : PyLib) (href : string) :
  is_article_url E href = true <->
  exists p,
    urlparse (check_bracketed_netloc E) href "" = Ok p
    /\ (Str.contains "techcrunch.com" (netloc p) = true \/ netloc p = "")
    /\ year_month_segment (path p).
Proof.
  split; [apply is_article_url_parses|].
  intros (p & Hp & Hhost & Hym). unfold is_article_url. rewrite Hp.
  apply search_year_month_spec in Hym. rewrite Hym, andb_true_r.
  destruct Hhost as [-> | ->]; [reflexivity | apply orb_true_r].
Qed.

Section NormalizeFacts.

Variable chk : string -> bool.

Lemma lower_nonempty (s : string) : s <> "" -> Str.lower s <> "".
Proof. destruct s; [contradiction | discriminate]. Qed.

Lemma explicit_scheme_nonempty (url s rest : string) :
  explicit_scheme url = Some (s, rest) -> s <> "".
Proof.
  unfold explicit_scheme.
  destruct (Str.find ":" url) as [i|]; [|discriminate].
  destruct url as [|c0 r]; [discriminate|].
  destruct i as [|i]; [discriminate|].
  destruct (_ && _); [|discriminate].
  intros [= <- _]. discriminate.
Qed.

(** Parsing with the default scheme [https] instead of none changes the
    scheme of a link that names none and nothing else. *)
Lemma urlparse_with_https (href : string) :
  urlparse chk href "https"
  = (p <- urlparse chk href "" ;; Ok (with_default_scheme "https" p)).
Proof.
  unfold urlparse, urlsplit.
  change (clean_scheme "") with "". change (clean_scheme "https") with "https".
  destruct (explicit_scheme (clean_url href)) as [[s rest]|] eqn:Hs.
  - apply explicit_scheme_nonempty in Hs.
    destruct s as [|c s]; [contradiction|].
    repeat (break_if; cbn [Py.bind]); reflexivity.
  - repeat (cbn [Py.bind];
            try change (mem "" uses_params) with true;
            try change (mem "https" uses_params) with true;
            cbn [andb]; break_if);
      reflexivity.
Qed.

End NormalizeFacts.

Lemma urlunparse_on_techcrunch (pa pr q f : string) :
  exists rest,
    urlunparse (mkParseResult "https" "techcrunch.com" pa pr q f)
    = "https://techcrunch.com" ++ rest.
Proof.
  unfold urlunparse, urlunsplit.
  cbn [scheme netloc path Url.params query fragment].
  change (Str.is_empty "techcrunch.com") with false.
  change (Str.is_empty "https") with false. cbn [negb orb].
  repeat break_if; eexists; reflexivity.
Qed.

(** X14.  A link that names a scheme other than [https] is returned as
    it is written: an [http] link is not upgraded, so the [http] and the
    [https] form of one article are two different entries. *)
Theorem normalize_link_keeps_other_schemes
  (E : PyLib) (href : string) (p : ParseResult) :
  urlparse (check_bracketed_netloc E) href "" = Ok p ->
  scheme p <> "" ->
  scheme p <> "https" ->
  normalize_link E href = Ok href.
Proof.
  intros Hp Hne Hhttps. unfold normalize_link, urljoin.
  change (Str.is_empty CATEGORY_URL) with false. cbv iota.
  destruct href as [|c href'].
  { vm_compute in Hp. injection Hp as <-. now destruct Hne. }
  cbn [Str.is_empty]. rewrite urlparse_category. cbn [Py.bind scheme].
  rewrite urlparse_with_https, Hp. cbn [Py.bind].
  unfold with_default_scheme.
  destruct (scheme p) as [|a s] eqn:Hs; [now destruct Hne|].
  cbn [Str.is_empty]. rewrite Hs.
  destruct (String.eqb_spec (String a s) "https") as [Heq|_];
    [now destruct Hhttps|].
  reflexivity.
Qed.

Lemma normalize_link_keeps_other_schemes_witness :
  normalize_link (Demo.env (Demo.newsroom Demo.insertion_order))
    "http://techcrunch.com/2025/09/10/alpha/"
  = Ok "http://techcrunch.com/2025/09/10/alpha/".
Proof.
  apply (normalize_link_keeps_other_schemes _ _
           (mkParseResult "http" "techcrunch.com" "/2025/09/10/alpha/"
              "" "" ""));
    [reflexivity | discriminate | discriminate].
Defined.

(** X15.  A link without a host, with no scheme or the scheme [https],
    is always placed on [https://techcrunch.com]. *)
Theorem normalize_link_puts_hostless_links_on_techcrunch
  (E : PyLib) (href : string) (p : ParseResult) :
  urlparse (check_bracketed_netloc E) href "" = Ok p ->
  netloc p = "" ->
  scheme p = "" \/ scheme p = "https" ->
  exists rest, normalize_link E href = Ok ("https://techcrunch.com" ++ rest).
Proof.
  intros Hp Hnl Hs. unfold normalize_link, urljoin.
  change (Str.is_empty CATEGORY_URL) with false. cbv iota.
  destruct (Str.is_empty href); [eexists; reflexivity|].
  rewrite urlparse_category. cbn [Py.bind scheme netloc path Url.params
                                    query fragment].
  rewrite urlparse_with_https, Hp. cbn [Py.bind].
  assert (Hq : exists pa pr q f,
             with_default_scheme "https" p
             = mkParseResult "https" "" pa pr q f).
  { unfold with_default_scheme. destruct p as [sc nl pa pr q f].
    cbn in *. subst nl. destruct Hs as [-> | ->]; cbn; eauto. }
  destruct Hq as (pa & pr & q & f & ->).
  cbn [scheme netloc path Url.params query fragment].
  change (negb ("https" =? "https")%string
          || negb (mem "https" uses_relative)) with false.
  change (mem "https" uses_netloc) with true. cbv iota.
  cbn [Str.is_empty negb andb].
  destruct (Str.is_empty pa && Str.is_empty pr);
    destruct (urlunparse_on_techcrunch
                "/category/artificial-intelligence/" "" 
                (if Str.is_empty q then "" else q) f) as [r1 H1];
    [rewrite H1; eauto|].
  match goal with
  | |- exists rest, Ok (urlunparse (mkParseResult _ _ ?a ?b ?c ?d)) = _ =>
      destruct (urlunparse_on_techcrunch a b c d) as [r2 H2];
      rewrite H2; eauto
  end.
Qed.

Lemma normalize_link_puts_hostless_links_on_techcrunch_witness :
  exists rest,
    normalize_link (Demo.env (Demo.newsroom Demo.insertion_order))
      "/2025/09/10/alpha/"
    = Ok ("https://techcrunch.com" ++ rest).
Proof.
  apply (normalize_link_puts_hostless_links_on_techcrunch _ _
           (mkParseResult "" "" "/2025/09/10/alpha/" "" "" ""));
    [reflexivity | reflexivity | left; reflexivity].
Defined.

(** X16.  Links outside headings are only collected while the heading
    links are fewer than [limit]: when the headings alone give at least
    [limit] URLs, every URL returned is the target of a heading
    link. *)
Theorem heading_links_fill_the_limit_first
  (E : PyLib) (category_url : string) (limit : Z) (soup : Node)
  (links : list string) :
  set_contract E ->
  page E category_url = Ok soup ->
  outcome (get_article_links E category_url limit) = Ok links ->
  limit <= len (first_seen (heading_targets E soup)) ->
  forall u, In u links -> In u (heading_targets E soup).
Proof.
  intros Hc Hp Hout Hlim u Hu.
  rewrite (get_article_links_returns E _ _ _ Hp) in Hout.
  injection Hout as <-.
  apply slice_to_In, iteration_In in Hu;
    [|exact Hc | apply document_order_NoDup].
  unfold document_order in Hu. cbv zeta in Hu.
  fold (heading_targets E soup) in Hu.
  replace (len (first_seen (heading_targets E soup)) <? limit) with false
    in Hu by (symmetry; apply Z.ltb_ge; exact Hlim).
  exact (proj1 (first_seen_In _ _) Hu).
Qed.

Lemma heading_links_fill_the_limit_first_witness :
  let E := Demo.env (Demo.one_page CATEGORY_URL headlines_then_archive
                       Demo.reverse_order) in
  outcome (get_article_links E CATEGORY_URL 2)
  = Ok ["https://techcrunch.com/2025/09/10/beta/";
        "https://techcrunch.com/2025/09/10/alpha/"]
  /\ In "https://techcrunch.com/2025/09/10/beta/"
        (heading_targets E headlines_then_archive).
Proof.
  cbv zeta. split; [vm_compute; reflexivity|].
  apply (heading_links_fill_the_limit_first
           (Demo.env (Demo.one_page CATEGORY_URL headlines_then_archive
                        Demo.reverse_order))
           CATEGORY_URL 2 headlines_then_archive
           ["https://techcrunch.com/2025/09/10/beta/";
            "https://techcrunch.com/2025/09/10/alpha/"]).
  - apply reverse_order_contract. reflexivity.
  - vm_compute. reflexivity.
  - vm_compute. reflexivity.
  - vm_compute. discriminate.
  - left. reflexivity.
Defined.

(** * More about the article extractor *)

Section BodyFacts.

Variable E : PyLib.

Lemma ldjson_body_candidates_truthy (candidates : list json) (body : json) :
  ldjson_body_candidates candidates = Ok (Some body) ->
  truthy body = true.
Proof.
  induction candidates as [|c rest IH]; [discriminate|].
  destruct c as [| | | | |l|obj]; cbn [ldjson_body_candidates];
    try exact IH.
  destruct (in_article_types (dict_get "@type" obj)) as [[|]|e];
    cbn [Py.bind]; [|exact IH|discriminate].
  destruct (truthy (dict_get "articleBody" obj)) eqn:Ht; [|exact IH].
  now intros [= <-].
Qed.

Lemma ldjson_body_scripts_truthy (scripts : list Node) :
  exists r,
    ldjson_body_scripts E scripts = Ok r
    /\ forall body, r = Some body -> truthy body = true.
Proof.
  induction scripts as [|s rest IH]; cbn [ldjson_body_scripts].
  - exists None. split; [reflexivity | discriminate].
  - destruct (data <- json_loads E (script_source s) ;;
              ldjson_body_candidates (candidates_of data))
      as [[b|]|e] eqn:Hb; try exact IH.
    exists (Some b). split; [reflexivity|]. intros body [= <-].
    destruct (json_loads E (script_source s)) as [data|];
      [|discriminate]. cbn [Py.bind] in Hb.
    now apply ldjson_body_candidates_truthy in Hb.
Qed.

End BodyFacts.

(** X17.  The JSON-LD body strategy never raises, whatever the blocks
    hold, and a body it returns is never an empty or false value: an
    empty [articleBody] leaves the body to the paragraphs. *)
Theorem ldjson_article_body_is_truthy (E : PyLib) (soup : Node) :
  exists r,
    get_ldjson_article_body E soup = Ok r
    /\ forall body, r = Some body -> truthy body = true.
Proof. apply ldjson_body_scripts_truthy. Qed.

(** X18.  An [articleBody] that is not text (a list of paragraphs, a
    number) is not replaced by the paragraphs of the page: the article
    is not extracted at all. *)
Theorem non_text_article_body_fails_the_article
  (E : PyLib) (link : string) (soup : Node) (body : json) :
  page E link = Ok soup ->
  get_ldjson_article_body E soup = Ok (Some body) ->
  (forall s, body <> JStr s) ->
  exists e, outcome (parse_article E link) = Raise e.
Proof.
  intros Hp Hb Hs. rewrite parse_article_outcome, Hp. cbn [Py.bind].
  destruct (published_dt E soup) as [dt|e]; cbn [Py.bind]; [|eauto].
  rewrite Hb. cbn [Py.bind].
  destruct (iso_in E utc_fromutc dt) as [utc|e]; cbn [Py.bind]; [|eauto].
  destruct (iso_in E (kst_fromutc E) dt) as [kst|e]; cbn [Py.bind];
    [|eauto].
  destruct body as [| | | |s| |]; cbn; eauto.
  now destruct (Hs s).
Qed.

Lemma non_text_article_body_fails_the_article_witness :
  exists e,
    outcome (parse_article (Demo.env listed_body_world) Demo.alpha_url)
    = Raise e.
Proof.
  apply (non_text_article_body_fails_the_article
           (Demo.env listed_body_world) Demo.alpha_url listed_body_page
           (JList [JStr "One."])).
  - reflexivity.
  - vm_compute. reflexivity.
  - discriminate.
Defined.

(** * More about the timestamp strategies and the today filter *)

Section BlockFacts.

Variable E : PyLib.

Lemma ldjson_datetime_scripts_skips (pre : list Node) (s : Node)
  (post : list Node) (d : datetime) :
  (forall b, In b pre -> forall d', block_datetime E b <> Ok (Some d')) ->
  block_datetime E s = Ok (Some d) ->
  ldjson_datetime_scripts E (pre ++ s :: post)%list = Ok (Some d).
Proof.
  intros Hpre Hs. induction pre as [|b pre IH]; cbn [app].
  - cbn [ldjson_datetime_scripts]. fold (block_datetime E s).
    now rewrite Hs.
  - cbn [ldjson_datetime_scripts]. fold (block_datetime E b).
    assert (Hrest : ldjson_datetime_scripts E (pre ++ s :: post)%list
                    = Ok (Some d)).
    { apply IH. intros b' Hin. apply Hpre. now right. }
    pose proof (Hpre b (or_introl eq_refl)) as Hb.
    destruct (block_datetime E b) as [[d'|]|e];
      [now destruct (Hb d') | exact Hrest | exact Hrest].
Qed.

End BlockFacts.

(** X19.  The JSON-LD strategy takes the date of the first block that
    gives one: the blocks before it that are malformed, that raise while
    they are examined or that hold no dated article are passed over, and
    the blocks after it are not consulted. *)
Theorem first_dated_ldjson_block_wins
  (E : PyLib) (soup : Node) (pre : list Node) (s : Node)
  (post : list Node) (d : datetime) :
  find_all "script" [AttrIs "type" "application/ld+json"] soup
  = (pre ++ s :: post)%list ->
  (forall b, In b pre -> forall d', block_datetime E b <> Ok (Some d')) ->
  block_datetime E s = Ok (Some d) ->
  get_ldjson_datetime E soup = Ok (Some d).
Proof.
  intros Hf Hpre Hs. unfold get_ldjson_datetime. rewrite Hf.
  now apply ldjson_datetime_scripts_skips.
Qed.

Lemma first_dated_ldjson_block_wins_witness :
  get_ldjson_datetime (Demo.env (Demo.newsroom Demo.insertion_order))
    malformed_then_dated
  = Ok (Some (mkDatetime (Demo.clock 2025 9 9 0 0) (Some 0))).
Proof.
  apply (first_dated_ldjson_block_wins
           (Demo.env (Demo.newsroom Demo.insertion_order))
           malformed_then_dated
           [Demo.ldjson "{not json"]
           (Demo.ldjson
              (Demo.article_ld "NewsArticle" "2025-09-09T00:00:00Z"))
           []).
  - reflexivity.
  - intros b [<- | []] d'. vm_compute. discriminate.
  - vm_compute. reflexivity.
Defined.

(** X20.  Whether a datetime with an offset is of today depends on its
    instant only, not on the offset it was written with. *)
Theorem is_today_kst_depends_on_the_instant
  (E : PyLib) (dt1 dt2 today_kst : datetime) :
  instant dt1 <> None ->
  instant dt1 = instant dt2 ->
  is_today_kst E (Some dt1) today_kst = is_today_kst E (Some dt2) today_kst.
Proof.
  unfold instant, is_today_kst, astimezone.
  destruct (utcoffset dt1) as [o1|], (utcoffset dt2) as [o2|];
    cbn [option_map]; try congruence.
  intros _ [= Heq]. cbn [Py.bind]. rewrite Heq. reflexivity.
Qed.

Lemma is_today_kst_depends_on_the_instant_witness :
  let E := Demo.env (Demo.newsroom Demo.insertion_order) in
  is_today_kst E
    (Some (mkDatetime (Demo.clock 2025 9 10 9 0) (Some Demo.KST_OFFSET)))
    Demo.today
  = is_today_kst E
      (Some (mkDatetime (Demo.clock 2025 9 10 0 0) (Some 0))) Demo.today.
Proof.
  cbv zeta.
  apply (is_today_kst_depends_on_the_instant
           (Demo.env (Demo.newsroom Demo.insertion_order))).
  - discriminate.
  - vm_compute. reflexivity.
Defined.

(** X21.  A date found in the text of a page has no time of day: it is
    taken as midnight UTC, so that with an Asia/Seoul offset between
    zero and a day the article counts for the calendar day that is
    written, in Seoul too. *)
Theorem free_text_date_keeps_its_calendar_day
  (E : PyLib) (text : string) (d today_kst : datetime) :
  parse_human_datetime E text = Ok (Some d) ->
  wall d mod US_PER_DAY = 0 ->
  0 <= wall d < MAXORDINAL * US_PER_DAY ->
  0 <= kst_fromutc E (wall d) < US_PER_DAY ->
  utcoffset d = Some 0
  /\ is_today_kst E (Some d) today_kst = Ok (date d =? date today_kst).
Proof.
  intros Hp Hmid Hw Hoff.
  assert (Hutc : utcoffset d = Some 0).
  { unfold parse_human_datetime in Hp.
    destruct (search_month_day_year E text) as [g|]; [|discriminate].
    destruct (strptime_BdY E g) as [d0|]; [|discriminate].
    cbn in Hp. injection Hp as <-. reflexivity. }
  split; [exact Hutc|].
  unfold is_today_kst, astimezone. rewrite Hutc. cbn [Py.bind].
  rewrite Z.sub_0_r. unfold checked, MAXORDINAL, US_PER_DAY in *.
  assert (H1 : (0 <=? wall d) && (wall d <? 3652059 * 86400000000) = true).
  { apply andb_true_iff. split; [apply Z.leb_le | apply Z.ltb_lt]; lia. }
  rewrite H1. cbn [Py.bind].
  assert (Hq : wall d = 86400000000 * (wall d / 86400000000)).
  { pose proof (Z.div_mod (wall d) 86400000000). lia. }
  assert (H2 : (0 <=? wall d + kst_fromutc E (wall d))
               && (wall d + kst_fromutc E (wall d)
                   <? 3652059 * 86400000000) = true).
  { apply andb_true_iff. split; [apply Z.leb_le | apply Z.ltb_lt]; lia. }
  rewrite H2. cbn [Py.bind]. unfold date, US_PER_DAY. cbn [wall].
  do 3 f_equal.
  symmetry. apply (Z.div_unique _ _ _ (kst_fromutc E (wall d))); lia.
Qed.

Lemma free_text_date_keeps_its_calendar_day_witness :
  let E := Demo.env (Demo.newsroom Demo.insertion_order) in
  let d := mkDatetime (Demo.clock 2025 9 8 0 0) (Some 0) in
  utcoffset d = Some 0
  /\ is_today_kst E (Some d) Demo.today = Ok (date d =? date Demo.today).
Proof.
  cbv zeta.
  apply (free_text_date_keeps_its_calendar_day
           (Demo.env (Demo.newsroom Demo.insertion_order))
           "Posted September 8, 2025 by staff").
  - vm_compute. reflexivity.
  - vm_compute. reflexivity.
  - vm_compute. split; [discriminate | reflexivity].
  - vm_compute. split; [discriminate | reflexivity].
Defined.

(** * More about the parameters *)

Lemma datetime_ymd_Ok (yyyy mm dd : Z) (off : Z -> Z) (d : datetime) :
  datetime_ymd yyyy mm dd off = Ok d <->
  (1 <= yyyy <= 9999 /\ 1 <= mm <= 12 /\ 1 <= dd <= _days_in_month yyyy mm)
  /\ d = mkDatetime ((_ymd2ord yyyy mm dd - 1) * US_PER_DAY)
           (Some (off ((_ymd2ord yyyy mm dd - 1) * US_PER_DAY))).
Proof.
  unfold datetime_ymd, MINYEAR, MAXYEAR.
  destruct (Z.leb_spec 1 yyyy), (Z.leb_spec yyyy 9999),
    (Z.leb_spec 1 mm), (Z.leb_spec mm 12), (Z.leb_spec 1 dd),
    (Z.leb_spec dd (_days_in_month yyyy mm)); cbn [andb negb];
    split; try discriminate; try (intros [? _]; lia).
  - intros [= <-]. split; [lia | reflexivity].
  - intros [_ ->]. reflexivity.
Qed.

Lemma date_of_midnight (ordinal : Z) (o : option Z) :
  date (mkDatetime ((ordinal - 1) * US_PER_DAY) o) = ordinal.
Proof.
  unfold date, US_PER_DAY. cbn [wall]. rewrite Z.div_mul; lia.
Qed.

(** X22.  A [date] string is accepted exactly when it splits at its
    dashes into three parts that [int] reads as the year, month and day
    of a day of the calendar (years 1 to 9999); the day the crawl
    filters on is then that day. *)
Theorem parse_date_accepts_calendar_dates
  (E : PyLib) (s : string) (day : Z) :
  (exists d, parse_date E (JStr s) = Ok d /\ date d = day)
  <-> exists yyyy mm dd,
        map (py_int E) (Str.split "-"%char s) = [Ok yyyy; Ok mm; Ok dd]
        /\ 1 <= yyyy <= 9999 /\ 1 <= mm <= 12
        /\ 1 <= dd <= _days_in_month yyyy mm
        /\ day = _ymd2ord yyyy mm dd.
Proof.
  unfold parse_date. split.
  - intros (d & Hd & <-).
    destruct (map (py_int E) (Str.split "-" s))
      as [|[yyyy|] [|[mm|] [|[dd|] [|x rest]]]]; try discriminate.
    cbn [Py.bind] in Hd. apply datetime_ymd_Ok in Hd as [Hv ->].
    exists yyyy, mm, dd. rewrite date_of_midnight. intuition.
  - intros (yyyy & mm & dd & -> & Hy & Hm & Hd & ->). cbn [Py.bind].
    eexists. split.
    + apply datetime_ymd_Ok. split; [auto | reflexivity].
    + apply date_of_midnight.
Qed.

(** * The pause between two articles *)

Lemma SFcompare_antisym (x y : SpecFloat.spec_float) :
  SpecFloat.SFcompare y x = option_map CompOpp (SpecFloat.SFcompare x y).
Proof.
  destruct x as [sx|sx| |sx mx ex], y as [sy|sy| |sy my ey];
    try reflexivity;
    try (destruct sx; reflexivity);
    try (destruct sy; reflexivity);
    try (destruct sx, sy; reflexivity).
  cbn. fold (Pos.compare my mx). fold (Pos.compare mx my).
  rewrite (Z.compare_antisym ex ey), (Pos.compare_antisym mx my).
  destruct sx, sy; try reflexivity;
    destruct (ex ?= ey); cbn; try reflexivity;
    destruct (Pos.compare mx my); reflexivity.
Qed.

(** On floats that are numbers, [not (y < x)] is [x <= y]. *)
Lemma float_not_lt_is_le (x y : float) :
  PrimFloat.ltb y x = false ->
  PrimFloat.is_nan x = false -> PrimFloat.is_nan y = false ->
  PrimFloat.leb x y = true.
Proof.
  unfold PrimFloat.is_nan.
  rewrite ltb_spec, leb_spec, !eqb_spec.
  unfold SpecFloat.SFltb, SpecFloat.SFleb, SpecFloat.SFeqb.
  rewrite (SFcompare_antisym (Prim2SF x) (Prim2SF y)).
  intros Hlt Hx Hy.
  destruct (SpecFloat.SFcompare (Prim2SF x) (Prim2SF y)) as [[| |]|] eqn:Hc;
    cbn in Hlt; try reflexivity; try discriminate Hlt.
  exfalso.
  destruct (Prim2SF x) as [sx|sx| |sx mx ex],
           (Prim2SF y) as [sy|sy| |sy my ey];
    cbn in Hx, Hy, Hc; discriminate.
Qed.

Section SleepFacts.

Variable E : PyLib.

(** The clamp of [ai_today]: a sleep that is a number is between 0 and
    2. *)
Lemma parse_sleep_clamped (sleep_str : option string) :
  PrimFloat.is_nan (parse_sleep E sleep_str) = false ->
  PrimFloat.leb 0 (parse_sleep E sleep_str) = true
  /\ PrimFloat.leb (parse_sleep E sleep_str) 2 = true.
Proof.
  unfold parse_sleep.
  destruct sleep_str as [s|]; [|split; reflexivity].
  destruct (negb (Str.is_empty s)); [|split; reflexivity].
  destruct (py_float E s) as [x|]; [|split; reflexivity].
  destruct (PrimFloat.ltb x 0) eqn:Hneg.
  - change (PrimFloat.ltb 2 0) with false. cbv iota. split; reflexivity.
  - destruct (PrimFloat.ltb 2 x) eqn:Hbig; [split; reflexivity|].
    intros Hnan. split; apply float_not_lt_is_le; auto.
Qed.

(** The loop sleeps for [sleep_sec] and for nothing else, and only when
    [time.sleep] takes it. *)
Lemma crawl_loop_sleeps (today_kst : datetime) (sleep_sec : float)
  (links : list string) (results : list Article) (sec : float) :
  In (EvSleep sec)
     (trace (crawl_loop E today_kst sleep_sec links results)) ->
  sec = sleep_sec
  /\ PrimFloat.ltb sleep_sec 0 || PrimFloat.is_nan sleep_sec = false.
Proof.
  revert results. induction links as [|link rest IH]; intros results;
    [intros []|].
  cbn [crawl_loop]. rewrite trace_bindM. intros H.
  apply in_app_or in H as [H | H].
  - assert (Hin : In (EvSleep sec)
                     (network_activity
                        (trace (try_visit E today_kst results link)))).
    { apply filter_In. split; [exact H | reflexivity]. }
    rewrite try_visit_activity in Hin.
    destruct Hin as [Hin | []]. discriminate Hin.
  - destruct (outcome (try_visit E today_kst results link)) as [res|];
      [|destruct H].
    rewrite trace_bindM in H. unfold time_sleep in H.
    destruct (PrimFloat.ltb sleep_sec 0 || PrimFloat.is_nan sleep_sec)
      eqn:Hbad; cbn in H; [destruct H|].
    destruct H as [[= <-] | H]; [auto|].
    apply (IH res) in H as [-> _]. auto.
Qed.

Lemma crawl_today_sleeps (category_url : string)
  (today_kst : option datetime) (limit : Z) (sleep_sec sec : float) :
  In (EvSleep sec)
     (trace (crawl_today E category_url today_kst limit sleep_sec)) ->
  sec = sleep_sec
  /\ PrimFloat.ltb sleep_sec 0 || PrimFloat.is_nan sleep_sec = false.
Proof.
  unfold crawl_today. rewrite trace_bindM, get_article_links_trace.
  intros [H | H]; [discriminate H|].
  destruct (outcome (get_article_links E category_url limit));
    [|destruct H].
  now apply crawl_loop_sleeps in H.
Qed.

Lemma respond_sleeps (raw : RawParams) (sec : float) :
  In (EvSleep sec) (trace (respond E raw)) ->
  sec = parse_sleep E (sleep_str raw)
  /\ PrimFloat.is_nan sec = false.
Proof.
  assert (Hcrawl : forall today_kst k,
             In (EvSleep sec)
                (trace (bindM (crawl_today_at E (category_url raw)
                                 today_kst
                                 (parse_limit E (limit_str raw))
                                 (parse_sleep E (sleep_str raw)))
                          (fun items : list Article =>
                             ret (k items : HttpResponse)))) ->
             sec = parse_sleep E (sleep_str raw)
             /\ PrimFloat.is_nan sec = false).
  { intros today_kst k. rewrite trace_bindM. intros H.
    apply in_app_or in H as [H | H].
    - destruct (category_url raw) as [| | | |u| |]; try destruct H.
      cbn [crawl_today_at] in H.
      apply crawl_today_sleeps in H as [-> H].
      apply orb_false_iff in H as [_ H]. auto.
    - destruct (outcome _); destruct H. }
  unfold respond.
  destruct (truthy (date_str raw));
    [destruct (parse_date E (date_str raw)); [|intros []]|];
    apply Hcrawl.
Qed.

End SleepFacts.

(** X23.  The handler never pauses for a negative time or for more than
    two seconds: every sleep of a request is for a time between 0 and 2
    seconds. *)
Theorem handler_sleeps_between_0_and_2_seconds
  (E : PyLib) (req : HttpRequest) (sec : float) :
  In (EvSleep sec) (trace (ai_today E req)) ->
  PrimFloat.leb 0 sec = true /\ PrimFloat.leb sec 2 = true.
Proof.
  unfold ai_today. rewrite trace_try_M, trace_lift_bindM. intros H.
  apply in_app_or in H as [H | H].
  - destruct (collect_params E req) as [raw|]; [|destruct H].
    apply respond_sleeps in H as [-> Hnan].
    now apply parse_sleep_clamped.
  - destruct (outcome _); [destruct H|].
    destruct H as [H | []]. discriminate H.
Qed.

Lemma handler_sleeps_between_0_and_2_seconds_witness :
  let E := Demo.env
             (Demo.mkWorld
                [(CATEGORY_URL, ("<html>front</html>", Demo.two_headlines))]
                [] [] [] [("7.5", 7.5%float)] Demo.insertion_order) in
  let req := mkRequest "GET" [("sleep", "7.5")] (Raise ValueError) in
  In (EvSleep 2) (trace (ai_today E req))
  /\ PrimFloat.leb 0 2 = true /\ PrimFloat.leb 2 2 = true.
Proof.
  cbv zeta.
  assert (H : In (EvSleep 2)
                (trace
                   (ai_today
                      (Demo.env
                         (Demo.mkWorld
                            [(CATEGORY_URL,
                              ("<html>front</html>", Demo.two_headlines))]
                            [] [] [] [("7.5", 7.5%float)]
                            Demo.insertion_order))
                      (mkRequest "GET" [("sleep", "7.5")]
                         (Raise ValueError)))))
    by (vm_compute; do 3 right; left; reflexivity).
  split; [exact H|].
  exact (handler_sleeps_between_0_and_2_seconds _ _ _ H).
Defined.

(** * The body of an article *)

Lemma string_app_nil_r (s : string) : s ++ "" = s.
Proof. induction s as [|a r IH]; cbn; [reflexivity | now rewrite IH]. Qed.

Lemma string_app_assoc (a b c : string) : (a ++ b) ++ c = a ++ (b ++ c).
Proof. induction a as [|x r IH]; cbn; [reflexivity | now rewrite IH]. Qed.

Lemma rev_app (a b : string) : Str.rev (a ++ b) = Str.rev b ++ Str.rev a.
Proof.
  induction a as [|x r IH]; cbn.
  - now rewrite string_app_nil_r.
  - now rewrite IH, string_app_assoc.
Qed.

Lemma rev_involutive (s : string) : Str.rev (Str.rev s) = s.
Proof.
  induction s as [|a r IH]; cbn; [reflexivity|].
  rewrite rev_app, IH. reflexivity.
Qed.

Lemma lstrip_idempotent (p : ascii -> bool) (s : string) :
  Str.lstrip p (Str.lstrip p s) = Str.lstrip p s.
Proof.
  induction s as [|a r IH]; cbn; [reflexivity|].
  destruct (p a) eqn:Ha; [exact IH|]. cbn. now rewrite Ha.
Qed.

Lemma lstrip_app_kept (p : ascii -> bool) (x : string) (a : ascii)
  (y : string) :
  p a = false ->
  Str.lstrip p (x ++ String a y) = Str.lstrip p x ++ String a y.
Proof.
  intros Ha. induction x as [|b r IH]; cbn.
  - now rewrite Ha.
  - destruct (p b); [exact IH | reflexivity].
Qed.

Lemma rstrip_idempotent (p : ascii -> bool) (s : string) :
  Str.rstrip p (Str.rstrip p s) = Str.rstrip p s.
Proof.
  unfold Str.rstrip. now rewrite rev_involutive, lstrip_idempotent.
Qed.

(** Stripping the right end keeps a left end that is already
    stripped. *)
Lemma lstrip_rstrip (p : ascii -> bool) (s : string) :
  Str.lstrip p s = s -> Str.lstrip p (Str.rstrip p s) = Str.rstrip p s.
Proof.
  destruct s as [|a r]; [reflexivity|].
  cbn [Str.lstrip]. destruct (p a) eqn:Ha.
  - intros H. exfalso.
    assert (Hlen : (String.length (Str.lstrip p r) <= String.length r)%nat).
    { clear. induction r as [|b r IH]; cbn; [lia|].
      destruct (p b); cbn; lia. }
    rewrite H in Hlen. cbn in Hlen. lia.
  - intros _. unfold Str.rstrip. cbn [Str.rev].
    rewrite lstrip_app_kept by exact Ha.
    rewrite rev_app. cbn. now rewrite Ha.
Qed.

Lemma strip_stripped (p : ascii -> bool) (s : string) :
  Str.lstrip p (Str.strip p s) = Str.strip p s
  /\ Str.rstrip p (Str.strip p s) = Str.strip p s.
Proof.
  unfold Str.strip. split.
  - apply lstrip_rstrip, lstrip_idempotent.
  - apply rstrip_idempotent.
Qed.

(** X24.  The body of an extracted article has no white space at
    either end: stripping it on the left or on the right changes
    nothing. *)
Theorem article_body_is_stripped
  (E : PyLib) (link : string) (art : Article) :
  outcome (parse_article E link) = Ok art ->
  Str.lstrip Str.is_space (body art) = body art
  /\ Str.rstrip Str.is_space (body art) = body art.
Proof.
  rewrite parse_article_outcome.
  destruct (page E link) as [soup|]; [|discriminate]. cbn [Py.bind].
  destruct (published_dt E soup) as [dt|]; [|discriminate].
  cbn [Py.bind].
  destruct (get_ldjson_article_body E soup) as [ld|]; [|discriminate].
  cbn [Py.bind].
  destruct (iso_in E utc_fromutc dt); [|discriminate]. cbn [Py.bind].
  destruct (iso_in E (kst_fromutc E) dt); [|discriminate].
  cbn [Py.bind].
  destruct (body_strip ld (extract_paragraphs soup)) as [b|] eqn:Hb;
    [|discriminate].
  cbn [Py.bind]. intros [= <-]. cbn [body].
  unfold body_strip in Hb.
  destruct ld as [[| | | |s| |]|]; try discriminate;
    injection Hb as <-; apply strip_stripped.
Qed.

Lemma article_body_is_stripped_witness :
  let E := Demo.env (Demo.newsroom Demo.insertion_order) in
  outcome (parse_article E Demo.alpha_url)
  = Ok (mkArticle Demo.alpha_url "Alpha"
          (Some "@63893059200000000/0")
          (Some "@63893091600000000/32400000000") "Alpha body.")
  /\ Str.lstrip Str.is_space "Alpha body." = "Alpha body."
  /\ Str.rstrip Str.is_space "Alpha body." = "Alpha body.".
Proof.
  cbv zeta.
  assert (H : outcome (parse_article
                         (Demo.env (Demo.newsroom Demo.insertion_order))
                         Demo.alpha_url)
              = Ok (mkArticle Demo.alpha_url "Alpha"
                      (Some "@63893059200000000/0")
                      (Some "@63893091600000000/32400000000")
                      "Alpha body."))
    by (vm_compute; reflexivity).
  split; [exact H|].
  exact (article_body_is_stripped _ _ _ H).
Defined.
